(** * Video analytics pipeline: event model, quality validator, monitor and
      Beam transforms, embedded from the Python sources

    - the Python values the sources compute with -> Module [Py]
    - [schemas/models.py]        -> Module [Models]
    - [utils/data_quality.py]    -> Modules [DataQuality], [Monitor]
    - [beam/transforms.py]       -> Module [Transforms]
    - the notions the results are stated with, and sample inputs
                                 -> Modules [CheckerNotions],
                                    [MonitorNotions], [TransformNotions]
    - the stages run on many elements, and the field constraints of the
      model                      -> Modules [StageNotions],
                                    [FieldConstraints]
    - [monitoring/metrics.py]    -> Modules [Metrics], [MetricsNotions],
                                    [Health], [HealthNotions]
    - [config/settings.py]       -> Modules [Settings], [SettingsNotions]
    - [beam/pipeline.py]         -> Module [Pipeline]
    - [security/iam.py]          -> Modules [Security], [SecurityNotions]
    - [pubsub/manager.py]        -> Module [PubSub]
    - the results                -> Modules [ModelFacts], [CheckerFacts],
                                    [MonitorFacts], [TransformFacts],
                                    [StageFacts], [EnrichFacts], [RuleFacts],
                                    [MetricsFacts], [SettingsFacts],
                                    [PipelineFacts], [HealthFacts],
                                    [SecurityFacts], [CompositionFacts],
                                    [PubSubFacts]

    Python floats are IEEE binary64 numbers: they are modelled by the kernel's
    primitive floats, so every arithmetic step and comparison below rounds
    exactly as the interpreter does. *)

From Stdlib Require Import ZArith List String Ascii Bool Lia Floats.
From Stdlib Require Import DecimalString.
From Stdlib Require Import Sorting.Permutation Sorting.Sorted.
Import ListNotations.
Set Warnings "-inexact-float,-register-all".

(* ================================================================== *)
(** * Python runtime values                                            *)
(* ================================================================== *)

Module Py.

(** ** Exceptions and fallible computations *)

Inductive exn_class :=
| TypeError | ValueError | AttributeError
| JSONDecodeError | ValidationError | JsonSchemaValidationError
| RuntimeError | OverflowError.

(** An exception object: its class (what an [except] clause dispatches on)
    and [str(e)]. *)
Record exn := Exn { exn_cls : exn_class; exn_msg : string }.

Inductive result (A : Type) :=
| Ok (a : A)
| Raise (e : exn).
Arguments Ok {A} a.
Arguments Raise {A} e.

Definition bind {A B} (m : result A) (k : A -> result B) : result B :=
  match m with
  | Ok a => k a
  | Raise e => Raise e
  end.

Notation "x <- m ;; k" := (bind m (fun x => k))
  (at level 61, m at next level, right associativity).

(** ** Floats *)

Definition float := PrimFloat.float.

(** [a > b] and [a >= b] on floats. *)
Definition fgt (a b : float) : bool := PrimFloat.ltb b a.
Definition fge (a b : float) : bool := PrimFloat.leb b a.
Definition flt (a b : float) : bool := PrimFloat.ltb a b.
Definition fle (a b : float) : bool := PrimFloat.leb a b.

(** Truth value of a float: [bool(x)] is [x != 0.0] (so [nan] is true and
    both zeros are false). *)
Definition float_truthy (x : float) : bool := negb (PrimFloat.eqb x 0%float).

(** Truth value of an [Optional[float]]: [None] is false. *)
Definition opt_float_truthy (o : option float) : bool :=
  match o with
  | None => false
  | Some x => float_truthy x
  end.

(** [max(0.0, x)]: the builtin keeps its first argument unless a later one
    compares strictly greater. *)
Definition max0 (x : float) : float :=
  if fgt x 0%float then x else 0%float.

(** [sum(xs)] for a list of floats: a left fold from the integer [0] (the
    interpreters the package names, 3.8 to 3.11, add plainly). *)
Definition fsum (xs : list float) : float :=
  fold_left PrimFloat.add xs 0%float.

(** ** Strings *)

(** Strings are sequences of code points below 256. [str.isspace] on those. *)
Definition is_space (c : ascii) : bool :=
  let n := nat_of_ascii c in
  ((9 <=? n) && (n <=? 13)) || ((28 <=? n) && (n <=? 32))
  || (n =? 133) || (n =? 160).

Fixpoint lstrip (s : string) : string :=
  match s with
  | EmptyString => EmptyString
  | String c r => if is_space c then lstrip r else s
  end.

(** [rstrip] keeps a character when it is not a space or when something is
    kept to its right. *)
Fixpoint rstrip (s : string) : string :=
  match s with
  | EmptyString => EmptyString
  | String c r =>
      match rstrip r with
      | EmptyString => if is_space c then EmptyString else String c EmptyString
      | r' => String c r'
      end
  end.

Definition strip (s : string) : string := rstrip (lstrip s).

(** Truth value of a string: non-empty. *)
Definition str_truthy (s : string) : bool :=
  match s with
  | EmptyString => false
  | String _ _ => true
  end.

(** [s.replace(c, by)] for a one-character pattern: every occurrence. *)
Fixpoint replace_char (c : ascii) (by_ : list ascii) (s : list ascii)
  : list ascii :=
  match s with
  | [] => []
  | x :: r =>
      if Ascii.eqb x c then by_ ++ replace_char c by_ r
      else x :: replace_char c by_ r
  end.

(** [x in xs] for a list of strings. *)
Definition str_in (x : string) (xs : list string) : bool :=
  existsb (String.eqb x) xs.

(** ** Dictionaries

    A [dict] keeps its keys in insertion order; assigning to an existing key
    keeps the key's position. *)

Definition dict (V : Type) := list (string * V).

Fixpoint dict_get {V} (d : dict V) (k : string) : option V :=
  match d with
  | [] => None
  | (k', v) :: r => if String.eqb k' k then Some v else dict_get r k
  end.

(** [d.get(k, default)] *)
Definition dict_get_default {V} (d : dict V) (k : string) (default : V) : V :=
  match dict_get d k with
  | Some v => v
  | None => default
  end.

(** [d[k] = v] *)
Fixpoint dict_set {V} (d : dict V) (k : string) (v : V) : dict V :=
  match d with
  | [] => [(k, v)]
  | (k', v') :: r =>
      if String.eqb k' k then (k', v) :: r else (k', v') :: dict_set r k v
  end.

(** ** [datetime]

    A [datetime] is stored as its wall-clock reading, in microseconds since
    0001-01-01T00:00:00 of the proleptic Gregorian calendar (the one-to-one
    image of its year..microsecond fields), and its [tzinfo]: [None] for a
    naive value, the UTC offset in microseconds for an aware one. *)
Record datetime := Datetime { wall : Z; tzinfo : option Z }.

Definition naive (w : Z) : datetime := Datetime w None.

Definition usec_per_second : Z := 1000000.
Definition usec_per_minute : Z := 60 * usec_per_second.
Definition usec_per_day : Z := 86400 * usec_per_second.

(** [d + timedelta(microseconds=delta)] keeps the [tzinfo]. *)
Definition dt_add (d : datetime) (delta : Z) : datetime :=
  Datetime (wall d + delta) (tzinfo d).

(** *** Arithmetic that can leave the range of the types

    [datetime.min] is 0001-01-01T00:00:00 and [datetime.max] is
    9999-12-31T23:59:59.999999, whose day has the ordinal 3652059. *)
Definition max_wall : Z := 3652059 * usec_per_day - 1.

(** The largest number of days of a [timedelta], in either direction. *)
Definition max_delta_days : Z := 999999999.

(** [str(n)] for an [int]. *)
Definition int_str (n : Z) : string := NilZero.string_of_int (Z.to_int n).

(** [timedelta(minutes=m)] for an [int], in microseconds. The constructor
    normalises to days, seconds and microseconds, the days being the floor
    of [m / 1440]; it raises [OverflowError] when they do not fit a C [int]
    or exceed [max_delta_days] (the messages are CPython's). *)
Definition timedelta_minutes (m : Z) : result Z :=
  let days := (m / 1440)%Z in
  if ((days <? - 2147483648) || (2147483647 <? days))%Z then
    Raise (Exn OverflowError "Python int too large to convert to C int")
  else if ((days <? - max_delta_days) || (max_delta_days <? days))%Z then
    Raise (Exn OverflowError
               ("days=" ++ int_str days ++ "; must have magnitude <= "
                ++ int_str max_delta_days))
  else Ok (m * usec_per_minute)%Z.

(** [d - delta] for a naive [d] read as [w] and a [timedelta] of [delta]
    microseconds: [OverflowError] when the result is not a [datetime]. *)
Definition datetime_sub (w delta : Z) : result Z :=
  let r := (w - delta)%Z in
  if ((0 <=? r) && (r <=? max_wall))%Z then Ok r
  else Raise (Exn OverflowError "date value out of range").

Definition naive_aware_msg : string :=
  "can't compare offset-naive and offset-aware datetimes".

(** [a < b]: two naive values compare by wall clock, two aware values by UTC
    instant, and a mixed pair raises [TypeError]. *)
Definition dt_lt (a b : datetime) : result bool :=
  match tzinfo a, tzinfo b with
  | None, None => Ok (wall a <? wall b)%Z
  | Some oa, Some ob => Ok (wall a - oa <? wall b - ob)%Z
  | _, _ => Raise (Exn TypeError naive_aware_msg)
  end.

Definition dt_gt (a b : datetime) : result bool := dt_lt b a.

(** [a == b] never raises: a mixed pair is unequal. *)
Definition dt_eq (a b : datetime) : bool :=
  match tzinfo a, tzinfo b with
  | None, None => (wall a =? wall b)%Z
  | Some oa, Some ob => (wall a - oa =? wall b - ob)%Z
  | _, _ => false
  end.

(** *** Calendar arithmetic of [datetime.py] *)

Definition _is_leap (y : Z) : bool :=
  ((y mod 4 =? 0) && (negb (y mod 100 =? 0) || (y mod 400 =? 0)))%Z.

Definition _days_before_year (y : Z) : Z :=
  let y' := (y - 1)%Z in
  (y' * 365 + y' / 4 - y' / 100 + y' / 400)%Z.

Definition _days_in_month (y m : Z) : Z :=
  if (m =? 2)%Z then (if _is_leap y then 29 else 28)%Z
  else if ((m =? 4) || (m =? 6) || (m =? 9) || (m =? 11))%Z then 30%Z
  else 31%Z.

Definition _days_before_month (y m : Z) : Z :=
  let base := nth (Z.to_nat m)
                [0; 0; 31; 59; 90; 120; 151; 181; 212; 243; 273; 304; 334]%Z
                0%Z in
  (base + (if (2 <? m)%Z && _is_leap y then 1 else 0))%Z.

Definition _ymd2ord (y m d : Z) : Z :=
  (_days_before_year y + _days_before_month y m + d)%Z.

(** The constructor [datetime(y, m, d, hh, mm, ss, us, tzinfo)]: [None] when
    a field is out of range ([ValueError]). *)
Definition make_datetime (y m d hh mm ss us : Z) (tz : option Z)
  : option datetime :=
  if ((1 <=? y) && (y <=? 9999) && (1 <=? m) && (m <=? 12)
      && (1 <=? d) && (d <=? _days_in_month y m)
      && (0 <=? hh) && (hh <=? 23) && (0 <=? mm) && (mm <=? 59)
      && (0 <=? ss) && (ss <=? 59) && (0 <=? us) && (us <=? 999999))%Z
  then Some (Datetime
               (((((_ymd2ord y m d - 1) * 24 + hh) * 60 + mm) * 60 + ss)
                * usec_per_second + us)%Z
               tz)
  else None.

(** *** [datetime.fromisoformat]

    The grammar documented for Python 3.7 to 3.10,
    [YYYY-MM-DD[*HH[:MM[:SS[.fff[fff]]]][+HH:MM[:SS[.ffffff]]]]], with the
    structure of [Lib/datetime.py]; [None] stands for [ValueError]. Later
    interpreters read these strings the same way and accept further ISO 8601
    spellings, which the model rejects. *)

Definition is_digit (c : ascii) : bool :=
  let n := nat_of_ascii c in (48 <=? n) && (n <=? 57).

Fixpoint digits (cs : list ascii) (acc : Z) : option Z :=
  match cs with
  | [] => Some acc
  | c :: r =>
      if is_digit c
      then digits r (10 * acc + (Z.of_nat (nat_of_ascii c) - 48))%Z
      else None
  end.

Definition int (cs : list ascii) : option Z :=
  match cs with
  | [] => None
  | _ => digits cs 0%Z
  end.

Definition _parse_isoformat_date (cs : list ascii) : option (Z * Z * Z) :=
  match cs with
  | [y1; y2; y3; y4; s1; m1; m2; s2; d1; d2] =>
      if Ascii.eqb s1 "-" && Ascii.eqb s2 "-" then
        match int [y1; y2; y3; y4], int [m1; m2], int [d1; d2] with
        | Some y, Some m, Some d => Some (y, m, d)
        | _, _, _ => None
        end
      else None
  | _ => None
  end.

(** Two digits and what follows them. *)
Definition two (cs : list ascii) : option (Z * list ascii) :=
  match cs with
  | a :: b :: r => option_map (fun v => (v, r)) (int [a; b])
  | _ => None
  end.

Definition _parse_fraction (r : list ascii) : option Z :=
  match r with
  | [] => Some 0%Z
  | c :: f =>
      if Ascii.eqb c "." then
        if (List.length f =? 3)%nat then option_map (Z.mul 1000) (int f)
        else if (List.length f =? 6)%nat then int f
        else None
      else None
  end.

Definition _parse_hh_mm_ss_ff (cs : list ascii) : option (Z * Z * Z * Z) :=
  match two cs with
  | None => None
  | Some (hh, r0) =>
      match r0 with
      | [] => Some (hh, 0, 0, 0)%Z
      | c0 :: r0' =>
          if negb (Ascii.eqb c0 ":") then None else
          match two r0' with
          | None => None
          | Some (mm, r1) =>
              match r1 with
              | [] => Some (hh, mm, 0, 0)%Z
              | c1 :: r1' =>
                  if negb (Ascii.eqb c1 ":") then None else
                  match two r1' with
                  | None => None
                  | Some (ss, r2) =>
                      option_map (fun us => (hh, mm, ss, us))
                                 (_parse_fraction r2)
                  end
              end
          end
      end
  end.

(** [s.find(c)]: index of the first occurrence. *)
Fixpoint find (c : ascii) (cs : list ascii) : option nat :=
  match cs with
  | [] => None
  | x :: r => if Ascii.eqb x c then Some O else option_map S (find c r)
  end.

(** [tz_pos = (tstr.find('-') + 1 or tstr.find('+') + 1)]: the position
    after the first minus sign, or else after the first plus sign. *)
Definition tz_pos (tstr : list ascii) : option nat :=
  match find "-" tstr with
  | Some i => Some (S i)
  | None => option_map S (find "+" tstr)
  end.

(** The [tzinfo] read from the part after the sign: [timezone.utc] when all
    components are zero, else [timezone(sign * td)], which needs an offset
    strictly within a day. *)
Definition _parse_tz (neg : bool) (tzstr : list ascii) : option Z :=
  let n := List.length tzstr in
  if ((n =? 5) || (n =? 8) || (n =? 15))%nat then
    match _parse_hh_mm_ss_ff tzstr with
    | None => None
    | Some (hh, mm, ss, us) =>
        let td := (((hh * 60 + mm) * 60 + ss) * usec_per_second + us)%Z in
        if (td =? 0)%Z then Some 0%Z
        else if (td <? usec_per_day)%Z
             then Some (if neg then (- td)%Z else td)
             else None
    end
  else None.

Definition _parse_isoformat_time (tstr : list ascii)
  : option (Z * Z * Z * Z * option Z) :=
  if (List.length tstr <? 2)%nat then None else
  match tz_pos tstr with
  | None =>
      option_map (fun c => (c, None)) (_parse_hh_mm_ss_ff tstr)
  | Some p =>
      match _parse_hh_mm_ss_ff (firstn (p - 1) tstr) with
      | None => None
      | Some c =>
          let neg := match nth_error tstr (p - 1) with
                     | Some x => Ascii.eqb x "-"
                     | None => false
                     end in
          option_map (fun tz => (c, Some tz)) (_parse_tz neg (skipn p tstr))
      end
  end.

Definition fromisoformat_chars (cs : list ascii) : option datetime :=
  match _parse_isoformat_date (firstn 10 cs) with
  | None => None
  | Some (y, m, d) =>
      match skipn 11 cs with
      | [] =>
          if (List.length cs <=? 10)%nat then make_datetime y m d 0 0 0 0 None
          else None
      | tstr =>
          match _parse_isoformat_time tstr with
          | None => None
          | Some (hh, mm, ss, us, tz) => make_datetime y m d hh mm ss us tz
          end
      end
  end.

Definition fromisoformat (s : string) : option datetime :=
  fromisoformat_chars (list_ascii_of_string s).

End Py.

(* ================================================================== *)
(** * [schemas/models.py]                                              *)
(* ================================================================== *)

Module Models.
Import Py.
Local Open Scope string_scope.

(** Values of type [Any], and what [.dict()] returns. *)
Inductive PyVal :=
| PyNone
| PyBool (b : bool)
| PyFloat (f : float)
| PyStr (s : string)
| PyDatetime (d : datetime)
| PyDict (kv : list (string * PyVal)).

Inductive EventType :=
| MOTION_DETECTED
| PERSON_DETECTED
| VEHICLE_DETECTED
| ANOMALY_DETECTED
| PERFORMANCE_METRIC
| SYSTEM_EVENT.

(** The value of an enumeration member; with [use_enum_values = True] this
    string is what the [event_type] attribute holds. *)
Definition EventType_value (t : EventType) : string :=
  match t with
  | MOTION_DETECTED => "motion_detected"
  | PERSON_DETECTED => "person_detected"
  | VEHICLE_DETECTED => "vehicle_detected"
  | ANOMALY_DETECTED => "anomaly_detected"
  | PERFORMANCE_METRIC => "performance_metric"
  | SYSTEM_EVENT => "system_event"
  end.

Record Location := {
  latitude : option float;
  longitude : option float;
  address : option string
}.

Record VideoSource := {
  source_id : string;
  camera_id : string;
  location : option Location
}.

Record BoundingBox := {
  x : float;
  y : float;
  width : float;
  height : float
}.

Record EventData := {
  confidence : option float;
  bounding_box : option BoundingBox;
  metrics : option (dict float);
  attributes : option (dict PyVal)
}.

Record ProcessingMetadata := {
  pipeline_version : option string;
  processing_time : option datetime;
  model_version : option string
}.

Record VideoAnalyticsEvent := {
  event_id : string;
  timestamp : datetime;
  video_source : VideoSource;
  event_type : EventType;
  data : EventData;
  processing_metadata : option ProcessingMetadata
}.

(** The [pre=True] validator of [timestamp], on a string input: first the
    string with every ["Z"] replaced by ["+00:00"], and on [ValueError] the
    string as it is. A [ValueError] that leaves the validator is what
    pydantic reports as a [ValidationError] of the model. *)
Definition parse_timestamp (v : string) : result datetime :=
  match fromisoformat_chars
          (replace_char "Z" (list_ascii_of_string "+00:00")
                        (list_ascii_of_string v)) with
  | Some d => Ok d
  | None =>
      match fromisoformat v with
      | Some d => Ok d
      | None =>
          Raise (Exn ValueError ("Invalid isoformat string: '" ++ v ++ "'"))
      end
  end.

(** The [timestamp] field of the constructor, for a string input: the
    [datetime] of the validator is kept as it is, and its [ValueError] is
    reported as a [ValidationError] (of the report pydantic builds, only the
    validator's message is kept). *)
Definition construct_timestamp (v : string) : result datetime :=
  match parse_timestamp v with
  | Ok d => Ok d
  | Raise e => Raise (Exn ValidationError (exn_msg e))
  end.

(** The same validator over the library's [datetime.fromisoformat], whose
    grammar depends on the interpreter ([setup.py] allows 3.8 and later, and
    3.11 reads more spellings than 3.10): [None] stands for its
    [ValueError]. *)
Section Validator.

Variable fromisoformat_impl : string -> option datetime.

Definition parse_timestamp_with (v : string) : result datetime :=
  match fromisoformat_impl
          (string_of_list_ascii
             (replace_char "Z" (list_ascii_of_string "+00:00")
                           (list_ascii_of_string v))) with
  | Some d => Ok d
  | None =>
      match fromisoformat_impl v with
      | Some d => Ok d
      | None =>
          Raise (Exn ValueError ("Invalid isoformat string: '" ++ v ++ "'"))
      end
  end.

Definition construct_timestamp_with (v : string) : result datetime :=
  match parse_timestamp_with v with
  | Ok d => Ok d
  | Raise e => Raise (Exn ValidationError (exn_msg e))
  end.

End Validator.

(** ** [.dict()] *)

Definition opt_val {A} (f : A -> PyVal) (o : option A) : PyVal :=
  match o with
  | None => PyNone
  | Some a => f a
  end.

Definition Location_dict (l : Location) : PyVal :=
  PyDict [("latitude", opt_val PyFloat (latitude l));
          ("longitude", opt_val PyFloat (longitude l));
          ("address", opt_val PyStr (address l))].

Definition VideoSource_dict (s : VideoSource) : PyVal :=
  PyDict [("source_id", PyStr (source_id s));
          ("camera_id", PyStr (camera_id s));
          ("location", opt_val Location_dict (location s))].

Definition BoundingBox_dict (b : BoundingBox) : PyVal :=
  PyDict [("x", PyFloat (x b)); ("y", PyFloat (y b));
          ("width", PyFloat (width b)); ("height", PyFloat (height b))].

Definition EventData_dict (d : EventData) : PyVal :=
  PyDict [("confidence", opt_val PyFloat (confidence d));
          ("bounding_box", opt_val BoundingBox_dict (bounding_box d));
          ("metrics",
           opt_val (fun m => PyDict (map (fun kv => (fst kv, PyFloat (snd kv)))
                                         m))
                   (metrics d));
          ("attributes", opt_val PyDict (attributes d))].

Definition ProcessingMetadata_dict (m : ProcessingMetadata) : PyVal :=
  PyDict [("pipeline_version", opt_val PyStr (pipeline_version m));
          ("processing_time", opt_val PyDatetime (processing_time m));
          ("model_version", opt_val PyStr (model_version m))].

(** [event.dict()]: nested models become dictionaries; a [datetime] stays a
    [datetime] object and the event type is its string value. *)
Definition event_dict (e : VideoAnalyticsEvent) : PyVal :=
  PyDict [("event_id", PyStr (event_id e));
          ("timestamp", PyDatetime (timestamp e));
          ("video_source", VideoSource_dict (video_source e));
          ("event_type", PyStr (EventType_value (event_type e)));
          ("data", EventData_dict (data e));
          ("processing_metadata",
           opt_val ProcessingMetadata_dict (processing_metadata e))].

End Models.

(* ================================================================== *)
(** * [utils/data_quality.py]: [DataQualityChecker]                    *)
(* ================================================================== *)

Module DataQuality.
Import Py Models.
Local Open Scope string_scope.
Local Open Scope list_scope.
Local Infix "+++" := String.append (right associativity, at level 60).

Record ValidationResult := {
  is_valid : bool;
  errors : list string;
  warnings : list string;
  score : float
}.

(** ** The JSON schema of [_load_json_schema] and its validation

    The schema uses the keywords [type], [required], [properties],
    [minLength], [format] and [enum]; [jsonschema.validate] asserts all of
    them but [format], which is an annotation unless a format checker is
    passed (none is). *)

Inductive json_type := TObject | TString.

Inductive Schema :=
| MkSchema (type : option json_type)
           (required : list string)
           (properties : list (string * Schema))
           (minLength : option nat)
           (format : option string)
           (enum : option (list string)).

Definition string_schema (minLength : option nat) (format : option string)
  (enum : option (list string)) : Schema :=
  MkSchema (Some TString) [] [] minLength format enum.

Definition schema : Schema :=
  MkSchema (Some TObject)
    ["event_id"; "timestamp"; "video_source"; "event_type"; "data"]
    [("event_id", string_schema (Some 1%nat) None None);
     ("timestamp", string_schema None (Some "date-time") None);
     ("video_source",
      MkSchema (Some TObject) ["source_id"; "camera_id"]
        [("source_id", string_schema (Some 1%nat) None None);
         ("camera_id", string_schema (Some 1%nat) None None)]
        None None None);
     ("event_type",
      string_schema None None
        (Some ["motion_detected"; "person_detected"; "vehicle_detected";
               "anomaly_detected"; "performance_metric"; "system_event"]));
     ("data", MkSchema (Some TObject) [] [] None None None)]
    None None None.

(** A failed keyword and the path of the instance it failed on. *)
Record violation := { v_path : list string; v_keyword : string }.

Definition under (p : string) (v : violation) : violation :=
  {| v_path := p :: v_path v; v_keyword := v_keyword v |}.

Definition is_type (t : json_type) (inst : PyVal) : bool :=
  match t, inst with
  | TObject, PyDict _ => true
  | TString, PyStr _ => true
  | _, _ => false
  end.

Fixpoint iter_errors (s : Schema) (inst : PyVal) {struct s} : list violation :=
  match s with
  | MkSchema type required properties minLength _ enum =>
      (match type with
       | Some t => if is_type t inst then [] else [Build_violation [] "type"]
       | None => []
       end)
      ++ (match inst with
          | PyDict kv =>
              flat_map (fun r => match dict_get kv r with
                                 | Some _ => []
                                 | None => [Build_violation [] "required"]
                                 end) required
          | _ => []
          end)
      ++ (match inst with
          | PyDict kv =>
              (fix each (ps : list (string * Schema)) : list violation :=
                 match ps with
                 | [] => []
                 | (p, sub) :: r =>
                     (match dict_get kv p with
                      | Some v => map (under p) (iter_errors sub v)
                      | None => []
                      end) ++ each r
                 end) properties
          | _ => []
          end)
      ++ (match minLength, inst with
          | Some n, PyStr v =>
              if (String.length v <? n)%nat
              then [Build_violation [] "minLength"] else []
          | _, _ => []
          end)
      ++ (match enum with
          | Some vs =>
              match inst with
              | PyStr v => if str_in v vs then []
                           else [Build_violation [] "enum"]
              | _ => [Build_violation [] "enum"]
              end
          | None => []
          end)
  end.

(** The texts the Python runtime and [jsonschema] produce and that the
    checker copies into its messages: a float inside an f-string, and the
    [message] of the error that [validate] raises for a non-empty list of
    violations. No property below depends on what they are. *)
Class Rendering := {
  float_repr : float -> string;
  best_match_message : list violation -> string
}.

(** What lines 88 to 95 can do: [event.dict()] and [validate] return, or
    [validate] raises [JsonSchemaValidationError], or one of the two calls
    raises anything else. *)
Inductive schema_outcome :=
| SchemaPass
| SchemaFail (message : string)
| Unexpected (message : string).

Definition schema_check `{Rendering} (event : VideoAnalyticsEvent)
  : schema_outcome :=
  match iter_errors schema (event_dict event) with
  | [] => SchemaPass
  | errs => SchemaFail (best_match_message errs)
  end.

(** ** Rule bodies

    A rule appends to its two lists inside one [try] block; what was
    appended before an exception stays. *)

Record RuleResult := {
  rule_errors : list string;
  rule_warnings : list string;
  severity : float
}.

Record findings := { f_errors : list string; f_warnings : list string }.

Definition Body := findings -> findings * option exn.

Definition skip : Body := fun f => (f, None).

Definition seq (a b : Body) : Body :=
  fun f => match a f with
           | (f', None) => b f'
           | (f', Some e) => (f', Some e)
           end.

Definition append_error (m : string) : Body :=
  fun f => ({| f_errors := f_errors f ++ [m]; f_warnings := f_warnings f |},
            None).

Definition append_warning (m : string) : Body :=
  fun f => ({| f_errors := f_errors f; f_warnings := f_warnings f ++ [m] |},
            None).

(** [if c: body], where evaluating [c] may raise. *)
Definition when (c : result bool) (body : Body) : Body :=
  fun f => match c with
           | Ok true => body f
           | Ok false => (f, None)
           | Raise e => (f, Some e)
           end.

(** [if c: body] for a condition that cannot raise. *)
Definition when_ (c : bool) (body : Body) : Body :=
  fun f => if c then body f else (f, None).

Notation "a ;;; b" := (seq a b) (at level 62, right associativity).

(** [try: body / except Exception as e: errors.append(prefix + str(e))],
    then the returned dictionary. *)
Definition try_except (sev : float) (prefix : string) (body : Body)
  : RuleResult :=
  match body {| f_errors := []; f_warnings := [] |} with
  | (f, None) =>
      {| rule_errors := f_errors f; rule_warnings := f_warnings f;
         severity := sev |}
  | (f, Some e) =>
      {| rule_errors := f_errors f ++ [prefix +++ exn_msg e];
         rule_warnings := f_warnings f; severity := sev |}
  end.

Section Rules.
Context `{Rendering}.

(** [now] is the reading of [datetime.utcnow()], a naive value. *)
Definition _validate_timestamp (now : Z) (event : VideoAnalyticsEvent)
  : RuleResult :=
  try_except 0.8%float "Timestamp validation error: "
    (when (dt_gt (timestamp event) (dt_add (naive now) (5 * usec_per_minute)))
          (append_error "Timestamp is too far in the future") ;;;
     when (dt_lt (timestamp event) (dt_add (naive now) (- (7 * usec_per_day))))
          (append_warning "Timestamp is quite old (more than 7 days)") ;;;
     when (match processing_metadata event with
           | None => Ok false
           | Some pm =>
               match processing_time pm with
               | None => Ok false
               | Some pt => dt_lt pt (timestamp event)
               end
           end)
          (append_warning "Processing time is before event timestamp")).

Definition _validate_confidence (event : VideoAnalyticsEvent) : RuleResult :=
  try_except 0.5%float "Confidence validation error: "
    (match confidence (data event) with
     | None => skip
     | Some c =>
         when_ (negb (fle 0.0%float c && fle c 1.0%float))
               (append_error ("Confidence score " +++ float_repr c
                              +++ " is out of range [0,1]")) ;;;
         when_ (str_in (EventType_value (event_type event))
                       ["person_detected"; "vehicle_detected"]
                && flt c 0.3%float)
               (append_warning "Very low confidence for detection event")
     end).

Definition _validate_bounding_box (event : VideoAnalyticsEvent) : RuleResult :=
  try_except 0.6%float "Bounding box validation error: "
    (match bounding_box (data event) with
     | None => skip
     | Some bbox =>
         when_ (flt (x bbox) 0%float || flt (y bbox) 0%float)
               (append_error "Bounding box has negative coordinates") ;;;
         when_ (fle (width bbox) 0%float || fle (height bbox) 0%float)
               (append_error "Bounding box has invalid dimensions") ;;;
         when_ (flt (width bbox) 10%float || flt (height bbox) 10%float)
               (append_warning "Bounding box is very small") ;;;
         when_ (fgt (width bbox) 3840%float || fgt (height bbox) 2160%float)
               (append_warning
                  "Bounding box dimensions exceed typical video resolution")
     end).

Definition _validate_event_consistency (event : VideoAnalyticsEvent)
  : RuleResult :=
  let t := EventType_value (event_type event) in
  try_except 0.7%float "Event consistency validation error: "
    (when_ (str_in t ["person_detected"; "vehicle_detected"; "motion_detected"]
            && match confidence (data event) with None => true | _ => false end)
           (append_warning ("Detection event '" +++ t
                            +++ "' missing confidence score")) ;;;
     when_ (str_in t ["person_detected"; "vehicle_detected"]
            && match bounding_box (data event) with
               | None => true | _ => false end)
           (append_warning ("Visual detection event '" +++ t
                            +++ "' missing bounding box")) ;;;
     when_ (String.eqb t "performance_metric"
            && match metrics (data event) with
               | None => true
               | Some m => (List.length m =? 0)%nat
               end)
           (append_error "Performance metric event missing metrics data")).

Definition _validate_source_integrity (event : VideoAnalyticsEvent)
  : RuleResult :=
  let src := video_source event in
  try_except 0.4%float "Source integrity validation error: "
    (when_ (negb (str_truthy (strip (source_id src))))
           (append_error "Empty video source ID") ;;;
     when_ (negb (str_truthy (strip (camera_id src))))
           (append_error "Empty camera ID") ;;;
     match location src with
     | None => skip
     | Some loc =>
         when_ (match latitude loc with
                | None => false
                | Some l => negb (fle (-90)%float l && fle l 90%float)
                end)
               (append_error "Invalid latitude value") ;;;
         when_ (match longitude loc with
                | None => false
                | Some l => negb (fle (-180)%float l && fle l 180%float)
                end)
               (append_error "Invalid longitude value")
     end).

End Rules.

(** ** [validate_event] *)

(** A rule as [validate_event] sees it: a callable that returns its
    dictionary or raises. *)
Definition Rule := VideoAnalyticsEvent -> result RuleResult.

Record checker_state := {
  st_errors : list string;
  st_warnings : list string;
  quality_score : float
}.

Definition nonempty {A} (l : list A) : bool :=
  match l with
  | [] => false
  | _ :: _ => true
  end.

(** One iteration of the loop over [self.validation_rules.items()]. *)
Definition apply_rule (event : VideoAnalyticsEvent) (st : checker_state)
  (r : string * Rule) : checker_state :=
  let (rule_name, rule_func) := r in
  match rule_func event with
  | Ok rule_result =>
      let st1 :=
        if nonempty (rule_errors rule_result) then
          {| st_errors := st_errors st ++ rule_errors rule_result;
             st_warnings := st_warnings st;
             quality_score :=
               (quality_score st - severity rule_result * 0.2)%float |}
        else st in
      if nonempty (rule_warnings rule_result) then
        {| st_errors := st_errors st1;
           st_warnings := st_warnings st1 ++ rule_warnings rule_result;
           quality_score :=
             (quality_score st1 - severity rule_result * 0.1)%float |}
      else st1
  | Raise e =>
      {| st_errors :=
           st_errors st
           ++ ["Validation rule '" +++ rule_name +++ "' failed: "
               +++ exn_msg e];
         st_warnings := st_warnings st;
         quality_score := (quality_score st - 0.1)%float |}
  end.

(** The state when the rule loop starts. *)
Definition after_schema (pre : schema_outcome) : checker_state :=
  match pre with
  | SchemaFail message =>
      {| st_errors := ["Schema validation failed: " +++ message];
         st_warnings := [];
         quality_score := (1.0 - 0.3)%float |}
  | _ => {| st_errors := []; st_warnings := []; quality_score := 1.0%float |}
  end.

(** [validate_event] over the outcome of the schema step and the rule
    table. The outer handler can only be reached from the schema step: the
    loop body has its own handler for everything. *)
Definition validate_event_with (pre : schema_outcome)
  (validation_rules : list (string * Rule)) (event : VideoAnalyticsEvent)
  : ValidationResult :=
  match pre with
  | Unexpected message =>
      {| is_valid := false;
         errors := ["Unexpected validation error: " +++ message];
         warnings := [];
         score := 0.0%float |}
  | _ =>
      let st := fold_left (apply_rule event) validation_rules
                          (after_schema pre) in
      {| is_valid := (List.length (st_errors st) =? 0)%nat;
         errors := st_errors st;
         warnings := st_warnings st;
         score := max0 (quality_score st) |}
  end.

Section Checker.
Context `{Rendering}.

(** [_initialize_validation_rules], in insertion order. *)
Definition validation_rules (now : Z) : list (string * Rule) :=
  [("timestamp_validity", fun e => Ok (_validate_timestamp now e));
   ("confidence_range", fun e => Ok (_validate_confidence e));
   ("bounding_box_validity", fun e => Ok (_validate_bounding_box e));
   ("event_consistency", fun e => Ok (_validate_event_consistency e));
   ("source_integrity", fun e => Ok (_validate_source_integrity e))].

(** [DataQualityChecker().validate_event(event)] when the clock reads
    [now]. *)
Definition validate_event (now : Z) (event : VideoAnalyticsEvent)
  : ValidationResult :=
  validate_event_with (schema_check event) (validation_rules now) event.

End Checker.

End DataQuality.

(* ================================================================== *)
(** * [utils/data_quality.py]: [DataQualityMonitor]                    *)
(* ================================================================== *)

Module Monitor.
Import Py Models DataQuality.
Local Open Scope string_scope.
Local Open Scope list_scope.

(** An entry of [quality_history]; its timestamp is a reading of
    [datetime.utcnow()]. *)
Record history_record := {
  h_timestamp : Z;
  h_event_id : string;
  h_quality_score : float;
  h_is_valid : bool;
  error_count : nat;
  warning_count : nat
}.

Record DataQualityMonitor := {
  quality_history : list history_record;
  error_counts : dict nat;
  warning_counts : dict nat
}.

Definition new_monitor : DataQualityMonitor :=
  {| quality_history := []; error_counts := []; warning_counts := [] |}.

(** [counts[m] = counts.get(m, 0) + 1] for each message, in order. *)
Definition count_messages (counts : dict nat) (ms : list string) : dict nat :=
  fold_left (fun d m => dict_set d m (dict_get_default d m 0 + 1)) ms counts.

Definition record_validation_result (now : Z) (m : DataQualityMonitor)
  (result : ValidationResult) (event_id : string) : DataQualityMonitor :=
  {| quality_history :=
       quality_history m
       ++ [{| h_timestamp := now;
              h_event_id := event_id;
              h_quality_score := score result;
              h_is_valid := is_valid result;
              error_count := List.length (errors result);
              warning_count := List.length (warnings result) |}];
     error_counts := count_messages (error_counts m) (errors result);
     warning_counts := count_messages (warning_counts m) (warnings result) |}.

(** [sorted(items, key=lambda x: x[1], reverse=True)]: the sort is stable,
    also when reversed, so items with equal counts keep their order. An
    item is inserted before the first one with a strictly smaller count. *)
Fixpoint insert_desc (x : string * nat) (l : list (string * nat))
  : list (string * nat) :=
  match l with
  | [] => [x]
  | y :: r => if (snd y <? snd x)%nat then x :: l else y :: insert_desc x r
  end.

Definition sorted_desc (items : list (string * nat)) : list (string * nat) :=
  fold_left (fun acc x => insert_desc x acc) items [].

(** An [int] as a float (exact below 2^53). *)
Definition float_of_nat (n : nat) : float :=
  PrimFloat.of_uint63 (Uint63.of_Z (Z.of_nat n)).

Record quality_metrics := {
  window_minutes : Z;
  total_events : nat;
  valid_events : nat;
  validity_rate : float;
  average_quality_score : float;
  total_errors : nat;
  total_warnings : nat;
  top_errors : list (string * nat);
  top_warnings : list (string * nat)
}.

(** [datetime.utcnow() - timedelta(minutes=window_minutes)], for the clock
    reading [now] and an [int] window: the [timedelta] or the subtraction
    raises [OverflowError] when the window is too long for the one or takes
    the cutoff out of the years 1 to 9999. *)
Definition cutoff_time (now : Z) (window_minutes : Z) : result Z :=
  delta <- timedelta_minutes window_minutes ;;
  datetime_sub now delta.

(** The records newer than the cutoff. *)
Definition recent_records (now : Z) (window_minutes : Z)
  (m : DataQualityMonitor) : result (list history_record) :=
  cutoff <- cutoff_time now window_minutes ;;
  Ok (filter (fun record => (cutoff <? h_timestamp record)%Z)
             (quality_history m)).

(** [get_quality_metrics]; [None] stands for the dictionary
    [{"no_data": True}]. Nothing catches the [OverflowError] of the
    cutoff. *)
Definition get_quality_metrics (now : Z) (m : DataQualityMonitor)
  (window_minutes : Z) : result (option quality_metrics) :=
  recent <- recent_records now window_minutes m ;;
  match recent with
  | [] => Ok None
  | _ =>
      let total := List.length recent in
      let valid := List.length (filter h_is_valid recent) in
      Ok (Some
            {| window_minutes := window_minutes;
               total_events := total;
               valid_events := valid;
               validity_rate := (float_of_nat valid / float_of_nat total)%float;
               average_quality_score :=
                 (fsum (map h_quality_score recent)
                  / float_of_nat total)%float;
               total_errors := list_sum (map error_count recent);
               total_warnings := list_sum (map warning_count recent);
               top_errors := firstn 5 (sorted_desc (error_counts m));
               top_warnings := firstn 5 (sorted_desc (warning_counts m)) |})
  end.

End Monitor.

(* ================================================================== *)
(** * [beam/transforms.py]                                             *)
(* ================================================================== *)

Module Transforms.
Import Py Models DataQuality.
Local Open Scope string_scope.
Local Open Scope list_scope.
Local Infix "+++" := String.append (right associativity, at level 60).

(** ** [MetricsCollector]

    The collector of a transform is built without a project, so it has no
    client: counters accumulate in [self.counters] (a [defaultdict(int)])
    and exporting only logs them. *)
Definition Counters := dict Z.

Definition metric_prefix : string := "video_analytics".

Definition increment_counter (counters : Counters) (metric_name : string)
  : Counters :=
  let key := metric_prefix +++ "." +++ metric_name in
  dict_set counters key (dict_get_default counters key 0 + 1)%Z.

Definition counter (counters : Counters) (metric_name : string) : Z :=
  dict_get_default counters (metric_prefix +++ "." +++ metric_name) 0%Z.

(** ** [ParseVideoEvent] *)

(** What the attribute [event.processing_metadata] holds between lines 54
    and 58: a model, or the dictionary assigned at line 55. *)
Inductive metadata_object :=
| MetaModel (m : ProcessingMetadata)
| MetaDict (d : dict PyVal).

(** [o.processing_time = t]: a dictionary has no settable attributes. *)
Definition set_processing_time (o : metadata_object) (t : datetime)
  : result metadata_object :=
  match o with
  | MetaModel m =>
      Ok (MetaModel {| pipeline_version := pipeline_version m;
                       processing_time := Some t;
                       model_version := model_version m |})
  | MetaDict _ =>
      Raise (Exn AttributeError
                 "'dict' object has no attribute 'processing_time'")
  end.

(** [o.pipeline_version = v] *)
Definition set_pipeline_version (o : metadata_object) (v : string)
  : result metadata_object :=
  match o with
  | MetaModel m =>
      Ok (MetaModel {| pipeline_version := Some v;
                       processing_time := processing_time m;
                       model_version := model_version m |})
  | MetaDict _ =>
      Raise (Exn AttributeError
                 "'dict' object has no attribute 'pipeline_version'")
  end.

Definition with_metadata (event : VideoAnalyticsEvent)
  (m : option ProcessingMetadata) : VideoAnalyticsEvent :=
  {| event_id := event_id event;
     timestamp := timestamp event;
     video_source := video_source event;
     event_type := event_type event;
     data := data event;
     processing_metadata := m |}.

(** Lines 54 to 58. A model object is true; [None] is not, and is replaced
    by an empty dictionary before the two assignments. *)
Definition add_processing_metadata (now : Z) (event : VideoAnalyticsEvent)
  : result VideoAnalyticsEvent :=
  let o := match processing_metadata event with
           | None => MetaDict []
           | Some m => MetaModel m
           end in
  o1 <- set_processing_time o (naive now) ;;
  o2 <- set_pipeline_version o1 "1.0.0" ;;
  match o2 with
  | MetaModel m => Ok (with_metadata event (Some m))
  | MetaDict _ => Ok event  (* not reached: the assignments raise *)
  end.

Section ParseStage.

(** Lines 44 and 47: [json.loads(element.decode('utf-8'))], which raises
    [JSONDecodeError] on malformed JSON, and the [VideoAnalyticsEvent]
    constructor, which raises [ValidationError] on a structurally invalid
    event; both are library code and are taken as they are. *)
Variable json_loads : string -> result PyVal.
Variable construct : PyVal -> result VideoAnalyticsEvent.

(** [self.data_quality_checker.validate_event] *)
Variable checker : VideoAnalyticsEvent -> ValidationResult.

(** The [try] block: the events yielded and the counters, or the exception
    that leaves it. *)
Definition parse_body (now : Z) (element : string) (counters : Counters)
  : result (list VideoAnalyticsEvent * Counters) :=
  event_data <- json_loads element ;;
  event <- construct event_data ;;
  let quality_result := checker event in
  if is_valid quality_result then
    event' <- add_processing_metadata now event ;;
    Ok ([event'], increment_counter counters "events_processed_success")
  else
    Ok ([], increment_counter counters "events_data_quality_failed").

(** [ParseVideoEvent.process] with its three handlers. *)
Definition ParseVideoEvent_process_with (now : Z) (element : string)
  (counters : Counters) : list VideoAnalyticsEvent * Counters :=
  match parse_body now element counters with
  | Ok r => r
  | Raise e =>
      match exn_cls e with
      | JSONDecodeError =>
          ([], increment_counter counters "events_parse_failed")
      | ValidationError =>
          ([], increment_counter counters "events_validation_failed")
      | _ => ([], increment_counter counters "events_processing_error")
      end
  end.

End ParseStage.

(** The stage as [setup] configures it: with a [DataQualityChecker]. The
    clock is read twice, by the timestamp rule ([checked_at]) and for the
    processing time ([now]). *)
Definition ParseVideoEvent_process `{Rendering}
  (json_loads : string -> result PyVal)
  (construct : PyVal -> result VideoAnalyticsEvent)
  (checked_at now : Z) (element : string) (counters : Counters)
  : list VideoAnalyticsEvent * Counters :=
  ParseVideoEvent_process_with json_loads construct (validate_event checked_at)
                               now element counters.

(** ** [EnrichEvent] *)

Definition with_attributes (event : VideoAnalyticsEvent)
  (a : option (dict PyVal)) : VideoAnalyticsEvent :=
  {| event_id := event_id event;
     timestamp := timestamp event;
     video_source := video_source event;
     event_type := event_type event;
     data := {| confidence := confidence (data event);
                bounding_box := bounding_box (data event);
                metrics := metrics (data event);
                attributes := a |};
     processing_metadata := processing_metadata event |}.

(** [if not attributes: attributes = {}], then [attributes[k] = True]. *)
Definition set_attribute (event : VideoAnalyticsEvent) (k : string)
  : VideoAnalyticsEvent :=
  let attrs := match attributes (data event) with
               | None => []
               | Some d => d
               end in
  with_attributes event (Some (dict_set attrs k (PyBool true))).

(** Lines 104 to 108 *)
Definition mark_high_confidence (event : VideoAnalyticsEvent)
  : VideoAnalyticsEvent :=
  if str_in (EventType_value (event_type event))
            ["person_detected"; "vehicle_detected"]
     && opt_float_truthy (confidence (data event))
     && match confidence (data event) with
        | Some c => fgt c 0.9%float
        | None => false
        end
  then set_attribute event "high_confidence"
  else event.

(** Lines 111 to 114 *)
Definition mark_has_location (event : VideoAnalyticsEvent)
  : VideoAnalyticsEvent :=
  match location (video_source event) with
  | Some _ => set_attribute event "has_location"
  | None => event
  end.

(** The enrichment of a well-typed event, which raises nothing. *)
Definition enrich (event : VideoAnalyticsEvent) : VideoAnalyticsEvent :=
  mark_has_location (mark_high_confidence event).



(** ** [FilterAnomalies] *)

(** The dictionary the classifier yields; ["event"] holds [event.dict()],
    kept here as the event, and ["processed_at"] the clock reading. *)
Record Filtered := {
  event : VideoAnalyticsEvent;
  is_anomaly : bool;
  processing_priority : string;
  processed_at : Z
}.

(** The anomaly conditions of lines 148 to 156. *)
Definition detect_anomaly (confidence_threshold : float)
  (e : VideoAnalyticsEvent) : bool :=
  if String.eqb (EventType_value (event_type e)) "anomaly_detected" then true
  else if opt_float_truthy (confidence (data e))
          && match confidence (data e) with
             | Some c => fgt c confidence_threshold
             | None => false
             end
          && str_in (EventType_value (event_type e))
                    ["person_detected"; "vehicle_detected"]
       then true
       else false.

Definition FilterAnomalies_process (confidence_threshold : float) (now : Z)
  (e : VideoAnalyticsEvent) (counters : Counters)
  : list Filtered * Counters :=
  let is_anomaly := detect_anomaly confidence_threshold e in
  let result := {| event := e;
                   is_anomaly := is_anomaly;
                   processing_priority :=
                     if is_anomaly then "high" else "normal";
                   processed_at := now |} in
  let counters1 := if is_anomaly
                   then increment_counter counters "anomalies_detected"
                   else counters in
  ([result], increment_counter counters1 "events_filtered").

(** The default of [confidence_threshold]. *)
Definition default_confidence_threshold : float := 0.95%float.

(** The two [beam.Filter] steps of [pipeline.py] after the classifier. *)
Definition normal_events (filtered : list Filtered) : list Filtered :=
  filter (fun x => negb (is_anomaly x)) filtered.

Definition anomaly_events (filtered : list Filtered) : list Filtered :=
  filter (fun x => is_anomaly x) filtered.

(** ** [WindowedAggregation] *)

Record Aggregation := {
  window_start : Z;
  window_end : Z;
  agg_source_id : string;
  total_events : nat;
  event_type_counts : dict nat;
  average_confidence : float;
  high_confidence_events : nat;
  aggregated_at : Z
}.

(** The loop of lines 206 to 211 over the grouped events: the counts per
    event type and the confidence scores collected. *)
Definition aggregate_step (acc : dict nat * list float) (event_dict : Filtered)
  : dict nat * list float :=
  let (event_types, confidence_scores) := acc in
  let t := EventType_value (event_type (event event_dict)) in
  (dict_set event_types t (dict_get_default event_types t 0 + 1),
   if opt_float_truthy (confidence (data (event event_dict)))
   then match confidence (data (event event_dict)) with
        | Some c => confidence_scores ++ [c]
        | None => confidence_scores
        end
   else confidence_scores).

(** [WindowedAggregation.process] on [(key, events)] and the window bounds
    (kept as instants; the source renders them with [isoformat]). *)
Definition WindowedAggregation_process (now : Z) (key : string)
  (events : list Filtered) (window_start window_end : Z)
  (counters : Counters) : list Aggregation * Counters :=
  let total_events := List.length events in
  let (event_types, confidence_scores) :=
    fold_left aggregate_step events ([], []) in
  let avg_confidence :=
    if nonempty confidence_scores
    then (fsum confidence_scores
          / Monitor.float_of_nat (List.length confidence_scores))%float
    else 0%float in
  ([{| window_start := window_start;
       window_end := window_end;
       agg_source_id := key;
       total_events := total_events;
       event_type_counts := event_types;
       average_confidence := avg_confidence;
       high_confidence_events :=
         List.length (filter (fun s => fgt s 0.9%float) confidence_scores);
       aggregated_at := now |}],
   increment_counter counters "windows_aggregated").

End Transforms.

(* ================================================================== *)
(** * Notions used to state the results                                *)
(* ================================================================== *)

Module CheckerNotions.
Import Py Models DataQuality.
Local Open Scope string_scope.
Local Open Scope list_scope.
Local Infix "+++" := String.append (right associativity, at level 60).

(** ** The rule loop, read off one rule at a time *)

(** What one call of a rule adds to [errors] and to [warnings]. *)
Definition outcome_errors (rule_name : string) (o : result RuleResult)
  : list string :=
  match o with
  | Ok r => rule_errors r
  | Raise e =>
      ["Validation rule '" +++ rule_name +++ "' failed: " +++ exn_msg e]
  end.

Definition outcome_warnings (o : result RuleResult) : list string :=
  match o with
  | Ok r => rule_warnings r
  | Raise _ => []
  end.

(** The score after a rule that returned [r]: one decrement when it has
    errors, one when it has warnings. *)
Definition rule_step (s : float) (r : RuleResult) : float :=
  let s1 := if nonempty (rule_errors r)
            then (s - severity r * 0.2)%float else s in
  if nonempty (rule_warnings r) then (s1 - severity r * 0.1)%float else s1.

Definition step_score (s : float) (o : result RuleResult) : float :=
  match o with
  | Ok r => rule_step s r
  | Raise _ => (s - 0.1)%float
  end.

Definition loop_errors (e : VideoAnalyticsEvent)
  (rules : list (string * Rule)) : list string :=
  List.concat (map (fun r => outcome_errors (fst r) (snd r e)) rules).

Definition loop_warnings (e : VideoAnalyticsEvent)
  (rules : list (string * Rule)) : list string :=
  List.concat (map (fun r => outcome_warnings (snd r e)) rules).

Definition loop_score (e : VideoAnalyticsEvent)
  (rules : list (string * Rule)) (s : float) : float :=
  fold_left step_score (map (fun r => snd r e) rules) s.

(** The five rule results, in the order of the rule table. *)
Definition rule_results `{Rendering} (now : Z) (e : VideoAnalyticsEvent)
  : list RuleResult :=
  [_validate_timestamp now e; _validate_confidence e;
   _validate_bounding_box e; _validate_event_consistency e;
   _validate_source_integrity e].

(** ** The score as the specification words it

    "decremented by severity * 0.2 per error and severity * 0.1 per warning":
    one decrement for every error and for every warning of every rule,
    from 1.0, clamped at 0. *)
Definition claimed_rule_step (s : float) (r : RuleResult) : float :=
  let s1 := fold_left (fun s _ => (s - severity r * 0.2)%float)
                      (rule_errors r) s in
  fold_left (fun s _ => (s - severity r * 0.1)%float) (rule_warnings r) s1.

Definition claimed_score (results : list RuleResult) : float :=
  max0 (fold_left claimed_rule_step results 1.0%float).

(** ** The finitely many ways a rule can move the score *)

Inductive penalty :=
| NoPenalty | ErrorPenalty | WarningPenalty | BothPenalties | FlatPenalty.

Definition penalty_of (o : result RuleResult) : penalty :=
  match o with
  | Ok r =>
      match nonempty (rule_errors r), nonempty (rule_warnings r) with
      | false, false => NoPenalty
      | true, false => ErrorPenalty
      | false, true => WarningPenalty
      | true, true => BothPenalties
      end
  | Raise _ => FlatPenalty
  end.

Definition penalty_step (s : float) (sp : float * penalty) : float :=
  let (sev, p) := sp in
  match p with
  | NoPenalty => s
  | ErrorPenalty => (s - sev * 0.2)%float
  | WarningPenalty => (s - sev * 0.1)%float
  | BothPenalties => (s - sev * 0.2 - sev * 0.1)%float
  | FlatPenalty => (s - 0.1)%float
  end.

(** The severities of the rule table, in its order. *)
Definition severities : list float := [0.8; 0.5; 0.6; 0.7; 0.4]%float.

Definition all_penalties : list penalty :=
  [NoPenalty; ErrorPenalty; WarningPenalty; BothPenalties; FlatPenalty].

Definition in_range (hi x : float) : bool := fle 0%float x && fle x hi.

Definition final_score (init : float) (ps : list penalty) : float :=
  max0 (fold_left penalty_step (combine severities ps) init).

(** Every combination of penalties of the five rules, started from [init],
    ends with a score in [[0, hi]]. *)
Definition bounded_for (init hi : float) : bool :=
  forallb (fun p1 => forallb (fun p2 => forallb (fun p3 =>
  forallb (fun p4 => forallb (fun p5 =>
    in_range hi (final_score init [p1; p2; p3; p4; p5]))
  all_penalties) all_penalties) all_penalties) all_penalties) all_penalties.

(** A table of five rules, each of which, on [e], raises or returns a
    dictionary with the severity the shipped rule at its place has. *)
Definition conforming (e : VideoAnalyticsEvent)
  (rules : list (string * Rule)) : Prop :=
  Forall2 (fun sev r => match snd r e with
                        | Ok rr => severity rr = sev
                        | Raise _ => True
                        end) severities rules.

(** ** An event the five rules find nothing wrong with

    One test per rule: the conditions under which the rule appends nothing. *)

Definition visual_detection (t : EventType) : bool :=
  match t with PERSON_DETECTED | VEHICLE_DETECTED => true | _ => false end.

Definition detection (t : EventType) : bool :=
  match t with
  | MOTION_DETECTED | PERSON_DETECTED | VEHICLE_DETECTED => true
  | _ => false
  end.

Definition is_none {A} (o : option A) : bool :=
  match o with None => true | Some _ => false end.

Definition clean_timestamp (now : Z) (e : VideoAnalyticsEvent) : bool :=
  is_none (tzinfo (timestamp e))
  && (wall (timestamp e) <=? now + 5 * usec_per_minute)%Z
  && (now - 7 * usec_per_day <=? wall (timestamp e))%Z
  && match processing_metadata e with
     | None => true
     | Some pm =>
         match processing_time pm with
         | None => true
         | Some pt => is_none (tzinfo pt) && (wall (timestamp e) <=? wall pt)%Z
         end
     end.

Definition clean_confidence (e : VideoAnalyticsEvent) : bool :=
  match confidence (data e) with
  | None => true
  | Some c => fle 0%float c && fle c 1%float
              && negb (visual_detection (event_type e) && flt c 0.3%float)
  end.

Definition clean_bounding_box (e : VideoAnalyticsEvent) : bool :=
  match bounding_box (data e) with
  | None => true
  | Some b =>
      negb (flt (x b) 0%float || flt (y b) 0%float)
      && negb (fle (width b) 0%float || fle (height b) 0%float)
      && negb (flt (width b) 10%float || flt (height b) 10%float)
      && negb (fgt (width b) 3840%float || fgt (height b) 2160%float)
  end.

Definition clean_consistency (e : VideoAnalyticsEvent) : bool :=
  negb (detection (event_type e) && is_none (confidence (data e)))
  && negb (visual_detection (event_type e) && is_none (bounding_box (data e)))
  && negb (match event_type e with PERFORMANCE_METRIC => true | _ => false end
           && match metrics (data e) with
              | None => true
              | Some m => (List.length m =? 0)%nat
              end).

Definition clean_source (e : VideoAnalyticsEvent) : bool :=
  str_truthy (strip (source_id (video_source e)))
  && str_truthy (strip (camera_id (video_source e)))
  && match location (video_source e) with
     | None => true
     | Some loc =>
         match latitude loc with
         | None => true
         | Some l => fle (-90)%float l && fle l 90%float
         end
         && match longitude loc with
            | None => true
            | Some l => fle (-180)%float l && fle l 180%float
            end
     end.

Definition clean (now : Z) (e : VideoAnalyticsEvent) : bool :=
  clean_timestamp now e && clean_confidence e && clean_bounding_box e
  && clean_consistency e && clean_source e.

Definition no_findings (sev : float) : RuleResult :=
  {| rule_errors := []; rule_warnings := []; severity := sev |}.

(** ** Sample inputs *)

(** A rendering for the closed examples. *)
Definition plain_rendering : Rendering :=
  {| float_repr := fun _ => "<float>";
     best_match_message := fun _ => "<message>" |}.

(** 2023-12-01T10:30:00 on the wall clock. *)
Definition now0 : Z := 63837023400000000.

(** The fixture of [tests/test_models.py], [TestDataQualityChecker]. *)
Definition valid_event : VideoAnalyticsEvent :=
  {| event_id := "test_event_001";
     timestamp := naive now0;
     video_source := {| source_id := "camera_001"; camera_id := "cam_123";
                        location := None |};
     event_type := PERSON_DETECTED;
     data := {| confidence := Some 0.95%float;
                bounding_box := Some {| x := 10%float; y := 20%float;
                                        width := 100%float;
                                        height := 80%float |};
                metrics := None; attributes := None |};
     processing_metadata := None |}.

(** The same event with blank identifiers of its source. *)
Definition blank_source_event : VideoAnalyticsEvent :=
  {| event_id := "test_event_002";
     timestamp := naive now0;
     video_source := {| source_id := " "; camera_id := " ";
                        location := None |};
     event_type := PERSON_DETECTED;
     data := data valid_event;
     processing_metadata := None |}.

(** The same event with the timestamp that ["2023-12-01T10:30:00Z"] parses
    to: an aware value. *)
Definition aware_event : VideoAnalyticsEvent :=
  {| event_id := "test_event_003";
     timestamp := Datetime now0 (Some 0%Z);
     video_source := video_source valid_event;
     event_type := PERSON_DETECTED;
     data := data valid_event;
     processing_metadata := None |}.

(** The fixture with confidence 0.1. *)
Definition low_confidence_event : VideoAnalyticsEvent :=
  {| event_id := "test_event_004";
     timestamp := naive now0;
     video_source := video_source valid_event;
     event_type := PERSON_DETECTED;
     data := {| confidence := Some 0.1%float;
                bounding_box := bounding_box (data valid_event);
                metrics := None; attributes := None |};
     processing_metadata := None |}.

(** ** A failure inside a rule as the specification words it

    "converted to an error string attributed to that rule, and decrements
    the score by a flat 0.1". *)
Definition claimed_failure_entry (rule_name : string) (ex : exn) : string :=
  "Validation rule '" +++ rule_name +++ "' failed: " +++ exn_msg ex.

Definition claimed_failure_score (s : float) : float := (s - 0.1)%float.

(** The characters that replace a ["Z"]. *)
Definition utc_suffix : list ascii := list_ascii_of_string "+00:00".

End CheckerNotions.

Module MonitorNotions.
Import Py Models DataQuality Monitor.
Local Open Scope string_scope.
Local Open Scope list_scope.

(** How often [k] occurs in [ms]. *)
Definition occurrences (k : string) (ms : list string) : nat :=
  List.length (filter (String.eqb k) ms).

(** The distinct messages of [ms], each at the place of its first
    occurrence. *)
Fixpoint first_seen (ms : list string) : list string :=
  match ms with
  | [] => []
  | m :: r => m :: filter (fun k => negb (String.eqb k m)) (first_seen r)
  end.

(** The counter dictionary for the messages [ms]: every distinct message, in
    first-seen order, with its number of occurrences. *)
Definition tally (ms : list string) : dict nat :=
  map (fun k => (k, occurrences k ms)) (first_seen ms).

Definition keys {V} (d : dict V) : list string := map fst d.

Definition has_key {V} (d : dict V) (k : string) : bool :=
  existsb (String.eqb k) (keys d).

(** The entries of [d] after counting [ms], and the messages of [ms] that
    are new to [d]. *)
Definition bump (d : dict nat) (ms : list string) : dict nat :=
  map (fun kv => (fst kv, snd kv + occurrences (fst kv) ms)) d.

Definition fresh (d : dict nat) (ms : list string) : list string :=
  filter (fun k => negb (has_key d k)) (first_seen ms).

Definition count_is (n : nat) (kv : string * nat) : bool := (snd kv =? n)%nat.

Definition descending (a b : string * nat) : Prop := snd b <= snd a.

(** [l'] is [l] sorted by decreasing count, the items of equal count in the
    order they have in [l]. *)
Definition stable_descending_sort (l l' : list (string * nat)) : Prop :=
  Permutation l l'
  /\ StronglySorted descending l'
  /\ forall n, filter (count_is n) l' = filter (count_is n) l.

(** One call of [record_validation_result]: the clock reading and the two
    arguments. *)
Record recording := {
  r_now : Z;
  r_result : ValidationResult;
  r_event_id : string
}.

(** A monitor after the calls [rs], from a new one. *)
Definition record_all (rs : list recording) : DataQualityMonitor :=
  fold_left (fun m r => record_validation_result (r_now r) m (r_result r)
                                                 (r_event_id r))
            rs new_monitor.

Definition history_of (r : recording) : history_record :=
  {| h_timestamp := r_now r;
     h_event_id := r_event_id r;
     h_quality_score := score (r_result r);
     h_is_valid := is_valid (r_result r);
     error_count := List.length (errors (r_result r));
     warning_count := List.length (warnings (r_result r)) |}.

(** Recorded after the cutoff of the window that ends at [now]. *)
Definition in_window (now window_minutes : Z) (r : recording) : bool :=
  (now - window_minutes * usec_per_minute <? r_now r)%Z.

(** The cutoff can be computed: the window, in whole days, is a
    [timedelta], and the cutoff is a [datetime] of the years 1 to 9999. *)
Definition cutoff_in_range (now window_minutes : Z) : bool :=
  ((- max_delta_days <=? window_minutes / 1440)
   && (window_minutes / 1440 <=? max_delta_days)
   && (0 <=? now - window_minutes * usec_per_minute)
   && (now - window_minutes * usec_per_minute <=? max_wall))%Z.

Definition all_errors (rs : list recording) : list string :=
  flat_map (fun r => errors (r_result r)) rs.

Definition all_warnings (rs : list recording) : list string :=
  flat_map (fun r => warnings (r_result r)) rs.

(** The ["top_errors"] of a report, when there is one. *)
Definition reported_top_errors (r : result (option quality_metrics))
  : option (list (string * nat)) :=
  match r with
  | Ok (Some q) => Some (top_errors q)
  | _ => None
  end.

(** ** Sample inputs *)

Definition old_failure : recording :=
  {| r_now := 0;
     r_result := {| is_valid := false; errors := ["old failure"];
                    warnings := []; score := 0.5%float |};
     r_event_id := "e1" |}.

Definition recent_success : recording :=
  {| r_now := 100 * usec_per_minute;
     r_result := {| is_valid := true; errors := []; warnings := [];
                    score := 1.0%float |};
     r_event_id := "e2" |}.

End MonitorNotions.

Module TransformNotions.
Import Py Models DataQuality Transforms CheckerNotions.
Local Open Scope string_scope.
Local Open Scope list_scope.

(** Two events that differ at most in [data.attributes]. *)
Definition same_but_attributes (a b : VideoAnalyticsEvent) : Prop :=
  event_id a = event_id b /\ timestamp a = timestamp b
  /\ video_source a = video_source b /\ event_type a = event_type b
  /\ confidence (data a) = confidence (data b)
  /\ bounding_box (data a) = bounding_box (data b)
  /\ metrics (data a) = metrics (data b)
  /\ processing_metadata a = processing_metadata b.

(** ** The classifier as the specification words it

    "[event_type == anomaly_detected], OR ([confidence > threshold] AND
    [event_type] is a detection-family type)", the family being
    [motion_detected], [person_detected] and [vehicle_detected]. *)
Definition detection_family (t : EventType) : bool :=
  match t with
  | MOTION_DETECTED | PERSON_DETECTED | VEHICLE_DETECTED => true
  | _ => false
  end.

Definition claimed_is_anomaly (threshold : float) (e : VideoAnalyticsEvent)
  : bool :=
  match event_type e with
  | ANOMALY_DETECTED => true
  | t => match confidence (data e) with
         | Some c => fgt c threshold && detection_family t
         | None => false
         end
  end.

(** ** The average as the specification words it

    "mean of collected confidence values (0 if none observed)", the values
    being those present on the events of the window. *)
Definition present_confidences (events : list Filtered) : list float :=
  flat_map (fun x => match confidence (data (event x)) with
                     | Some c => [c]
                     | None => []
                     end) events.

(** The values the aggregation loop collects: those whose truth value is
    true, that is, the ones present and different from zero. *)
Definition collected_confidences (events : list Filtered) : list float :=
  flat_map (fun x => match confidence (data (event x)) with
                     | Some c => if float_truthy c then [c] else []
                     | None => []
                     end) events.

Definition claimed_average_confidence (events : list Filtered) : float :=
  let cs := present_confidences events in
  if nonempty cs
  then (fsum cs / Monitor.float_of_nat (List.length cs))%float
  else 0%float.

(** ** Sample inputs *)

(** A checker that accepts every event. *)
Definition accepting_checker : VideoAnalyticsEvent -> ValidationResult :=
  fun _ => {| is_valid := true; errors := []; warnings := [];
              score := 1.0%float |}.

(** An event of source [A] with the given type and confidence. *)
Definition event_of (t : EventType) (c : option float) : VideoAnalyticsEvent :=
  {| event_id := "evt";
     timestamp := naive now0;
     video_source := {| source_id := "A"; camera_id := "cam_1";
                        location := None |};
     event_type := t;
     data := {| confidence := c; bounding_box := None; metrics := None;
                attributes := None |};
     processing_metadata := None |}.

(** The same, as the classifier passes it on to the normal branch. *)
Definition classified (t : EventType) (c : option float) : Filtered :=
  {| event := event_of t c;
     is_anomaly := false;
     processing_priority := "normal";
     processed_at := now0 |}.

End TransformNotions.

Module FieldConstraints.
Import Py Models.

(** The field constraints of [BoundingBox] and of [EventData.confidence]
    in [schemas/models.py] ([ge=0], [gt=0], [le=1]), which the constructor
    checks. *)
Definition BoundingBox_constraints (b : BoundingBox) : bool :=
  fge (x b) 0%float && fge (y b) 0%float
  && fgt (width b) 0%float && fgt (height b) 0%float.

Definition EventData_constraints (d : EventData) : bool :=
  match confidence d with
  | None => true
  | Some c => fge c 0%float && fle c 1%float
  end
  && match bounding_box d with
     | None => true
     | Some b => BoundingBox_constraints b
     end.

End FieldConstraints.

Module StageNotions.
Import Py Models DataQuality Transforms.
Local Open Scope string_scope.
Local Open Scope list_scope.

(** [beam.ParDo(fn)] on the elements a worker receives: [fn.process] is
    called on one element after the other, with the collector that [setup]
    created, and what the calls yield is passed on in that order. Every
    call comes with its own reading of the clock. *)
Definition par_do {A B}
  (process : Z -> A -> Counters -> list B * Counters)
  (elements : list (Z * A)) (counters : Counters) : list B * Counters :=
  fold_left (fun acc el =>
               let (o, c) := process (fst el) (snd el) (snd acc) in
               (fst acc ++ o, c))
            elements ([], counters).

(** [ParseVideoEvent.process] as an element function: an element comes with
    the reading of the clock by the checker, [now] being the one taken for
    the processing time. *)
Definition parse_process
  (json_loads : string -> result PyVal)
  (construct : PyVal -> result VideoAnalyticsEvent)
  (checker : Z -> VideoAnalyticsEvent -> ValidationResult)
  (now : Z) (el : Z * string) (counters : Counters)
  : list VideoAnalyticsEvent * Counters :=
  ParseVideoEvent_process_with json_loads construct (checker (fst el))
                               now (snd el) counters.

(** The counters [ParseVideoEvent.process] writes to. *)
Definition parse_counters : list string :=
  ["events_processed_success"; "events_data_quality_failed";
   "events_parse_failed"; "events_validation_failed";
   "events_processing_error"].

(** The sum of the named counters. *)
Definition total (counters : Counters) (names : list string) : Z :=
  fold_right Z.add 0%Z (map (counter counters) names).

(** [event.data.attributes], with [None] read as no attribute. *)
Definition attributes_of (e : VideoAnalyticsEvent) : dict PyVal :=
  match attributes (data e) with
  | None => []
  | Some d => d
  end.

(** The condition of lines 104 and 105. *)
Definition high_confidence_detection (e : VideoAnalyticsEvent) : bool :=
  match event_type e, confidence (data e) with
  | (PERSON_DETECTED | VEHICLE_DETECTED), Some c =>
      float_truthy c && fgt c 0.9%float
  | _, _ => false
  end.

End StageNotions.

(* ================================================================== *)
(** * [monitoring/metrics.py]: [MetricsCollector]                      *)
(* ================================================================== *)

Module Metrics.
Import Py.
Local Open Scope string_scope.
Local Open Scope list_scope.
Local Infix "+++" := String.append (right associativity, at level 60).

(** ** String methods, for a one-character argument *)

(** [c in s] *)
Fixpoint contains (c : ascii) (s : string) : bool :=
  match s with
  | EmptyString => false
  | String x r => Ascii.eqb x c || contains c r
  end.

(** [s.split(c, 1)]: the string itself when [c] does not occur, and
    otherwise what is before and what is after its first occurrence. *)
Fixpoint split_once (c : ascii) (s : string) : list string :=
  match s with
  | EmptyString => [EmptyString]
  | String x r =>
      if Ascii.eqb x c then [EmptyString; r]
      else match split_once c r with
           | a :: rest => String x a :: rest
           | [] => []
           end
  end.

(** [s.split(c)]: the pieces between the occurrences of [c]. *)
Fixpoint split (c : ascii) (s : string) : list string :=
  match s with
  | EmptyString => [EmptyString]
  | String x r =>
      if Ascii.eqb x c then EmptyString :: split c r
      else match split c r with
           | a :: rest => String x a :: rest
           | [] => []
           end
  end.

(** [s.rstrip(c)]: without the occurrences of [c] at its end. *)
Fixpoint rstrip_char (c : ascii) (s : string) : string :=
  match s with
  | EmptyString => EmptyString
  | String x r =>
      match rstrip_char c r with
      | EmptyString => if Ascii.eqb x c then EmptyString
                       else String x EmptyString
      | r' => String x r'
      end
  end.

(** [sep.join(parts)] *)
Fixpoint join (sep : string) (parts : list string) : string :=
  match parts with
  | [] => EmptyString
  | [a] => a
  | a :: r => a +++ sep +++ join sep r
  end.

(** ** [sorted(labels.items())]

    Strings compare by code point, tuples by their first differing
    component. The sort is stable: an item is put before the first one it
    is smaller than. *)
Definition str_lt (a b : string) : bool :=
  match String.compare a b with
  | Lt => true
  | _ => false
  end.

Definition item_lt (a b : string * string) : bool :=
  if String.eqb (fst a) (fst b) then
    if String.eqb (snd a) (snd b) then false else str_lt (snd a) (snd b)
  else str_lt (fst a) (fst b).

Fixpoint insert_item (x : string * string) (l : list (string * string))
  : list (string * string) :=
  match l with
  | [] => [x]
  | y :: r => if item_lt x y then x :: l else y :: insert_item x r
  end.

Definition sorted (items : list (string * string))
  : list (string * string) :=
  fold_left (fun acc x => insert_item x acc) items [].

(** ** Metric keys *)

(** [_create_metric_key]: [None] and the empty dictionary are both false. *)
Definition _create_metric_key (metric_name : string)
  (labels : option (dict string)) : string :=
  match labels with
  | Some ((_ :: _) as items) =>
      let label_str :=
        join "," (map (fun kv => fst kv +++ "=" +++ snd kv) (sorted items)) in
      metric_name +++ "[" +++ label_str +++ "]"
  | _ => metric_name
  end.

(** [_parse_metric_key]. The two unpacking assignments follow a test that
    the separator occurs, so each finds its two parts. *)
Definition _parse_metric_key (metric_key : string) : string * dict string :=
  if contains "[" metric_key then
    match split_once "[" metric_key with
    | [metric_name; label_str] =>
        let label_str := rstrip_char "]" label_str in
        (metric_name,
         fold_left (fun labels pair =>
                      if contains "=" pair then
                        match split_once "=" pair with
                        | [key; value] => dict_set labels key value
                        | _ => labels
                        end
                      else labels)
                   (split "," label_str) [])
    | _ => (metric_key, [])
    end
  else (metric_key, []).

(** ** The collector

    [client] tells whether a Cloud Monitoring client was created. The
    clock ([time.time()]) is a float, and the export interval, the integer
    30, compares with floats as 30.0 does. Logging is not kept: of
    [_log_metrics] and [_create_time_series], which only log, nothing
    remains. *)
Record MetricsCollector := {
  project_id : option string;
  metric_prefix : string;
  client : bool;
  counters : dict Z;
  gauges : dict float;
  histograms : dict (list float);
  last_export_time : float;
  export_interval : float
}.

(** [__init__], run when the clock reads [now]; [connects] tells whether
    [MetricServiceClient()] returns (it is called for a non-empty
    [project_id] only, and an exception leaves [client] at [None]). *)
Definition new_collector (project_id : option string) (metric_prefix : string)
  (now : float) (connects : bool) : MetricsCollector :=
  {| project_id := project_id;
     metric_prefix := metric_prefix;
     client := match project_id with
               | Some p => str_truthy p && connects
               | None => false
               end;
     counters := [];
     gauges := [];
     histograms := [];
     last_export_time := now;
     export_interval := 30%float |}.

(** [MetricsCollector()], as the transforms build it in [setup]. *)
Definition default_collector (now : float) : MetricsCollector :=
  new_collector None "video_analytics" now false.

Definition with_stores (m : MetricsCollector) (c : dict Z) (g : dict float)
  (h : dict (list float)) : MetricsCollector :=
  {| project_id := project_id m;
     metric_prefix := metric_prefix m;
     client := client m;
     counters := c; gauges := g; histograms := h;
     last_export_time := last_export_time m;
     export_interval := export_interval m |}.

(** [export_metrics]: without a client the metrics are logged and kept.
    With one, the three loops hand every metric to [_create_time_series]
    and the stores are cleared; on the values the stores hold (integers,
    floats, non-empty lists of floats under [if values]) no statement of
    the loops raises. *)
Definition export_metrics (m : MetricsCollector) : MetricsCollector :=
  if negb (client m) then m
  else with_stores m [] [] [].

(** [_maybe_export_metrics] when the clock reads [current_time]. *)
Definition _maybe_export_metrics (m : MetricsCollector) (current_time : float)
  : MetricsCollector :=
  if fge (current_time - last_export_time m)%float (export_interval m) then
    let m' := export_metrics m in
    {| project_id := project_id m';
       metric_prefix := metric_prefix m';
       client := client m';
       counters := counters m'; gauges := gauges m';
       histograms := histograms m';
       last_export_time := current_time;
       export_interval := export_interval m' |}
  else m.

Definition full_metric_name (m : MetricsCollector) (metric_name : string)
  : string :=
  metric_prefix m +++ "." +++ metric_name.

(** [increment_counter]; [self.counters] is a [defaultdict(int)]. *)
Definition increment_counter (m : MetricsCollector) (metric_name : string)
  (value : Z) (labels : option (dict string)) (current_time : float)
  : MetricsCollector :=
  let key := _create_metric_key (full_metric_name m metric_name) labels in
  let m1 := with_stores m
              (dict_set (counters m) key
                        (dict_get_default (counters m) key 0 + value)%Z)
              (gauges m) (histograms m) in
  _maybe_export_metrics m1 current_time.

(** [set_gauge] *)
Definition set_gauge (m : MetricsCollector) (metric_name : string)
  (value : float) (labels : option (dict string)) (current_time : float)
  : MetricsCollector :=
  let key := _create_metric_key (full_metric_name m metric_name) labels in
  let m1 := with_stores m (counters m) (dict_set (gauges m) key value)
                        (histograms m) in
  _maybe_export_metrics m1 current_time.

(** [values[-1000:]] *)
Definition last_1000 (values : list float) : list float :=
  skipn (List.length values - 1000) values.

(** [record_histogram]; [self.histograms] is a [defaultdict(list)]. *)
Definition record_histogram (m : MetricsCollector) (metric_name : string)
  (value : float) (labels : option (dict string)) (current_time : float)
  : MetricsCollector :=
  let key := _create_metric_key (full_metric_name m metric_name) labels in
  let values := dict_get_default (histograms m) key [] ++ [value] in
  let values := if (1000 <? List.length values)%nat then last_1000 values
                else values in
  let m1 := with_stores m (counters m) (gauges m)
                        (dict_set (histograms m) key values) in
  _maybe_export_metrics m1 current_time.

End Metrics.

Module MetricsNotions.
Import Py Metrics.
Local Open Scope string_scope.
Local Open Scope list_scope.

(** The last character of [s] is [c]. *)
Fixpoint ends_with (c : ascii) (s : string) : bool :=
  match s with
  | EmptyString => false
  | String x EmptyString => Ascii.eqb x c
  | String _ r => ends_with c r
  end.

(** Labels that a metric key can hold without ambiguity: no key with "="
    or ",", no value with "," or with "]" at its end. *)
Definition plain_label (kv : string * string) : bool :=
  negb (contains "=" (fst kv)) && negb (contains "," (fst kv))
  && negb (contains "," (snd kv)) && negb (ends_with "]" (snd kv)).

(** The comparison of two items as [sorted] orders them, and "[a] is not
    after [b]". *)
Definition item_compare (a b : string * string) : comparison :=
  match String.compare (fst a) (fst b) with
  | Eq => String.compare (snd a) (snd b)
  | c => c
  end.

Definition item_le (a b : string * string) : Prop := item_lt b a = false.

(** The text of a label in a key. *)
Definition label_text (kv : string * string) : string :=
  (fst kv ++ "=" ++ snd kv)%string.

(** A call of one of the three recording methods. *)
Inductive call :=
| Increment (metric_name : string) (value : Z) (labels : option (dict string))
| SetGauge (metric_name : string) (value : float)
           (labels : option (dict string))
| RecordHistogram (metric_name : string) (value : float)
                  (labels : option (dict string)).

(** The collector after a call made when the clock reads [t]. *)
Definition step (m : MetricsCollector) (tc : float * call)
  : MetricsCollector :=
  match snd tc with
  | Increment n v l => increment_counter m n v l (fst tc)
  | SetGauge n v l => set_gauge m n v l (fst tc)
  | RecordHistogram n v l => record_histogram m n v l (fst tc)
  end.

Definition run (calls : list (float * call)) (m : MetricsCollector)
  : MetricsCollector :=
  fold_left step calls m.

(** The sum of the increments that the calls make under the key [k]. *)
Definition incremented (m : MetricsCollector) (k : string)
  (calls : list (float * call)) : Z :=
  fold_right Z.add 0%Z
    (map (fun tc => match snd tc with
                    | Increment n v l =>
                        if String.eqb (_create_metric_key
                                         (full_metric_name m n) l) k
                        then v else 0%Z
                    | _ => 0%Z
                    end) calls).

(** Every histogram holds at least one and at most 1000 values. *)
Definition bounded_histograms (m : MetricsCollector) : Prop :=
  Forall (fun kv => (1 <= List.length (snd kv) <= 1000)%nat) (histograms m).

(** A collector that is due for export when the clock reads [t]. *)
Definition export_due (m : MetricsCollector) (t : float) : bool :=
  fge (t - last_export_time m)%float (export_interval m).

End MetricsNotions.

(* ================================================================== *)
(** * [config/settings.py]: [PipelineConfig]                           *)
(* ================================================================== *)

Module Settings.
Import Py.
Local Open Scope string_scope.
Local Open Scope list_scope.
Local Infix "+++" := String.append (right associativity, at level 60).

Record PipelineConfig := {
  gcp_project : string;
  gcp_region : string;
  job_name : string;
  runner : string;
  input_subscription : string;
  output_topic : string;
  anomaly_topic : string;
  analytics_topic : string;
  dead_letter_topic : string;
  staging_location : string;
  temp_location : string;
  window_size_seconds : Z;
  anomaly_confidence_threshold : float;
  max_num_workers : Z;
  enable_monitoring : bool;
  metrics_export_interval : Z;
  use_public_ips : bool;
  network : option string;
  subnetwork : option string
}.

(** [required_fields], each name with what [getattr(self, name)] reads. *)
Definition required_fields : list (string * (PipelineConfig -> string)) :=
  [("gcp_project", gcp_project);
   ("input_subscription", input_subscription);
   ("output_topic", output_topic);
   ("staging_location", staging_location);
   ("temp_location", temp_location)].

(** [s.startswith(p)] *)
Definition startswith (s p : string) : bool := String.prefix p s.

(** [validate]: the loop raises at the first required field that is
    empty. *)
Definition validate (self : PipelineConfig) : result bool :=
  match List.find (fun field => negb (str_truthy (snd field self)))
                  required_fields with
  | Some field =>
      Raise (Exn ValueError ("Required configuration field '" +++ fst field
                             +++ "' is missing"))
  | None =>
      if negb (startswith (staging_location self) "gs://") then
        Raise (Exn ValueError
                   "staging_location must be a GCS path (gs://...)")
      else if negb (startswith (temp_location self) "gs://") then
        Raise (Exn ValueError "temp_location must be a GCS path (gs://...)")
      else Ok true
  end.

End Settings.

Module SettingsNotions.
Import Py Settings.
Local Open Scope string_scope.

(** What [validate] accepts. *)
Definition accepted (c : PipelineConfig) : bool :=
  str_truthy (gcp_project c) && str_truthy (input_subscription c)
  && str_truthy (output_topic c)
  && startswith (staging_location c) "gs://"
  && startswith (temp_location c) "gs://".

(** The settings of [c] with other topics for anomalies, analytics and dead
    letters. *)
Definition with_topics (c : PipelineConfig) (anomaly analytics dead : string)
  : PipelineConfig :=
  {| gcp_project := gcp_project c;
     gcp_region := gcp_region c;
     job_name := job_name c;
     runner := runner c;
     input_subscription := input_subscription c;
     output_topic := output_topic c;
     anomaly_topic := anomaly;
     analytics_topic := analytics;
     dead_letter_topic := dead;
     staging_location := staging_location c;
     temp_location := temp_location c;
     window_size_seconds := window_size_seconds c;
     anomaly_confidence_threshold := anomaly_confidence_threshold c;
     max_num_workers := max_num_workers c;
     enable_monitoring := enable_monitoring c;
     metrics_export_interval := metrics_export_interval c;
     use_public_ips := use_public_ips c;
     network := network c;
     subnetwork := subnetwork c |}.

End SettingsNotions.
(* ================================================================== *)
(** * [beam/pipeline.py]: the steps around the transforms              *)
(* ================================================================== *)

Module Pipeline.
Import Py Models DataQuality Transforms.
Local Open Scope string_scope.
Local Open Scope list_scope.
Local Infix "+++" := String.append (right associativity, at level 60).

(** ** [json.dumps], with its default arguments

    The encoder writes [None], booleans, floats, strings and dictionaries
    with string keys; for any other object it calls [default], which
    raises [TypeError]. Strings are written in ASCII, every character
    outside [' '..'~'] escaped. *)

Definition hex_digit (n : nat) : ascii :=
  nth n (list_ascii_of_string "0123456789abcdef") "0"%char.

(** ["\\u{0:04x}"] for a code point below 256 *)
Definition escape_u (c : ascii) : string :=
  let n := nat_of_ascii c in
  "\u00" +++ String (hex_digit (n / 16)) (String (hex_digit (n mod 16)) "").

Definition escape_char (c : ascii) : string :=
  let n := nat_of_ascii c in
  if (n =? 34)%nat then String "\" (String c "")
  else if (n =? 92)%nat then "\\"
  else if (n =? 8)%nat then "\b"
  else if (n =? 12)%nat then "\f"
  else if (n =? 10)%nat then "\n"
  else if (n =? 13)%nat then "\r"
  else if (n =? 9)%nat then "\t"
  else if ((32 <=? n) && (n <=? 126))%nat then String c ""
  else escape_u c.

Definition quote : string := String "034"%char "".

Fixpoint escape (s : string) : string :=
  match s with
  | EmptyString => EmptyString
  | String c r => escape_char c +++ escape r
  end.

Definition encode_str (s : string) : string := quote +++ escape s +++ quote.

Section Encoder.
Context `{Rendering}.

(** [floatstr]: [repr] for a finite float. *)
Definition encode_float (o : float) : string :=
  if negb (PrimFloat.eqb o o) then "NaN"
  else if PrimFloat.eqb o infinity then "Infinity"
  else if PrimFloat.eqb o neg_infinity then "-Infinity"
  else float_repr o.

Definition not_serializable (type_name : string) : exn :=
  Exn TypeError ("Object of type " +++ type_name
                 +++ " is not JSON serializable").

Fixpoint dumps (o : PyVal) : result string :=
  match o with
  | PyNone => Ok "null"
  | PyBool true => Ok "true"
  | PyBool false => Ok "false"
  | PyFloat f => Ok (encode_float f)
  | PyStr s => Ok (encode_str s)
  | PyDatetime _ => Raise (not_serializable "datetime")
  | PyDict kv =>
      let fix items (kv : list (string * PyVal)) : result (list string) :=
        match kv with
        | [] => Ok []
        | (k, v) :: r =>
            s <- dumps v ;;
            ss <- items r ;;
            Ok ((encode_str k +++ ": " +++ s) :: ss)
        end in
      ss <- items kv ;;
      Ok ("{" +++ Metrics.join ", " ss +++ "}")
  end.

End Encoder.

(** ** The elements between [FilterAnomalies] and the outputs *)

Section Elements.
(** [datetime.isoformat], for the naive readings of the clock. *)
Variable isoformat : Z -> string.

(** The dictionary that [FilterAnomalies.process] yields (lines 158 to
    163 of [transforms.py]). *)
Definition Filtered_dict (x : Filtered) : PyVal :=
  PyDict [("event", event_dict (event x));
          ("is_anomaly", PyBool (is_anomaly x));
          ("processing_priority", PyStr (processing_priority x));
          ("processed_at", PyStr (isoformat (processed_at x)))].

(** "Convert Normal to JSON" and "Convert Anomalies to JSON":
    [lambda x: json.dumps(x).encode('utf-8')]; the text is ASCII, so its
    encoding is the text. *)
Definition convert_to_json `{Rendering} (x : Filtered) : result string :=
  dumps (Filtered_dict x).

End Elements.

End Pipeline.

(* ================================================================== *)
(** * [monitoring/metrics.py]: [HealthChecker]                         *)
(* ================================================================== *)

Module Health.
Import Py Metrics.
Local Open Scope string_scope.
Local Open Scope list_scope.

(** A value of a ["details"] dictionary; a time stands for its
    [isoformat] text. *)
Inductive detail :=
| DStr (s : string)
| DInt (n : Z)
| DTime (t : Z).

(** A [health_status] dictionary. *)
Record health_status := {
  component : string;
  status : string;
  timestamp : Z;
  details : dict detail
}.

(** The checker; its logger only logs, and nothing of it is kept. *)
Record HealthChecker := {
  metrics_collector : MetricsCollector;
  component_health : dict health_status;
  last_health_check : dict float
}.

Definition new_checker (metrics_collector : MetricsCollector)
  : HealthChecker :=
  {| metrics_collector := metrics_collector;
     component_health := [];
     last_health_check := [] |}.

(** The readings of the clocks during one call of
    [check_component_health]: [datetime.utcnow()] at line 297 and in
    [_check_pubsub_health], [time.time()] at line 315 and in
    [set_gauge]. *)
Record clocks := {
  utc_start : Z;
  utc_pubsub : Z;
  time_recorded : float;
  time_gauge : float
}.

(** The four [_check_..._health] methods: what each returns. *)
Definition _check_pubsub_health (now : Z) : string * dict detail :=
  ("healthy", [("connectivity", DStr "ok");
               ("last_message_received", DTime now)]).

Definition _check_dataflow_health : string * dict detail :=
  ("healthy", [("job_state", DStr "running"); ("worker_count", DInt 3);
               ("throughput", DStr "normal")]).

Definition _check_data_quality_health : string * dict detail :=
  ("healthy", [("validation_rules", DStr "active");
               ("error_rate", DStr "low")]).

Definition _check_monitoring_health : string * dict detail :=
  ("healthy", [("metrics_export", DStr "active"); ("logging", DStr "active")]).

(** [check_component_health]: the status returned and the checker after
    the call. No statement of the [try] block raises here (the logger and
    the collector only compute on strings and floats), so its handler is
    not entered. *)
Definition check_component_health (self : HealthChecker)
  (component_name : string) (c : clocks) : health_status * HealthChecker :=
  let (status, details) :=
    if String.eqb component_name "pubsub_connection"
    then _check_pubsub_health (utc_pubsub c)
    else if String.eqb component_name "dataflow_job"
    then _check_dataflow_health
    else if String.eqb component_name "data_quality"
    then _check_data_quality_health
    else if String.eqb component_name "monitoring"
    then _check_monitoring_health
    else ("unknown_component", []) in
  let health_status := {| component := component_name;
                          status := status;
                          timestamp := utc_start c;
                          details := details |} in
  let health_value := if String.eqb status "healthy" then 1.0%float
                      else 0.0%float in
  (health_status,
   {| metrics_collector :=
        set_gauge (metrics_collector self) "component_health" health_value
                  (Some [("component", component_name)]) (time_gauge c);
      component_health :=
        dict_set (component_health self) component_name health_status;
      last_health_check :=
        dict_set (last_health_check self) component_name
                 (time_recorded c) |}).

(** What [get_overall_health] returns: the short dictionary for a checker
    that has checked nothing, or the full one. *)
Inductive overall_health :=
| NothingChecked
| Overall (status : string) (healthy_components total_components : nat)
          (components : dict health_status) (last_updated : Z).

Definition get_overall_health (self : HealthChecker) (now : Z)
  : overall_health :=
  match component_health self with
  | [] => NothingChecked
  | _ =>
      let healthy_components :=
        List.length (filter (fun kv => String.eqb (status (snd kv)) "healthy")
                            (component_health self)) in
      let total_components := List.length (component_health self) in
      let overall_status :=
        if (healthy_components =? total_components)%nat then "healthy"
        else "degraded" in
      let overall_status :=
        if (healthy_components =? 0)%nat then "unhealthy"
        else overall_status in
      Overall overall_status healthy_components total_components
              (component_health self) now
  end.

End Health.

Module HealthNotions.
Import Py Metrics Health.
Local Open Scope string_scope.
Local Open Scope list_scope.

(** The component names that [check_component_health] knows. *)
Definition known (component_name : string) : bool :=
  str_in component_name
         ["pubsub_connection"; "dataflow_job"; "data_quality"; "monitoring"].

(** The checker after a series of checks, each with its clock readings. *)
Definition check_all (self : HealthChecker) (checks : list (clocks * string))
  : HealthChecker :=
  fold_left (fun hc ck => snd (check_component_health hc (snd ck) (fst ck)))
            checks self.

(** The status that [get_overall_health] reports. *)
Definition overall_status (o : overall_health) : string :=
  match o with
  | NothingChecked => "unknown"
  | Overall s _ _ _ _ => s
  end.

(** The status that a check records for a name. *)
Definition recorded_status (component_name : string) : string :=
  if known component_name then "healthy" else "unknown_component".

(** The recorded statuses are those of the names, and the names recorded
    are the names checked. *)
Definition follows (self : HealthChecker) (names : list string) : Prop :=
  Forall (fun kv => status (snd kv) = recorded_status (fst kv))
         (component_health self)
  /\ forall k, In k (map fst (component_health self)) <-> In k names.

End HealthNotions.

(* ================================================================== *)
(** * [security/iam.py]: [SecurityValidator]                           *)
(* ================================================================== *)

Module Security.
Import Py.
Local Open Scope string_scope.
Local Open Scope list_scope.
Local Infix "+++" := String.append (right associativity, at level 60).

(** ** The values of a configuration ([Dict[str, Any]]) *)

Inductive Any :=
| ANone
| ABool (b : bool)
| AInt (n : Z)
| AFloat (f : float)
| AStr (s : string)
| AList (items : list Any)
| ADict (kv : list (string * Any)).

(** [type(o).__name__] *)
Definition type_name (o : Any) : string :=
  match o with
  | ANone => "NoneType"
  | ABool _ => "bool"
  | AInt _ => "int"
  | AFloat _ => "float"
  | AStr _ => "str"
  | AList _ => "list"
  | ADict _ => "dict"
  end.

(** The truth value of an object. *)
Definition truthy (o : Any) : bool :=
  match o with
  | ANone => false
  | ABool b => b
  | AInt n => negb (n =? 0)%Z
  | AFloat f => float_truthy f
  | AStr s => str_truthy s
  | AList items => DataQuality.nonempty items
  | ADict kv => DataQuality.nonempty kv
  end.

Definition no_attribute (o : Any) (name : string) : exn :=
  Exn AttributeError ("'" +++ type_name o +++ "' object has no attribute '"
                      +++ name +++ "'").

(** [o.get(key, default)]: only a dictionary has the method. *)
Definition get (o : Any) (key : string) (default : Any) : result Any :=
  match o with
  | ADict kv => Ok (dict_get_default kv key default)
  | _ => Raise (no_attribute o "get")
  end.

(** The elements that [for x in o] goes through: those of a list, the keys
    of a dictionary, the characters of a string. *)
Definition iterate (o : Any) : result (list Any) :=
  match o with
  | AList items => Ok items
  | ADict kv => Ok (map (fun e => AStr (fst e)) kv)
  | AStr s =>
      Ok (map (fun c => AStr (String c EmptyString)) (list_ascii_of_string s))
  | _ => Raise (Exn TypeError ("'" +++ type_name o
                               +++ "' object is not iterable"))
  end.

(** [c.lower()] for a code point below 256. *)
Definition lower_char (c : ascii) : ascii :=
  let n := nat_of_ascii c in
  if ((65 <=? n) && (n <=? 90))%nat
     || ((192 <=? n) && (n <=? 222) && negb (n =? 215))%nat
  then ascii_of_nat (n + 32)
  else c.

Fixpoint lower_str (s : string) : string :=
  match s with
  | EmptyString => EmptyString
  | String c r => String (lower_char c) (lower_str r)
  end.

(** [o.lower()] *)
Definition lower (o : Any) : result string :=
  match o with
  | AStr s => Ok (lower_str s)
  | _ => Raise (no_attribute o "lower")
  end.

(** [p in s] for two strings. *)
Fixpoint is_substring (p s : string) : bool :=
  String.prefix p s
  || match s with
     | EmptyString => false
     | String _ r => is_substring p r
     end.

(** [o in xs] for a list of strings [xs]: only an equal string is in it. *)
Definition in_strings (o : Any) (xs : list string) : bool :=
  match o with
  | AStr s => str_in s xs
  | _ => false
  end.

(** [f"{o}"] of an object that is in a list of strings. *)
Definition format_str (o : Any) : string :=
  match o with
  | AStr s => s
  | _ => EmptyString
  end.

(** ** The checks *)

(** The dictionary that a check returns; ["severity"] is set only by a
    check that fails. *)
Record check_result := {
  passed : bool;
  message : string;
  warnings : list string;
  recommendations : list string;
  severity : option string
}.

Definition passing (message : string) : check_result :=
  {| passed := true; message := message; warnings := [];
     recommendations := []; severity := None |}.

(** [result["passed"] = False], with its message and severity. *)
Definition fail (r : check_result) (message severity : string)
  : check_result :=
  {| passed := false; message := message; warnings := warnings r;
     recommendations := recommendations r; severity := Some severity |}.

(** The two [append] of a warning and its recommendation. *)
Definition advise (r : check_result) (warning recommendation : string)
  : check_result :=
  {| passed := passed r; message := message r;
     warnings := warnings r ++ [warning];
     recommendations := recommendations r ++ [recommendation];
     severity := severity r |}.

Definition config := dict Any.

(** [config.get(section, {})] *)
Definition section (c : config) (name : string) : Any :=
  dict_get_default c name (ADict []).

Definition _check_encryption_at_rest (c : config) : result check_result :=
  let result := passing "Encryption at rest is properly configured" in
  key <- get (section c "pubsub") "encryption_key" ANone ;;
  let result :=
    if negb (truthy key)
    then advise result "Pub/Sub not using customer-managed encryption keys"
                "Consider using CMEK for Pub/Sub topics"
    else result in
  key <- get (section c "storage") "encryption_key" ANone ;;
  Ok (if negb (truthy key)
      then advise result
                  "Cloud Storage not using customer-managed encryption keys"
                  "Consider using CMEK for Cloud Storage buckets"
      else result).

Definition _check_encryption_in_transit (c : config) : result check_result :=
  let result := passing "Encryption in transit is enforced" in
  allow_http <- get (section c "network") "allow_http" (ABool false) ;;
  Ok (if truthy allow_http
      then fail result
                "HTTP traffic is allowed, violates encryption in transit"
                "high"
      else result).

Definition broad_roles : list string :=
  ["roles/owner"; "roles/editor"; "roles/iam.securityAdmin"].

(** The inner loop of lines 232 to 237: the first broad role, if any,
    fails the check. *)
Definition check_broad (roles : list Any) (r : check_result) : check_result :=
  match List.find (fun role => in_strings role broad_roles) roles with
  | Some role =>
      fail r ("Service account has overly broad role: " +++ format_str role)
           "high"
  | None => r
  end.

(** [[role for role in roles if "admin" in role.lower()]] *)
Fixpoint admin_roles (roles : list Any) : result (list Any) :=
  match roles with
  | [] => Ok []
  | role :: rest =>
      l <- lower role ;;
      more <- admin_roles rest ;;
      Ok (if is_substring "admin" l then role :: more else more)
  end.

Section Checks.
(** [f"{admin_roles}"], the [repr] of a list of strings. *)
Variable repr_list : list Any -> string.

(** The body of the loop over the service accounts. *)
Definition check_account (r : check_result) (sa : Any)
  : result check_result :=
  roles <- get sa "roles" (AList []) ;;
  roles <- iterate roles ;;
  let r := check_broad roles r in
  admins <- admin_roles roles ;;
  Ok (if DataQuality.nonempty admins
      then advise r ("Service account has admin roles: "
                     +++ repr_list admins)
                  "Review if admin roles are necessary"
      else r).

Fixpoint check_accounts (r : check_result) (accounts : list Any)
  : result check_result :=
  match accounts with
  | [] => Ok r
  | sa :: rest => r' <- check_account r sa ;; check_accounts r' rest
  end.

Definition _check_service_account_permissions (c : config)
  : result check_result :=
  let result := passing "Service account permissions are appropriate" in
  service_accounts <- get (section c "iam") "service_accounts" (AList []) ;;
  accounts <- iterate service_accounts ;;
  check_accounts result accounts.

Definition _check_network_security (c : config) : result check_result :=
  let result := passing "Network security is properly configured" in
  private <- get (section c "network") "use_private_ip" (ABool false) ;;
  let result :=
    if negb (truthy private)
    then advise result "Not using private IP addresses"
                "Consider using private networks for enhanced security"
    else result in
  rules <- get (section c "network") "firewall_rules" ANone ;;
  Ok (if negb (truthy rules)
      then advise result "No custom firewall rules defined"
                  "Define specific firewall rules for the pipeline"
      else result).

Definition _check_data_access_logging (c : config) : result check_result :=
  let result := passing "Data access logging is enabled" in
  audit <- get (section c "logging") "audit_logs_enabled" (ABool false) ;;
  let result :=
    if negb (truthy audit)
    then fail result "Audit logging is not enabled" "medium"
    else result in
  access <- get (section c "logging") "data_access_logs" (ABool false) ;;
  Ok (if negb (truthy access)
      then advise result "Data access logs are not enabled"
                  "Enable data access logs for compliance"
      else result).

(** [self.security_checks], in insertion order. *)
Definition security_checks : list (string * (config -> result check_result)) :=
  [("encryption_at_rest", _check_encryption_at_rest);
   ("encryption_in_transit", _check_encryption_in_transit);
   ("service_account_permissions", _check_service_account_permissions);
   ("network_security", _check_network_security);
   ("data_access_logging", _check_data_access_logging)].

End Checks.

(** ** [validate_security_config] *)

(** An entry of [results["checks"]]: the dictionary a check returned, or
    the one the handler wrote for a check that raised (passed [False], the
    message, severity "high"). *)
Inductive check_entry :=
| Returned (r : check_result)
| Crashed (message : string).

Record violation := {
  v_check : string;
  v_message : string;
  v_severity : string
}.

Record results := {
  overall_status : string;
  checks : dict check_entry;
  violations : list violation;
  all_warnings : list string;
  all_recommendations : list string
}.

(** One iteration of the loop over the checks. *)
Definition run_check (c : config) (res : results)
  (check : string * (config -> result check_result)) : results :=
  let (check_name, check_func) := check in
  match check_func c with
  | Ok check_result =>
      let failed := negb (passed check_result) in
      {| overall_status :=
           if failed && match severity check_result with
                        | Some s => String.eqb s "high"
                        | None => false
                        end
           then "non_compliant" else overall_status res;
         checks := dict_set (checks res) check_name (Returned check_result);
         violations :=
           if failed
           then violations res
                ++ [{| v_check := check_name;
                       v_message := message check_result;
                       v_severity := match severity check_result with
                                     | Some s => s
                                     | None => "medium"
                                     end |}]
           else violations res;
         all_warnings := all_warnings res ++ warnings check_result;
         all_recommendations :=
           all_recommendations res ++ recommendations check_result |}
  | Raise e =>
      {| overall_status := overall_status res;
         checks := dict_set (checks res) check_name
                            (Crashed ("Check failed: " +++ exn_msg e));
         violations := violations res;
         all_warnings := all_warnings res;
         all_recommendations := all_recommendations res |}
  end.

Definition validate_security_config_with
  (security_checks : list (string * (config -> result check_result)))
  (c : config) : results :=
  fold_left (run_check c) security_checks
            {| overall_status := "compliant"; checks := []; violations := [];
               all_warnings := []; all_recommendations := [] |}.

(** [SecurityValidator().validate_security_config(config)] *)
Definition validate_security_config (repr_list : list Any -> string)
  (c : config) : results :=
  validate_security_config_with (security_checks repr_list) c.

End Security.
Module SecurityNotions.
Import Py Security.
Local Open Scope string_scope.
Local Open Scope list_scope.

(** A check that returns, fails, and says "high". *)
Definition high_failure (o : result check_result) : bool :=
  match o with
  | Ok r => negb (passed r)
            && match severity r with
               | Some s => String.eqb s "high"
               | None => false
               end
  | Raise _ => false
  end.

(** The violation that the outcome of a check adds, if any. *)
Definition violation_of (check_name : string) (o : result check_result)
  : list violation :=
  match o with
  | Ok r =>
      if passed r then []
      else [{| v_check := check_name;
               v_message := message r;
               v_severity := match severity r with
                             | Some s => s
                             | None => "medium"
                             end |}]
  | Raise _ => []
  end.

(** The checks that raised. *)
Definition crashed (table : list (string * (config -> result check_result)))
  (c : config) : list string :=
  flat_map (fun ck => match snd ck c with
                      | Ok _ => []
                      | Raise _ => [fst ck]
                      end) table.

(** Some account of the list has one of the broad roles among the elements
    of its ["roles"]. *)
Definition broad_account (sa : Any) : bool :=
  match get sa "roles" (AList []) with
  | Ok roles =>
      match iterate roles with
      | Ok roles => existsb (fun role => in_strings role broad_roles) roles
      | Raise _ => false
      end
  | Raise _ => false
  end.

(** The service accounts that the check goes through. *)
Definition accounts_of (c : config) : result (list Any) :=
  service_accounts <- get (section c "iam") "service_accounts" (AList []) ;;
  iterate service_accounts.

(** A configuration in which the network section is not a dictionary, and
    audit logging is on. *)
Definition broken_network : config :=
  [("network", AStr "default");
   ("logging", ADict [("audit_logs_enabled", ABool true);
                      ("data_access_logs", ABool true)])].

(** The configuration that [validate_security] of [main.py] checks. *)
Definition main_security_config : config :=
  [("iam",
    ADict [("service_accounts",
            AList [ADict [("name", AStr "video-analytics-pipeline");
                          ("roles", AList [AStr "roles/dataflow.worker";
                                           AStr "roles/pubsub.subscriber"])]])]);
   ("network", ADict [("use_private_ip", ABool true);
                      ("firewall_rules", AList [AStr "allow-internal"])]);
   ("logging", ADict [("audit_logs_enabled", ABool true);
                      ("data_access_logs", ABool true)])].

(** A stand-in for the [repr] of a list. *)
Definition plain_repr : list Any -> string := fun _ => "<list>".

End SecurityNotions.

(* ================================================================== *)
(** * [pubsub/manager.py]: the callback of [MessageProcessor]          *)
(* ================================================================== *)

Module PubSub.
Import Py Security.
Local Open Scope string_scope.
Local Open Scope list_scope.
Local Infix "+++" := String.append (right associativity, at level 60).

(** A received message, as far as the callback reads it. *)
Record message := {
  data : string;
  message_id : string;
  publish_time : Z;
  attributes : dict string
}.

(** What the callback asks of the message: [ack()] or [nack()]. Both only
    queue a request and return. *)
Inductive settlement := Ack | Nack.

(** [o[key] = v] for a string key: a dictionary takes it, every other
    value that [json.loads] can return refuses. *)
Definition set_item (o : Any) (key : string) (v : Any) : result Any :=
  match o with
  | ADict kv => Ok (ADict (dict_set kv key v))
  | AList _ =>
      Raise (Exn TypeError "list indices must be integers or slices, not str")
  | _ => Raise (Exn TypeError ("'" +++ type_name o
                               +++ "' object does not support item assignment"))
  end.

Section Callback.

(** [json.loads(message.data.decode('utf-8'))], which raises on bytes that
    are not UTF-8 and on text that is not JSON, and
    [self.message_handler]; [datetime.isoformat] for the publish time. *)
Variable json_loads : string -> result Any.
Variable message_handler : Any -> result Any.
Variable isoformat : Z -> string.

(** The dictionary stored under ['_pubsub_metadata']. *)
Definition pubsub_metadata (m : message) : Any :=
  ADict [("message_id", AStr (message_id m));
         ("publish_time", AStr (isoformat (publish_time m)));
         ("attributes",
          ADict (map (fun kv => (fst kv, AStr (snd kv))) (attributes m)))].

(** The statements of the [try] block up to the test of [success]. *)
Definition handle (m : message) : result bool :=
  message_data <- json_loads (data m) ;;
  message_data <- set_item message_data "_pubsub_metadata"
                           (pubsub_metadata m) ;;
  success <- message_handler message_data ;;
  Ok (truthy success).

(** [callback(message)]: the requests made on the message. *)
Definition callback (m : message) : list settlement :=
  match handle m with
  | Ok true => [Ack]
  | Ok false => [Nack]
  | Raise _ => [Nack]
  end.

End Callback.

End PubSub.


(* ================================================================== *)
(** * Results on [schemas/models.py]                                   *)
(* ================================================================== *)

Module ModelFacts.
Import Py Models CheckerNotions.
Local Open Scope string_scope.
Local Open Scope list_scope.

Lemma list_ascii_of_string_app s t :
  list_ascii_of_string (s ++ t)%string
  = list_ascii_of_string s ++ list_ascii_of_string t.
Proof. induction s as [|c s IH]; simpl; [reflexivity|]. now rewrite IH. Qed.

Lemma length_list_ascii s :
  List.length (list_ascii_of_string s) = String.length s.
Proof. induction s as [|c s IH]; simpl; [reflexivity|]. now rewrite IH. Qed.

Lemma replace_char_app c by_ a b :
  replace_char c by_ (a ++ b) = replace_char c by_ a ++ replace_char c by_ b.
Proof.
  induction a as [|x a IH]; simpl; [reflexivity|].
  destruct (Ascii.eqb x c); rewrite IH; [now rewrite app_assoc|reflexivity].
Qed.

Lemma replace_char_absent c by_ a :
  find c a = None -> replace_char c by_ a = a.
Proof.
  induction a as [|x a IH]; simpl; [reflexivity|].
  destruct (Ascii.eqb x c); [discriminate|].
  destruct (find c a); [discriminate|]. intros _. now rewrite IH.
Qed.

Lemma find_app c a b :
  find c (a ++ b) = match find c a with
                    | Some i => Some i
                    | None => option_map (Nat.add (List.length a)) (find c b)
                    end.
Proof.
  induction a as [|x a IH]; simpl.
  - destruct (find c b); reflexivity.
  - destruct (Ascii.eqb x c); [reflexivity|]. rewrite IH.
    destruct (find c a); [reflexivity|]. destruct (find c b); reflexivity.
Qed.

(** The constructor checks the fields, not the [tzinfo]. *)
Lemma make_datetime_tz y m d hh mm ss us dt tz :
  make_datetime y m d hh mm ss us None = Some dt ->
  make_datetime y m d hh mm ss us tz = Some (Datetime (wall dt) tz).
Proof.
  unfold make_datetime. destruct (_ && _); [|discriminate].
  intros E. injection E as <-. reflexivity.
Qed.

Lemma make_datetime_tzinfo y m d hh mm ss us dt tz :
  make_datetime y m d hh mm ss us tz = Some dt -> tzinfo dt = tz.
Proof.
  unfold make_datetime. destruct (_ && _); [|discriminate].
  intros E. injection E as <-. reflexivity.
Qed.

(** A time string read without offset is read with offset zero once
    ["+00:00"] follows it. *)
Lemma parse_time_utc tstr c4 :
  _parse_isoformat_time tstr = Some (c4, None) ->
  _parse_isoformat_time (tstr ++ utc_suffix) = Some (c4, Some 0%Z).
Proof.
  unfold _parse_isoformat_time.
  destruct (List.length tstr <? 2)%nat eqn:L; [discriminate|].
  apply Nat.ltb_ge in L.
  assert (L' : (List.length (tstr ++ utc_suffix) <? 2)%nat = false).
  { apply Nat.ltb_ge. rewrite length_app. lia. }
  rewrite L'. unfold tz_pos.
  destruct (find "-" tstr) as [i|] eqn:Fm.
  { destruct (_parse_hh_mm_ss_ff _); [|discriminate].
    destruct (_parse_tz _ _); discriminate. }
  destruct (find "+" tstr) as [i|] eqn:Fp.
  { cbn [option_map]. destruct (_parse_hh_mm_ss_ff _); [|discriminate].
    destruct (_parse_tz _ _); discriminate. }
  cbn [option_map]. intros P.
  rewrite !find_app, Fm, Fp.
  cbn [utc_suffix list_ascii_of_string find Ascii.eqb Bool.eqb option_map].
  rewrite Nat.add_0_r.
  replace (S (List.length tstr) - 1)%nat with (List.length tstr) by lia.
  rewrite firstn_app, firstn_all, Nat.sub_diag. cbn [firstn].
  rewrite app_nil_r.
  destruct (_parse_hh_mm_ss_ff tstr) as [c|]; [|discriminate].
  cbn [option_map] in P. injection P as <-.
  rewrite nth_error_app2 by lia. rewrite Nat.sub_diag. cbn [nth_error].
  rewrite skipn_app, skipn_all2 by lia.
  replace (S (List.length tstr) - List.length tstr)%nat with 1%nat by lia.
  reflexivity.
Qed.

Lemma fromisoformat_utc cs d :
  (10 < List.length cs)%nat ->
  fromisoformat_chars cs = Some d -> tzinfo d = None ->
  fromisoformat_chars (cs ++ utc_suffix) = Some (Datetime (wall d) (Some 0%Z)).
Proof.
  intros L. unfold fromisoformat_chars.
  rewrite firstn_app. replace (10 - List.length cs)%nat with 0%nat by lia.
  rewrite firstn_O, app_nil_r.
  destruct (_parse_isoformat_date (firstn 10 cs)) as [[[y m] dd]|];
    [|discriminate].
  destruct (skipn 11 cs) as [|c t] eqn:T.
  { apply Nat.leb_gt in L. rewrite L. discriminate. }
  assert (L11 : (11 <= List.length cs)%nat).
  { destruct (Nat.le_gt_cases 11 (List.length cs)) as [?|G]; [assumption|].
    rewrite skipn_all2 in T by lia. discriminate. }
  rewrite skipn_app, T. replace (11 - List.length cs)%nat with 0%nat by lia.
  rewrite skipn_O.
  destruct (_parse_isoformat_time (c :: t)) as [[[[[hh mm] ss] us] tz]|] eqn:P;
    [|discriminate].
  intros M Z. pose proof (make_datetime_tzinfo _ _ _ _ _ _ _ _ _ M) as E.
  rewrite Z in E. subst tz.
  pose proof (parse_time_utc _ _ P) as P'. cbn [app] in P'. cbn [app].
  rewrite P'. now apply make_datetime_tz.
Qed.

(** In the grammar of Python 3.7 to 3.10, every string with a time part that
    is read as a naive value is read, once ["+00:00"] follows it, as the
    same wall-clock fields at offset zero. *)
Lemma fromisoformat_utc_suffix s d :
  (10 < String.length s)%nat ->
  fromisoformat s = Some d -> tzinfo d = None ->
  fromisoformat (s ++ "+00:00")%string = Some (Datetime (wall d) (Some 0%Z)).
Proof.
  intros L F Z. unfold fromisoformat in *.
  rewrite list_ascii_of_string_app.
  apply fromisoformat_utc; auto. now rewrite length_list_ascii.
Qed.

(** The validator over the grammar of Python 3.7 to 3.10 is
    [parse_timestamp]. *)
Lemma parse_timestamp_with_model v :
  parse_timestamp_with fromisoformat v = parse_timestamp v.
Proof.
  unfold parse_timestamp_with, parse_timestamp, fromisoformat.
  now rewrite list_ascii_of_string_of_list_ascii.
Qed.

(** C6, as amended, for the [fromisoformat] of any interpreter. Take a
    timestamp string without ["Z"] that [fromisoformat] reads as a naive
    value [d] and, followed by ["+00:00"], as the same wall-clock fields at
    offset zero. The string and the string followed by ["Z"] are both
    accepted by [parse_timestamp]; the two results have the same wall-clock
    fields, but the first is naive and the second is aware with offset
    zero, so they are different values ([==] is false). A string that
    [fromisoformat] rejects both with its ["Z"] replaced and as written
    makes the construction fail with a [ValidationError]. *)
Theorem C6_z_marker_gives_aware_value
  (fromisoformat_impl : string -> option datetime) s d :
  find "Z" (list_ascii_of_string s) = None ->
  fromisoformat_impl s = Some d ->
  tzinfo d = None ->
  fromisoformat_impl (s ++ "+00:00")%string
  = Some (Datetime (wall d) (Some 0%Z)) ->
  parse_timestamp_with fromisoformat_impl s = Ok d
  /\ parse_timestamp_with fromisoformat_impl (s ++ "Z")%string
     = Ok (Datetime (wall d) (Some 0%Z))
  /\ dt_eq d (Datetime (wall d) (Some 0%Z)) = false
  /\ (forall v,
        fromisoformat_impl
          (string_of_list_ascii
             (replace_char "Z" (list_ascii_of_string "+00:00")
                           (list_ascii_of_string v))) = None ->
        fromisoformat_impl v = None ->
        exists message,
          construct_timestamp_with fromisoformat_impl v
          = Raise (Exn ValidationError message)).
Proof.
  intros NZ F Z U. split; [|split; [|split]].
  - unfold parse_timestamp_with. rewrite (replace_char_absent _ _ _ NZ).
    now rewrite string_of_list_ascii_of_string, F.
  - unfold parse_timestamp_with.
    rewrite list_ascii_of_string_app, replace_char_app,
      (replace_char_absent _ _ _ NZ).
    change (replace_char "Z" (list_ascii_of_string "+00:00")
                         (list_ascii_of_string "Z"))
      with (list_ascii_of_string "+00:00").
    rewrite <- list_ascii_of_string_app, string_of_list_ascii_of_string.
    now rewrite U.
  - unfold dt_eq. rewrite Z. reflexivity.
  - intros v R N. unfold construct_timestamp_with, parse_timestamp_with.
    rewrite R, N. eexists. reflexivity.
Qed.

(** C6 at ["2023-12-01T10:30:00"], for the grammar of Python 3.7 to
    3.10. *)
Lemma C6_witness :
  find "Z" (list_ascii_of_string "2023-12-01T10:30:00") = None
  /\ fromisoformat "2023-12-01T10:30:00" = Some (Datetime now0 None)
  /\ tzinfo (Datetime now0 None) = None
  /\ fromisoformat "2023-12-01T10:30:00+00:00"
     = Some (Datetime now0 (Some 0%Z))
  /\ parse_timestamp_with fromisoformat "2023-12-01T10:30:00Z"
     = Ok (Datetime now0 (Some 0%Z)).
Proof.
  assert (H1 : find "Z" (list_ascii_of_string "2023-12-01T10:30:00") = None)
    by reflexivity.
  assert (H2 : fromisoformat "2023-12-01T10:30:00" = Some (Datetime now0 None))
    by (vm_compute; reflexivity).
  assert (H3 : fromisoformat "2023-12-01T10:30:00+00:00"
               = Some (Datetime now0 (Some 0%Z)))
    by (vm_compute; reflexivity).
  split; [exact H1|]. split; [exact H2|]. split; [reflexivity|].
  split; [exact H3|].
  exact (proj1 (proj2 (C6_z_marker_gives_aware_value fromisoformat
                         "2023-12-01T10:30:00" (Datetime now0 None)
                         H1 H2 eq_refl H3))).
Defined.

(** The claim of C6 fails at the timestamp of the repository's tests: with
    the ["Z"] the value is aware, without it naive, and the two are not
    equal. *)
Lemma C6_counterexample :
  parse_timestamp "2023-12-01T10:30:00Z" = Ok (Datetime now0 (Some 0%Z))
  /\ parse_timestamp "2023-12-01T10:30:00" = Ok (Datetime now0 None)
  /\ dt_eq (Datetime now0 (Some 0%Z)) (Datetime now0 None) = false.
Proof. repeat split; vm_compute; reflexivity. Qed.

End ModelFacts.

(* ================================================================== *)
(** * Results on [DataQualityChecker]                                  *)
(* ================================================================== *)

Module CheckerFacts.
Import Py Models DataQuality CheckerNotions.
Local Open Scope string_scope.
Local Open Scope list_scope.
Local Infix "+++" := String.append (right associativity, at level 60).

(** ** The rule loop *)

Lemma apply_rule_spec e st r :
  apply_rule e st r =
  {| st_errors := st_errors st ++ outcome_errors (fst r) (snd r e);
     st_warnings := st_warnings st ++ outcome_warnings (snd r e);
     quality_score := step_score (quality_score st) (snd r e) |}.
Proof.
  destruct r as [n f]; destruct st as [es ws q]; unfold apply_rule; simpl.
  destruct (f e) as [rr|ex]; simpl; [|now rewrite app_nil_r].
  destruct rr as [res rws sev]; unfold rule_step; simpl.
  destruct res, rws; simpl; rewrite ?app_nil_r; reflexivity.
Qed.

(** The three accumulators of the loop do not depend on each other. *)
Lemma rule_loop_spec e rules : forall st,
  fold_left (apply_rule e) rules st =
  {| st_errors := st_errors st ++ loop_errors e rules;
     st_warnings := st_warnings st ++ loop_warnings e rules;
     quality_score := loop_score e rules (quality_score st) |}.
Proof.
  induction rules as [|r rules IH]; intros st.
  - destruct st; simpl. unfold loop_errors, loop_warnings, loop_score; simpl.
    now rewrite !app_nil_r.
  - simpl. rewrite IH, apply_rule_spec. simpl.
    unfold loop_errors, loop_warnings, loop_score; simpl.
    now rewrite <- !app_assoc.
Qed.

Lemma validate_event_with_spec pre rules e :
  (forall m, pre <> Unexpected m) ->
  validate_event_with pre rules e =
  {| is_valid :=
       (List.length (st_errors (after_schema pre) ++ loop_errors e rules)
        =? 0)%nat;
     errors := st_errors (after_schema pre) ++ loop_errors e rules;
     warnings := st_warnings (after_schema pre) ++ loop_warnings e rules;
     score := max0 (loop_score e rules (quality_score (after_schema pre))) |}.
Proof.
  intros N. unfold validate_event_with.
  destruct pre as [|m|m]; [| |now elim (N m)]; now rewrite rule_loop_spec.
Qed.

Lemma length_zero_iff {A} (l : list A) :
  (List.length l =? 0)%nat = true <-> l = [].
Proof. destruct l; simpl; split; intros; congruence. Qed.

(** ** The score stays in the unit interval *)

Lemma in_all_penalties p : In p all_penalties.
Proof. destruct p; simpl; auto 10. Qed.

Lemma bounded_for_spec init hi p1 p2 p3 p4 p5 :
  bounded_for init hi = true ->
  in_range hi (final_score init [p1; p2; p3; p4; p5]) = true.
Proof.
  unfold bounded_for. intros B.
  rewrite forallb_forall in B. specialize (B p1 (in_all_penalties p1)).
  rewrite forallb_forall in B. specialize (B p2 (in_all_penalties p2)).
  rewrite forallb_forall in B. specialize (B p3 (in_all_penalties p3)).
  rewrite forallb_forall in B. specialize (B p4 (in_all_penalties p4)).
  rewrite forallb_forall in B. exact (B p5 (in_all_penalties p5)).
Qed.

Lemma bounded_from_one : bounded_for 1.0%float 1.0%float = true.
Proof. vm_compute. reflexivity. Qed.

Lemma bounded_after_schema_failure :
  bounded_for (1.0 - 0.3)%float 0.7%float = true.
Proof. vm_compute. reflexivity. Qed.

Lemma bounded_after_schema_failure_unit :
  bounded_for (1.0 - 0.3)%float 1.0%float = true.
Proof. vm_compute. reflexivity. Qed.

Lemma step_score_penalty s o sev :
  match o with Ok rr => severity rr = sev | Raise _ => True end ->
  step_score s o = penalty_step s (sev, penalty_of o).
Proof.
  destruct o as [[es ws sv]|ex]; simpl; [intros <-|reflexivity].
  unfold rule_step; simpl. destruct es, ws; reflexivity.
Qed.

Lemma loop_score_conforming e rules s :
  conforming e rules ->
  loop_score e rules s =
  fold_left penalty_step
            (combine severities (map (fun r => penalty_of (snd r e)) rules)) s.
Proof.
  unfold conforming, loop_score. generalize severities. intros sevs F.
  revert s.
  induction F as [|sev r sevs rules Hr F IH]; intros s; [reflexivity|].
  simpl. rewrite (step_score_penalty _ _ sev Hr). apply IH.
Qed.

Lemma conforming_length e rules :
  conforming e rules -> List.length rules = 5%nat.
Proof. intros F. apply Forall2_length in F. symmetry; exact F. Qed.

Lemma score_bounded init hi e rules :
  bounded_for init hi = true -> conforming e rules ->
  in_range hi (max0 (loop_score e rules init)) = true.
Proof.
  intros B F. rewrite (loop_score_conforming _ _ _ F).
  pose proof (conforming_length _ _ F) as L.
  destruct rules as [|r1 [|r2 [|r3 [|r4 [|r5 [|]]]]]]; try discriminate.
  apply (bounded_for_spec init hi _ _ _ _ _ B).
Qed.

Lemma in_range_le hi x : in_range hi x = true -> fle x hi = true.
Proof. unfold in_range. intros H. apply andb_true_iff in H. tauto. Qed.

Section Shipped.
Context `{Rendering}.

(** ** The shipped rule table *)

Lemma severity_try_except sev prefix body :
  severity (try_except sev prefix body) = sev.
Proof. unfold try_except. destruct (body _) as [f [ex|]]; reflexivity. Qed.

Lemma rule_severities now e : map severity (rule_results now e) = severities.
Proof.
  unfold rule_results, _validate_timestamp, _validate_confidence,
    _validate_bounding_box, _validate_event_consistency,
    _validate_source_integrity.
  cbv [map]. now rewrite !severity_try_except.
Qed.

Lemma shipped_rules_conforming now e : conforming e (validation_rules now).
Proof.
  unfold conforming, validation_rules, severities.
  repeat constructor; cbv [snd]; apply severity_try_except.
Qed.

(** No shipped rule raises: each has its own handler. *)
Lemma shipped_rules_return now e :
  Forall (fun r : string * Rule => exists rr, snd r e = Ok rr)
         (validation_rules now).
Proof. unfold validation_rules. repeat constructor; eexists; reflexivity. Qed.

(** X4. For every event whose timestamp is timezone-aware (as every
    timestamp written with ["Z"] or an offset is), the comparison with the
    naive clock raises inside the timestamp rule, and the rule returns
    exactly one error, from its own handler, and no warning. *)
Theorem timestamp_rule_on_aware now e off :
  tzinfo (timestamp e) = Some off ->
  _validate_timestamp now e
  = {| rule_errors := ["Timestamp validation error: " +++ naive_aware_msg];
       rule_warnings := [];
       severity := 0.8%float |}.
Proof.
  intros T. unfold _validate_timestamp, try_except, seq, when, dt_gt, dt_lt.
  cbn [tzinfo dt_add naive]. rewrite T. reflexivity.
Qed.

Lemma loop_errors_shipped now e :
  loop_errors e (validation_rules now)
  = List.concat (map rule_errors (rule_results now e)).
Proof. reflexivity. Qed.

Lemma loop_warnings_shipped now e :
  loop_warnings e (validation_rules now)
  = List.concat (map rule_warnings (rule_results now e)).
Proof. reflexivity. Qed.

Lemma loop_score_shipped now e s :
  loop_score e (validation_rules now) s
  = fold_left rule_step (rule_results now e) s.
Proof. reflexivity. Qed.

(** ** Clean events *)

Lemma clean_timestamp_rule now e :
  clean_timestamp now e = true ->
  _validate_timestamp now e = no_findings 0.8%float.
Proof.
  unfold clean_timestamp. intros C.
  apply andb_true_iff in C. destruct C as [C C4].
  apply andb_true_iff in C. destruct C as [C C3].
  apply andb_true_iff in C. destruct C as [C1 C2].
  apply Z.leb_le in C2, C3.
  unfold _validate_timestamp, try_except, seq, when, dt_gt, dt_lt.
  cbn [tzinfo dt_add naive wall].
  destruct (tzinfo (timestamp e)); [discriminate|].
  assert (E1 : (now + 5 * usec_per_minute <? wall (timestamp e))%Z = false)
    by (apply Z.ltb_ge; lia).
  assert (E2 : (wall (timestamp e) <? now + - (7 * usec_per_day))%Z = false)
    by (apply Z.ltb_ge; lia).
  rewrite E1, E2.
  destruct (processing_metadata e) as [pm|]; [|reflexivity].
  destruct (processing_time pm) as [pt|]; [|reflexivity].
  apply andb_true_iff in C4. destruct C4 as [C5 C6].
  destruct (tzinfo pt); [discriminate|].
  apply Z.leb_le in C6.
  assert (E3 : (wall pt <? wall (timestamp e))%Z = false)
    by (apply Z.ltb_ge; lia).
  rewrite E3. reflexivity.
Qed.

Lemma visual_detection_in t :
  str_in (EventType_value t) ["person_detected"; "vehicle_detected"]
  = visual_detection t.
Proof. destruct t; reflexivity. Qed.

Lemma detection_in t :
  str_in (EventType_value t)
         ["person_detected"; "vehicle_detected"; "motion_detected"]
  = detection t.
Proof. destruct t; reflexivity. Qed.

Lemma performance_metric_eqb t :
  String.eqb (EventType_value t) "performance_metric"
  = match t with PERFORMANCE_METRIC => true | _ => false end.
Proof. destruct t; reflexivity. Qed.

Lemma clean_confidence_rule e :
  clean_confidence e = true ->
  _validate_confidence e = no_findings 0.5%float.
Proof.
  unfold clean_confidence, _validate_confidence, try_except, seq, when_,
    skip.
  rewrite visual_detection_in.
  destruct (confidence (data e)) as [c|]; [|reflexivity].
  intros C. apply andb_true_iff in C. destruct C as [C1 C2].
  rewrite C1. apply negb_true_iff in C2. rewrite C2. reflexivity.
Qed.

Lemma clean_bounding_box_rule e :
  clean_bounding_box e = true ->
  _validate_bounding_box e = no_findings 0.6%float.
Proof.
  unfold clean_bounding_box, _validate_bounding_box, try_except, seq, when_,
    skip.
  destruct (bounding_box (data e)) as [b|]; [|reflexivity].
  intros C.
  apply andb_true_iff in C. destruct C as [C C4].
  apply andb_true_iff in C. destruct C as [C C3].
  apply andb_true_iff in C. destruct C as [C1 C2].
  apply negb_true_iff in C1, C2, C3, C4. rewrite C1, C2, C3, C4. reflexivity.
Qed.

Lemma clean_consistency_rule e :
  clean_consistency e = true ->
  _validate_event_consistency e = no_findings 0.7%float.
Proof.
  unfold clean_consistency, _validate_event_consistency, try_except, seq,
    when_.
  rewrite visual_detection_in, detection_in, performance_metric_eqb.
  intros C.
  apply andb_true_iff in C. destruct C as [C C3].
  apply andb_true_iff in C. destruct C as [C1 C2].
  apply negb_true_iff in C1, C2, C3.
  unfold is_none in C1, C2.
  destruct (confidence (data e)), (bounding_box (data e));
    rewrite ?C1, ?C2, ?C3; cbn [andb] in *; rewrite ?andb_false_r in *;
    rewrite ?C1, ?C2, ?C3; reflexivity.
Qed.

Lemma clean_source_rule e :
  clean_source e = true ->
  _validate_source_integrity e = no_findings 0.4%float.
Proof.
  unfold clean_source, _validate_source_integrity, try_except, seq, when_,
    skip.
  intros C.
  apply andb_true_iff in C. destruct C as [C C3].
  apply andb_true_iff in C. destruct C as [C1 C2].
  rewrite C1, C2. cbn [negb].
  destruct (location (video_source e)) as [loc|]; [|reflexivity].
  apply andb_true_iff in C3. destruct C3 as [C3 C4].
  destruct (latitude loc), (longitude loc); rewrite ?C3, ?C4; reflexivity.
Qed.

(** X2. For every event that no rule finds anything wrong with, the loop
    over the five rules, started after a passing schema step, ends with no
    error, no warning, score 1.0 and [is_valid] true. *)
Theorem clean_event_passes_rules now e :
  clean now e = true ->
  validate_event_with SchemaPass (validation_rules now) e
  = {| is_valid := true; errors := []; warnings := []; score := 1.0%float |}.
Proof.
  unfold clean. intros C.
  apply andb_true_iff in C. destruct C as [C C5].
  apply andb_true_iff in C. destruct C as [C C4].
  apply andb_true_iff in C. destruct C as [C C3].
  apply andb_true_iff in C. destruct C as [C1 C2].
  rewrite validate_event_with_spec by discriminate.
  rewrite loop_errors_shipped, loop_warnings_shipped, loop_score_shipped.
  unfold rule_results.
  rewrite (clean_timestamp_rule _ _ C1), (clean_confidence_rule _ C2),
    (clean_bounding_box_rule _ C3), (clean_consistency_rule _ C4),
    (clean_source_rule _ C5).
  reflexivity.
Qed.

(** ** The schema step *)

(** [event.dict()] holds a [datetime] where the schema wants a string. *)
Lemma schema_always_violated e : iter_errors schema (event_dict e) <> [].
Proof.
  assert (In {| v_path := ["timestamp"]; v_keyword := "type" |}
             (iter_errors schema (event_dict e))) as I.
  { cbn. rewrite !in_app_iff. cbn. intuition. }
  intro E. rewrite E in I. contradiction.
Qed.

Lemma schema_check_not_unexpected e m : schema_check e <> Unexpected m.
Proof. unfold schema_check. destruct (iter_errors _ _); discriminate. Qed.

Lemma schema_check_fails e :
  schema_check e
  = SchemaFail (best_match_message (iter_errors schema (event_dict e))).
Proof.
  unfold schema_check. pose proof (schema_always_violated e) as N.
  destruct (iter_errors schema (event_dict e)); [congruence|reflexivity].
Qed.

(** No event is judged valid, and no score exceeds 0.7. *)
Lemma validate_event_never_valid now e :
  is_valid (validate_event now e) = false
  /\ fle (score (validate_event now e)) 0.7%float = true
  /\ hd_error (errors (validate_event now e))
     = Some ("Schema validation failed: "
             +++ best_match_message (iter_errors schema (event_dict e))).
Proof.
  unfold validate_event. rewrite schema_check_fails.
  rewrite validate_event_with_spec by discriminate.
  cbv [is_valid errors score after_schema st_errors quality_score].
  split; [reflexivity|]. split; [|reflexivity].
  apply in_range_le.
  apply score_bounded;
    [exact bounded_after_schema_failure|apply shipped_rules_conforming].
Qed.

(** X3. For every [person_detected] or [vehicle_detected] event with a
    confidence below 0.3, the warnings of [validate_event] are not empty:
    they hold the low-confidence warning. *)
Theorem low_confidence_detection_warns now e c :
  event_type e = PERSON_DETECTED \/ event_type e = VEHICLE_DETECTED ->
  confidence (data e) = Some c ->
  flt c 0.3%float = true ->
  In "Very low confidence for detection event"
     (warnings (validate_event now e)).
Proof.
  intros T C L. unfold validate_event.
  rewrite validate_event_with_spec
    by (intros m; apply schema_check_not_unexpected).
  cbv [warnings]. apply in_or_app. right.
  rewrite loop_warnings_shipped. unfold rule_results. cbn [map List.concat].
  apply in_or_app. right. apply in_or_app. left.
  unfold _validate_confidence, try_except, seq, when_, append_error,
    append_warning. rewrite C, visual_detection_in, L.
  assert (V : visual_detection (event_type e) = true)
    by (destruct T as [-> | ->]; reflexivity).
  rewrite V. cbn [andb].
  destruct (negb _); cbn; auto.
Qed.

(** C2, as amended. The score of [validate_event] is 1.0, less 0.3 when the
    schema check fails, less, for each of the five rules in turn,
    severity * 0.2 when the rule reports at least one error and
    severity * 0.1 when it reports at least one warning (however many it
    reports), with the fixed severities 0.8, 0.5, 0.6, 0.7, 0.4, and
    clamped at 0.0. The errors are the schema error, if any, followed by the
    errors of the rules, and [is_valid] is true exactly when that list is
    empty. *)
Theorem C2_score_per_rule now e :
  let r := validate_event now e in
  let results := rule_results now e in
  let violations := iter_errors schema (event_dict e) in
  score r = max0 (fold_left rule_step results
                    (if nonempty violations
                     then (1.0 - 0.3)%float else 1.0%float))
  /\ map severity results = [0.8; 0.5; 0.6; 0.7; 0.4]%float
  /\ errors r
     = (if nonempty violations
        then ["Schema validation failed: " +++ best_match_message violations]
        else [])
       ++ List.concat (map rule_errors results)
  /\ warnings r = List.concat (map rule_warnings results)
  /\ (is_valid r = true <-> errors r = []).
Proof.
  intros r results violations. subst r results.
  unfold validate_event.
  rewrite validate_event_with_spec
    by (intros m; apply schema_check_not_unexpected).
  rewrite loop_errors_shipped, loop_warnings_shipped, loop_score_shipped.
  cbv [is_valid errors warnings score].
  unfold schema_check. fold violations.
  destruct violations as [|v vs];
    cbv [after_schema st_errors st_warnings quality_score nonempty];
    (split; [reflexivity|]); (split; [apply rule_severities|]);
    (split; [reflexivity|]); (split; [reflexivity|]);
    apply length_zero_iff.
Qed.

End Shipped.

(** The handler of the loop itself: when the call of a rule raises, the
    loop appends one error that names the rule, takes a flat 0.1 off the
    score and goes on with the rules after it. No rule of the shipped table
    gets there ([shipped_rules_return]). *)
Lemma raising_callable_flat_penalty pre before rule_name (rule_func : Rule)
  after e ex :
  (forall m, pre <> Unexpected m) ->
  rule_func e = Raise ex ->
  let st := fold_left (apply_rule e) before (after_schema pre) in
  let r := validate_event_with pre
             (before ++ (rule_name, rule_func) :: after) e in
  errors r
  = st_errors st
    ++ ["Validation rule '" +++ rule_name +++ "' failed: " +++ exn_msg ex]
    ++ loop_errors e after
  /\ warnings r = st_warnings st ++ loop_warnings e after
  /\ score r = max0 (loop_score e after (quality_score st - 0.1)%float)
  /\ is_valid r = false.
Proof.
  intros N R st r. subst r.
  assert (S1 : apply_rule e st (rule_name, rule_func)
               = {| st_errors :=
                      st_errors st
                      ++ ["Validation rule '" +++ rule_name +++ "' failed: "
                          +++ exn_msg ex];
                    st_warnings := st_warnings st;
                    quality_score := (quality_score st - 0.1)%float |}).
  { unfold apply_rule. now rewrite R. }
  assert (V : validate_event_with pre
                (before ++ (rule_name, rule_func) :: after) e
          = let st' := fold_left (apply_rule e) after
                         (apply_rule e st (rule_name, rule_func)) in
            {| is_valid := (List.length (st_errors st') =? 0)%nat;
               errors := st_errors st'; warnings := st_warnings st';
               score := max0 (quality_score st') |}).
  { unfold validate_event_with. destruct pre as [|m|m]; [| |now elim (N m)];
      rewrite fold_left_app; reflexivity. }
  rewrite V, S1, rule_loop_spec. cbv zeta.
  cbv [is_valid errors warnings score st_errors st_warnings quality_score].
  rewrite <- app_assoc.
  split; [reflexivity|]. split; [reflexivity|]. split; [reflexivity|].
  apply Nat.eqb_neq. rewrite !length_app. cbn [List.length]. lia.
Qed.

(** C7, as amended. An exception raised inside a rule that is written as
    the shipped ones are (a body inside [try] / [except Exception], then
    the dictionary returned) never reaches the loop of [validate_event]:
    the rule's own handler appends one error, its prefix followed by the
    text of the exception, after the errors the body had appended. The loop
    then treats the rule like any rule with errors: it extends the errors
    with the rule's, takes severity * 0.2 off the score (not a flat 0.1),
    and severity * 0.1 more when the body had appended a warning before it
    raised; the rules after it are still evaluated and their errors,
    warnings and decrements are in the result, which is invalid. *)
Theorem C7_exception_handled_by_rule pre before rule_name sev prefix
  (body : VideoAnalyticsEvent -> Body) after e f ex :
  (forall m, pre <> Unexpected m) ->
  body e {| f_errors := []; f_warnings := [] |} = (f, Some ex) ->
  let rule_func : Rule := fun event => Ok (try_except sev prefix (body event)) in
  let st := fold_left (apply_rule e) before (after_schema pre) in
  let r := validate_event_with pre
             (before ++ (rule_name, rule_func) :: after) e in
  let s1 := (quality_score st - sev * 0.2)%float in
  let s2 := if nonempty (f_warnings f) then (s1 - sev * 0.1)%float else s1 in
  errors r
  = st_errors st ++ (f_errors f ++ [prefix +++ exn_msg ex])
    ++ loop_errors e after
  /\ warnings r = st_warnings st ++ f_warnings f ++ loop_warnings e after
  /\ score r = max0 (loop_score e after s2)
  /\ is_valid r = false.
Proof.
  intros N B rule_func st r s1 s2. subst r.
  assert (S1 : apply_rule e st (rule_name, rule_func)
               = {| st_errors :=
                      st_errors st ++ f_errors f ++ [prefix +++ exn_msg ex];
                    st_warnings := st_warnings st ++ f_warnings f;
                    quality_score := s2 |}).
  { rewrite apply_rule_spec. cbn [fst snd]. unfold rule_func, try_except.
    rewrite B. cbn [outcome_errors outcome_warnings step_score].
    unfold rule_step. cbn [rule_errors rule_warnings severity].
    replace (nonempty (f_errors f ++ [prefix +++ exn_msg ex])) with true
      by (now destruct (f_errors f)).
    reflexivity. }
  assert (V : validate_event_with pre
                (before ++ (rule_name, rule_func) :: after) e
          = let st' := fold_left (apply_rule e) after
                         (apply_rule e st (rule_name, rule_func)) in
            {| is_valid := (List.length (st_errors st') =? 0)%nat;
               errors := st_errors st'; warnings := st_warnings st';
               score := max0 (quality_score st') |}).
  { unfold validate_event_with. destruct pre as [|m|m]; [| |now elim (N m)];
      rewrite fold_left_app; reflexivity. }
  rewrite V, S1, rule_loop_spec. cbv zeta.
  cbv [is_valid errors warnings score st_errors st_warnings quality_score].
  rewrite <- !app_assoc.
  split; [reflexivity|]. split; [reflexivity|]. split; [reflexivity|].
  apply Nat.eqb_neq. rewrite !length_app. cbn [List.length]. lia.
Qed.

(** C10. Whatever the schema step does (pass, fail, or raise something
    unexpected) and whatever the five rules do on the event (each returns
    its dictionary with its severity, or raises), [validate_event] returns
    a result whose score is in [[0, 1]]; an unexpected failure of the schema
    step gives the single error entry, score 0.0 and [is_valid] false. *)
Theorem C10_validate_event_total_bounded pre rules e :
  conforming e rules ->
  let r := validate_event_with pre rules e in
  fle 0%float (score r) && fle (score r) 1.0%float = true
  /\ (forall m, pre = Unexpected m ->
      r = {| is_valid := false;
             errors := ["Unexpected validation error: " +++ m];
             warnings := [];
             score := 0.0%float |}).
Proof.
  intros F r. subst r. split.
  - destruct pre as [|m|m].
    + rewrite validate_event_with_spec by discriminate.
      apply (score_bounded _ _ _ _ bounded_from_one F).
    + rewrite validate_event_with_spec by discriminate.
      apply (score_bounded _ _ _ _ bounded_after_schema_failure_unit F).
    + reflexivity.
  - intros m ->. reflexivity.
Qed.

#[local] Existing Instance plain_rendering.

(** X2 on the fixture of the tests. *)
Lemma clean_event_witness :
  clean now0 valid_event = true
  /\ validate_event_with SchemaPass (validation_rules now0) valid_event
     = {| is_valid := true; errors := []; warnings := [];
          score := 1.0%float |}.
Proof.
  assert (C : clean now0 valid_event = true) by (vm_compute; reflexivity).
  split; [exact C|].
  exact (clean_event_passes_rules now0 valid_event C).
Defined.

(** X3 on the fixture with confidence 0.1. *)
Lemma low_confidence_witness :
  (event_type low_confidence_event = PERSON_DETECTED
   \/ event_type low_confidence_event = VEHICLE_DETECTED)
  /\ confidence (data low_confidence_event) = Some 0.1%float
  /\ flt 0.1%float 0.3%float = true
  /\ In "Very low confidence for detection event"
        (warnings (validate_event now0 low_confidence_event)).
Proof.
  split; [now left|]. split; [reflexivity|]. split; [reflexivity|].
  exact (low_confidence_detection_warns now0 low_confidence_event 0.1%float
           (or_introl eq_refl) eq_refl eq_refl).
Defined.

(** X4 on the fixture with an aware timestamp. *)
Lemma aware_timestamp_witness :
  tzinfo (timestamp aware_event) = Some 0%Z
  /\ rule_errors (_validate_timestamp now0 aware_event)
     = ["Timestamp validation error: " +++ naive_aware_msg].
Proof.
  split; [reflexivity|].
  exact (f_equal rule_errors
           (timestamp_rule_on_aware now0 aware_event 0%Z eq_refl)).
Defined.

(** C10 for the shipped checker on the fixture of the tests. *)
Lemma C10_witness :
  conforming valid_event (validation_rules now0)
  /\ (fle 0%float (score (validate_event now0 valid_event))
      && fle (score (validate_event now0 valid_event)) 1.0%float = true).
Proof.
  split.
  - apply shipped_rules_conforming.
  - exact (proj1 (C10_validate_event_total_bounded
                    (schema_check valid_event) (validation_rules now0)
                    valid_event (shipped_rules_conforming now0 valid_event))).
Defined.

(** C7 on the shipped table and an event with an aware timestamp: the
    comparison with the clock raises inside the timestamp rule. *)
Lemma C7_witness :
  (forall m, SchemaPass <> Unexpected m)
  /\ dt_gt (timestamp aware_event) (dt_add (naive now0) (5 * usec_per_minute))
     = Raise (Exn TypeError naive_aware_msg)
  /\ errors (validate_event_with SchemaPass (validation_rules now0)
                                 aware_event)
     = ["Timestamp validation error: " +++ naive_aware_msg]
       ++ loop_errors aware_event (tl (validation_rules now0))
  /\ score (validate_event_with SchemaPass (validation_rules now0)
                                aware_event)
     = max0 (loop_score aware_event (tl (validation_rules now0))
                        (1.0 - 0.8 * 0.2)%float).
Proof.
  assert (N : forall m, SchemaPass <> Unexpected m) by (intros m; discriminate).
  split; [exact N|]. split; [reflexivity|].
  pose proof (C7_exception_handled_by_rule SchemaPass []
                "timestamp_validity" 0.8%float "Timestamp validation error: "
                (fun event =>
                   when (dt_gt (timestamp event)
                               (dt_add (naive now0) (5 * usec_per_minute)))
                        (append_error "Timestamp is too far in the future") ;;;
                   when (dt_lt (timestamp event)
                               (dt_add (naive now0) (- (7 * usec_per_day))))
                        (append_warning
                           "Timestamp is quite old (more than 7 days)") ;;;
                   when (match processing_metadata event with
                         | None => Ok false
                         | Some pm =>
                             match processing_time pm with
                             | None => Ok false
                             | Some pt => dt_lt pt (timestamp event)
                             end
                         end)
                        (append_warning
                           "Processing time is before event timestamp"))
                (tl (validation_rules now0)) aware_event
                {| f_errors := []; f_warnings := [] |}
                (Exn TypeError naive_aware_msg) N eq_refl) as (E & _ & S & _).
  split; [exact E|exact S].
Defined.

(** The claim of C7 fails on the shipped checker and an event whose
    timestamp is aware: the comparison with the naive clock raises inside
    the timestamp rule, the one error entry is the rule's own and not one
    that names the rule, and the score goes down by 0.8 * 0.2 where a flat
    0.1 is claimed: to 0.54 after the 0.3 of the failed schema check
    (claimed 0.6), and to 0.84 with the schema step passing (claimed
    0.9). *)
Lemma C7_counterexample :
  dt_gt (timestamp aware_event) (dt_add (naive now0) (5 * usec_per_minute))
  = Raise (Exn TypeError naive_aware_msg)
  /\ errors (validate_event now0 aware_event)
     = ["Schema validation failed: <message>";
        "Timestamp validation error: " +++ naive_aware_msg]
  /\ existsb (String.eqb (claimed_failure_entry "timestamp_validity"
                            (Exn TypeError naive_aware_msg)))
             (errors (validate_event now0 aware_event)) = false
  /\ score (validate_event now0 aware_event) = 0.53999999999999992%float
  /\ claimed_failure_score (1.0 - 0.3)%float = 0.59999999999999998%float
  /\ validate_event_with SchemaPass (validation_rules now0) aware_event
     = {| is_valid := false;
          errors := ["Timestamp validation error: " +++ naive_aware_msg];
          warnings := [];
          score := 0.83999999999999997%float |}
  /\ claimed_failure_score 1.0%float = 0.90000000000000002%float.
Proof. repeat split; vm_compute; reflexivity. Qed.

(** The claim of C2 fails on an event whose source identifiers are blank:
    the source rule reports two errors and the score goes down once, by
    0.4 * 0.2; with the 0.3 of the failed schema check the score is 0.62,
    and 0.92 without it, where one decrement per error gives 0.84. *)
Lemma C2_counterexample :
  score (validate_event now0 blank_source_event) = 0.61999999999999988%float
  /\ score (validate_event_with SchemaPass (validation_rules now0)
                                blank_source_event)
     = 0.91999999999999993%float
  /\ claimed_score (rule_results now0 blank_source_event)
     = 0.83999999999999986%float
  /\ rule_errors (_validate_source_integrity blank_source_event)
     = ["Empty video source ID"; "Empty camera ID"]
  /\ PrimFloat.eqb (score (validate_event now0 blank_source_event))
                   (claimed_score (rule_results now0 blank_source_event))
     = false.
Proof. repeat split; vm_compute; reflexivity. Qed.

(** C5 fails on the fixture of the repository's tests, an event with
    confidence 0.95 and nothing wrong with it: the schema check rejects the
    [datetime] under ["timestamp"], so the result is invalid with score 0.7;
    with the schema step passing, the five rules give 1.0 and valid. *)
Theorem C5_clean_event_judged_invalid :
  clean now0 valid_event = true
  /\ validate_event now0 valid_event
     = {| is_valid := false;
          errors := ["Schema validation failed: <message>"];
          warnings := [];
          score := 0.7%float |}
  /\ iter_errors schema (event_dict valid_event)
     = [{| v_path := ["timestamp"]; v_keyword := "type" |}]
  /\ validate_event_with SchemaPass (validation_rules now0) valid_event
     = {| is_valid := true; errors := []; warnings := [];
          score := 1.0%float |}.
Proof. repeat split; vm_compute; reflexivity. Qed.

End CheckerFacts.

(* ================================================================== *)
(** * Results on [DataQualityMonitor]                                  *)
(* ================================================================== *)

Module MonitorFacts.
Import Py Models DataQuality Monitor MonitorNotions.
Local Open Scope string_scope.
Local Open Scope list_scope.

(** ** Lists *)

Lemma filter_filter {A} (f g : A -> bool) l :
  filter f (filter g l) = filter (fun x => g x && f x) l.
Proof.
  induction l as [|a l IH]; simpl; [reflexivity|].
  destruct (g a); simpl; [destruct (f a)|]; now rewrite IH.
Qed.

Lemma filter_none {A} (f : A -> bool) l :
  Forall (fun a => f a = false) l -> filter f l = [].
Proof.
  induction 1 as [|a l Ha _ IH]; simpl; [reflexivity|]. now rewrite Ha.
Qed.

Lemma NoDup_snoc {A} (a : A) l : NoDup l -> ~ In a l -> NoDup (l ++ [a]).
Proof.
  induction 1 as [|b l Hb ND IH]; simpl; intros NI.
  - constructor; [intros []|constructor].
  - constructor.
    + rewrite in_app_iff. simpl. intros [I|[E|[]]]; [contradiction|].
      subst. apply NI. now left.
    + apply IH. intros I. apply NI. now right.
Qed.

(** ** Dictionaries *)

Section DictFacts.
Context {V : Type}.
Implicit Types (d : dict V) (k : string) (v : V).

Lemma has_key_in d k : has_key d k = true <-> In k (keys d).
Proof.
  unfold has_key. rewrite existsb_exists. split.
  - intros (x & I & E). apply String.eqb_eq in E. now subst.
  - intros I. exists k. split; [assumption|apply String.eqb_refl].
Qed.

Lemma dict_get_none_has_key d k :
  dict_get d k = None <-> has_key d k = false.
Proof.
  unfold has_key, keys. induction d as [|[k' v'] d IH]; simpl; [tauto|].
  rewrite (String.eqb_sym k k').
  destruct (String.eqb k' k); simpl; [split; discriminate|exact IH].
Qed.

Lemma dict_get_some_has_key d k v :
  dict_get d k = Some v -> has_key d k = true.
Proof.
  intros G. destruct (has_key d k) eqn:E; [reflexivity|].
  apply dict_get_none_has_key in E. congruence.
Qed.

(** Assigning to a new key appends it. *)
Lemma dict_set_absent d k v :
  dict_get d k = None -> dict_set d k v = d ++ [(k, v)].
Proof.
  induction d as [|[k' v'] d IH]; simpl; [reflexivity|].
  destruct (String.eqb k' k); [discriminate|]. intros G. now rewrite IH.
Qed.

(** Assigning to a known key keeps the keys and their order. *)
Lemma keys_dict_set_present d k v v0 :
  dict_get d k = Some v0 -> keys (dict_set d k v) = keys d.
Proof.
  unfold keys. induction d as [|[k' v'] d IH]; simpl; [discriminate|].
  destruct (String.eqb k' k); simpl; [reflexivity|].
  intros G. now rewrite IH.
Qed.

Lemma has_key_snoc d k v k' :
  has_key (d ++ [(k, v)]) k' = has_key d k' || String.eqb k' k.
Proof.
  unfold has_key, keys. rewrite map_app, existsb_app. simpl.
  now rewrite orb_false_r.
Qed.

End DictFacts.

(** ** Counting messages *)

Lemma occurrences_cons_same k ms :
  occurrences k (k :: ms) = S (occurrences k ms).
Proof. unfold occurrences. simpl. now rewrite String.eqb_refl. Qed.

Lemma occurrences_cons_other k m ms :
  String.eqb k m = false -> occurrences k (m :: ms) = occurrences k ms.
Proof. unfold occurrences. simpl. now intros ->. Qed.

Lemma bump_nil d : bump d [] = d.
Proof.
  unfold bump. induction d as [|[k v] d IH]; simpl; [reflexivity|].
  rewrite IH. unfold occurrences. simpl. now rewrite Nat.add_0_r.
Qed.

Lemma bump_absent d m r : has_key d m = false -> bump d (m :: r) = bump d r.
Proof.
  unfold bump, has_key, keys.
  induction d as [|[k v] d IH]; simpl; [reflexivity|].
  intros H. apply orb_false_iff in H. destruct H as [H1 H2].
  rewrite (IH H2). rewrite occurrences_cons_other; [reflexivity|].
  now rewrite String.eqb_sym.
Qed.

Lemma bump_present d m r v :
  NoDup (keys d) -> dict_get d m = Some v ->
  bump (dict_set d m (v + 1)) r = bump d (m :: r).
Proof.
  unfold keys. induction d as [|[k v'] d IH]; simpl; [discriminate|].
  intros ND G. inversion ND as [|? ? NI ND']; subst.
  destruct (String.eqb k m) eqn:E.
  - apply String.eqb_eq in E. subst k. injection G as ->.
    unfold bump at 1 2. simpl. rewrite occurrences_cons_same.
    f_equal; [f_equal; lia|].
    symmetry. apply bump_absent.
    destruct (has_key d m) eqn:K; [|reflexivity].
    apply has_key_in in K. contradiction.
  - unfold bump at 1 2. simpl. rewrite occurrences_cons_other by assumption.
    f_equal. apply (IH ND' G).
Qed.

(** The messages after [m] that are new to [d] and differ from [m], with
    their counts: [m] in front changes neither. *)
Lemma fresh_counts_skip (d : dict nat) m r :
  map (fun k => (k, occurrences k r))
      (filter (fun k => negb (String.eqb k m) && negb (has_key d k))
              (first_seen r))
  = map (fun k => (k, occurrences k (m :: r)))
        (filter (fun k => negb (has_key d k))
                (filter (fun k => negb (String.eqb k m)) (first_seen r))).
Proof.
  rewrite filter_filter. apply map_ext_in. intros k I.
  apply filter_In in I. destruct I as [_ I].
  apply andb_true_iff in I. destruct I as [I _]. apply negb_true_iff in I.
  now rewrite occurrences_cons_other.
Qed.

(** Counting [ms] into a dictionary [d]: the entries of [d] go up by the
    occurrences of their keys, and the new messages follow in first-seen
    order with their occurrences. *)
Lemma count_messages_spec ms : forall d,
  NoDup (keys d) ->
  count_messages d ms
  = bump d ms ++ map (fun k => (k, occurrences k ms)) (fresh d ms).
Proof.
  unfold count_messages.
  induction ms as [|m r IH]; intros d ND.
  - simpl. rewrite bump_nil. unfold fresh. simpl. now rewrite app_nil_r.
  - cbn [fold_left]. unfold dict_get_default.
    destruct (dict_get d m) as [v|] eqn:G.
    + assert (K : keys (dict_set d m (v + 1)) = keys d)
        by (eapply keys_dict_set_present; eauto).
      assert (HK : has_key d m = true)
        by (eapply dict_get_some_has_key; eauto).
      rewrite IH by (now rewrite K).
      rewrite (bump_present _ _ _ _ ND G). f_equal.
      unfold fresh. cbn [first_seen filter]. rewrite HK. cbn [negb].
      rewrite <- fresh_counts_skip. f_equal. apply filter_ext. intros k.
      unfold has_key. rewrite K. fold (has_key d k).
      destruct (String.eqb k m) eqn:E; [|reflexivity].
      apply String.eqb_eq in E. subst k. now rewrite HK.
    + assert (HK : has_key d m = false) by (now apply dict_get_none_has_key).
      rewrite (dict_set_absent _ _ _ G).
      rewrite IH.
      2:{ unfold keys. rewrite map_app. apply NoDup_snoc; [exact ND|].
          intros I. apply (proj2 (has_key_in d m)) in I. congruence. }
      unfold bump at 1. rewrite map_app. fold (bump d r).
      rewrite (bump_absent _ _ _ HK), <- app_assoc. f_equal.
      cbn [map fst snd app].
      unfold fresh. cbn [first_seen filter]. rewrite HK. cbn [negb map].
      rewrite occurrences_cons_same. f_equal.
      rewrite <- fresh_counts_skip. f_equal. apply filter_ext. intros k.
      rewrite has_key_snoc, negb_orb. apply andb_comm.
Qed.

Lemma filter_no_keys (l : list string) :
  filter (fun k => negb (has_key ([] : dict nat) k)) l = l.
Proof. apply forallb_filter_id. apply forallb_forall. reflexivity. Qed.

(** From an empty dictionary the counters are the tally. *)
Lemma count_messages_tally ms : count_messages [] ms = tally ms.
Proof.
  rewrite count_messages_spec by constructor.
  unfold bump, fresh, tally. cbn [map app]. now rewrite filter_no_keys.
Qed.

Lemma count_messages_app d a b :
  count_messages d (a ++ b) = count_messages (count_messages d a) b.
Proof. unfold count_messages. apply fold_left_app. Qed.

(** ** The stable sort by decreasing count *)

Lemma insert_desc_perm x l : Permutation (x :: l) (insert_desc x l).
Proof.
  induction l as [|y l IH]; simpl; [reflexivity|].
  destruct (snd y <? snd x)%nat; [reflexivity|].
  rewrite perm_swap. now constructor.
Qed.

Lemma insert_desc_sorted x l :
  StronglySorted descending l -> StronglySorted descending (insert_desc x l).
Proof.
  induction l as [|y l IH]; simpl; intros S.
  - constructor; [constructor|constructor].
  - inversion S as [|? ? S' F]; subst.
    destruct (snd y <? snd x)%nat eqn:E.
    + apply Nat.ltb_lt in E. constructor; [assumption|].
      constructor; [unfold descending; lia|].
      eapply Forall_impl; [|exact F]. unfold descending. intros; lia.
    + apply Nat.ltb_ge in E. constructor; [now apply IH|].
      apply (Permutation_Forall (insert_desc_perm x l)).
      constructor; [exact E|exact F].
Qed.

(** An item goes behind the items of its own count. *)
Lemma insert_desc_stable n x l :
  StronglySorted descending l ->
  filter (count_is n) (insert_desc x l)
  = filter (count_is n) l ++ filter (count_is n) [x].
Proof.
  induction l as [|y l IH]; simpl; intros S; [reflexivity|].
  inversion S as [|? ? S' F]; subst.
  destruct (snd y <? snd x)%nat eqn:E.
  - apply Nat.ltb_lt in E. cbn [filter].
    destruct (count_is n x) eqn:Cx; [|now rewrite app_nil_r].
    unfold count_is in Cx. apply Nat.eqb_eq in Cx.
    assert (N : filter (count_is n) (y :: l) = []).
    { apply filter_none. constructor.
      - unfold count_is. apply Nat.eqb_neq. lia.
      - eapply Forall_impl; [|exact F]. unfold descending, count_is.
        intros a D. apply Nat.eqb_neq. lia. }
    cbn [filter] in N. now rewrite N.
  - cbn [filter]. rewrite (IH S'). destruct (count_is n y); reflexivity.
Qed.

Lemma sorted_desc_from acc l :
  StronglySorted descending acc ->
  let out := fold_left (fun acc x => insert_desc x acc) l acc in
  Permutation (acc ++ l) out
  /\ StronglySorted descending out
  /\ forall n,
       filter (count_is n) out
       = filter (count_is n) acc ++ filter (count_is n) l.
Proof.
  revert acc. induction l as [|x l IH]; intros acc S; cbn [fold_left].
  - rewrite app_nil_r.
    split; [reflexivity|split; [assumption|intros n; now rewrite app_nil_r]].
  - destruct (IH (insert_desc x acc) (insert_desc_sorted x acc S))
      as (P & S' & F).
    split; [|split; [assumption|]].
    + eapply Permutation_trans; [|exact P].
      eapply Permutation_trans; [apply Permutation_sym, Permutation_middle|].
      apply (Permutation_app_tail l (insert_desc_perm x acc)).
    + intros n. rewrite F, (insert_desc_stable n x acc S).
      rewrite <- app_assoc. f_equal.
      cbn [filter]. destruct (count_is n x); reflexivity.
Qed.

Lemma sorted_desc_stable l : stable_descending_sort l (sorted_desc l).
Proof.
  destruct (sorted_desc_from [] l (SSorted_nil _)) as (P & S & F).
  split; [exact P|split; [exact S|exact F]].
Qed.

(** ** Recording *)

Lemma record_all_from rs : forall m,
  fold_left (fun m r => record_validation_result (r_now r) m (r_result r)
                                                 (r_event_id r)) rs m
  = {| quality_history := quality_history m ++ map history_of rs;
       error_counts := count_messages (error_counts m) (all_errors rs);
       warning_counts :=
         count_messages (warning_counts m) (all_warnings rs) |}.
Proof.
  induction rs as [|r rs IH]; intros m.
  - destruct m; simpl. now rewrite app_nil_r.
  - cbn [fold_left]. rewrite IH. unfold record_validation_result.
    cbn [quality_history error_counts warning_counts all_errors
         all_warnings flat_map map].
    rewrite <- app_assoc, !count_messages_app. reflexivity.
Qed.

(** The history holds one record per call, and the counters are the
    tallies of all messages ever recorded. *)
Lemma record_all_spec rs :
  record_all rs = {| quality_history := map history_of rs;
                     error_counts := tally (all_errors rs);
                     warning_counts := tally (all_warnings rs) |}.
Proof.
  unfold record_all. rewrite record_all_from.
  cbn [new_monitor quality_history error_counts warning_counts app].
  now rewrite !count_messages_tally.
Qed.

(** ** The cutoff *)

Lemma timedelta_minutes_spec m :
  timedelta_minutes m
  = if ((- max_delta_days <=? m / 1440) && (m / 1440 <=? max_delta_days))%Z
    then Ok (m * usec_per_minute)%Z
    else Raise (Exn OverflowError
                    (if ((m / 1440 <? - 2147483648)
                         || (2147483647 <? m / 1440))%Z
                     then "Python int too large to convert to C int"
                     else "days=" ++ int_str (m / 1440)
                          ++ "; must have magnitude <= "
                          ++ int_str max_delta_days)).
Proof.
  unfold timedelta_minutes, max_delta_days. cbv zeta.
  generalize (m / 1440)%Z. intros days.
  repeat match goal with
         | |- context [(?a <? ?b)%Z] => destruct (Z.ltb_spec a b)
         | |- context [(?a <=? ?b)%Z] => destruct (Z.leb_spec a b)
         end;
    cbn [orb andb]; try reflexivity; lia.
Qed.

Lemma cutoff_time_in_range now w :
  cutoff_in_range now w = true ->
  cutoff_time now w = Ok (now - w * usec_per_minute)%Z.
Proof.
  unfold cutoff_in_range, cutoff_time. intros R.
  apply andb_prop in R as [R R4]. apply andb_prop in R as [R R3].
  rewrite timedelta_minutes_spec, R. cbn [bind]. unfold datetime_sub.
  cbv zeta. now rewrite R3, R4.
Qed.

Lemma cutoff_time_out_of_range now w :
  cutoff_in_range now w = false ->
  exists message, cutoff_time now w = Raise (Exn OverflowError message).
Proof.
  unfold cutoff_in_range, cutoff_time. intros R.
  rewrite timedelta_minutes_spec.
  destruct ((- max_delta_days <=? w / 1440) && (w / 1440 <=? max_delta_days))%Z;
    cbn [bind]; [|eexists; reflexivity].
  cbn [andb] in R. unfold datetime_sub. cbv zeta. rewrite R.
  eexists; reflexivity.
Qed.

Lemma recent_records_spec now w rs :
  cutoff_in_range now w = true ->
  recent_records now w (record_all rs)
  = Ok (map history_of (filter (in_window now w) rs)).
Proof.
  intros R. rewrite record_all_spec. unfold recent_records.
  rewrite (cutoff_time_in_range _ _ R). cbn [bind quality_history].
  f_equal. induction rs as [|r rs IH]; [reflexivity|].
  cbn [map filter]. unfold in_window at 1. cbn [history_of h_timestamp].
  destruct (_ <? _)%Z; cbn [map]; now rewrite IH.
Qed.

Lemma recent_records_overflow now w m :
  cutoff_in_range now w = false ->
  exists message,
    recent_records now w m = Raise (Exn OverflowError message)
    /\ get_quality_metrics now m w = Raise (Exn OverflowError message).
Proof.
  intros R. destruct (cutoff_time_out_of_range _ _ R) as (message & C).
  exists message. unfold get_quality_metrics, recent_records.
  rewrite C. split; reflexivity.
Qed.

Lemma valid_records rs :
  filter h_is_valid (map history_of rs)
  = map history_of (filter (fun r => is_valid (r_result r)) rs).
Proof.
  induction rs as [|a l IH]; [reflexivity|].
  cbn [map filter history_of h_is_valid].
  destruct (is_valid (r_result a)); cbn [map]; now rewrite IH.
Qed.

(** C9, as amended. After any sequence of recorded results and for every
    [int] window: when the window is too long for the cutoff to be computed
    (its whole days are not a [timedelta], or the cutoff is no [datetime] of
    the years 1 to 9999), [get_quality_metrics] raises [OverflowError].
    Otherwise it returns the no-data marker when no record is newer than
    the cutoff, and else the event count, the number and rate of valid
    events, the average score and the total error and warning counts are
    computed from the records newer than the cutoff, while the two top-5
    lists come from the counters of all results ever recorded, inside the
    window or not: every distinct message with its number of occurrences,
    sorted by decreasing count with ties in first-seen order, cut to five. *)
Theorem C9_windowed_counts_cumulative_top now window_minutes rs :
  let m := record_all rs in
  let recent := filter (in_window now window_minutes) rs in
  let top messages := firstn 5 (sorted_desc (tally messages)) in
  (if cutoff_in_range now window_minutes then
     get_quality_metrics now m window_minutes
     = Ok match recent with
          | [] => None
          | _ =>
              let total := List.length recent in
              let valid :=
                List.length (filter (fun r => is_valid (r_result r)) recent) in
              Some {| window_minutes := window_minutes;
                      total_events := total;
                      valid_events := valid;
                      validity_rate :=
                        (float_of_nat valid / float_of_nat total)%float;
                      average_quality_score :=
                        (fsum (map (fun r => score (r_result r)) recent)
                         / float_of_nat total)%float;
                      total_errors :=
                        list_sum
                          (map (fun r => List.length (errors (r_result r)))
                               recent);
                      total_warnings :=
                        list_sum
                          (map (fun r => List.length (warnings (r_result r)))
                               recent);
                      top_errors := top (all_errors rs);
                      top_warnings := top (all_warnings rs) |}
          end
   else exists message,
       get_quality_metrics now m window_minutes
       = Raise (Exn OverflowError message))
  /\ stable_descending_sort (tally (all_errors rs))
                            (sorted_desc (tally (all_errors rs)))
  /\ stable_descending_sort (tally (all_warnings rs))
                            (sorted_desc (tally (all_warnings rs))).
Proof.
  intros m recent top. split; [|split; apply sorted_desc_stable].
  destruct (cutoff_in_range now window_minutes) eqn:R.
  - unfold get_quality_metrics. subst m top.
    rewrite (recent_records_spec _ _ _ R). cbn [bind]. fold recent.
    rewrite record_all_spec. cbn [error_counts warning_counts].
    destruct recent as [|r recent']; [reflexivity|].
    set (rec := r :: recent'). cbn [map]. fold (map history_of rec).
    change (history_of r :: map history_of recent') with (map history_of rec).
    cbv zeta. rewrite valid_records, !length_map, !map_map. reflexivity.
  - destruct (recent_records_overflow now window_minutes m R)
      as (message & _ & G).
    now exists message.
Qed.

(** The claim of C9 fails for the top-5 lists: two monitors with the same
    records inside the window, one of which also holds an older failed
    result, report different [top_errors]. *)
Lemma C9_counterexample :
  let now := (101 * usec_per_minute)%Z in
  recent_records now 60 (record_all [old_failure; recent_success])
  = recent_records now 60 (record_all [recent_success])
  /\ recent_records now 60 (record_all [recent_success])
     = Ok [history_of recent_success]
  /\ reported_top_errors
       (get_quality_metrics now (record_all [old_failure; recent_success]) 60)
     = Some [("old failure", 1%nat)]
  /\ reported_top_errors
       (get_quality_metrics now (record_all [recent_success]) 60)
     = Some [].
Proof. repeat split; vm_compute; reflexivity. Qed.

(** The limits of the cutoff at the clock reading of the tests,
    2023-12-01T10:30:00: 1063950390 minutes back is [datetime.min] and
    4195014569 minutes ahead is in the last minute of the year 9999; a
    minute more either way, no [datetime]. The limits of [timedelta]. *)
Lemma cutoff_limits :
  cutoff_time CheckerNotions.now0 1063950390 = Ok 0%Z
  /\ cutoff_time CheckerNotions.now0 1063950391
     = Raise (Exn OverflowError "date value out of range")
  /\ cutoff_time CheckerNotions.now0 (-4195014569)
     = Ok (max_wall - 59999999)%Z
  /\ cutoff_time CheckerNotions.now0 (-4195014570)
     = Raise (Exn OverflowError "date value out of range")
  /\ timedelta_minutes 1439999999999
     = Ok (1439999999999 * usec_per_minute)%Z
  /\ timedelta_minutes (-1439999998561)
     = Raise (Exn OverflowError
                  "days=-1000000000; must have magnitude <= 999999999")
  /\ timedelta_minutes 3092376453119
     = Raise (Exn OverflowError
                  "days=2147483647; must have magnitude <= 999999999")
  /\ timedelta_minutes 3092376453120
     = Raise (Exn OverflowError "Python int too large to convert to C int").
Proof. repeat split; vm_compute; reflexivity. Qed.

(** A window of 2000000000 minutes, some 3800 years, at the clock reading
    of the tests: the [timedelta] exists, the cutoff does not. *)
Lemma long_window_overflows m :
  timedelta_minutes 2000000000 = Ok (2000000000 * usec_per_minute)%Z
  /\ get_quality_metrics CheckerNotions.now0 m 2000000000
     = Raise (Exn OverflowError "date value out of range")
  /\ timedelta_minutes 1440000000000
     = Raise (Exn OverflowError
                  "days=1000000000; must have magnitude <= 999999999").
Proof. repeat split; vm_compute; reflexivity. Qed.

End MonitorFacts.

(* ================================================================== *)
(** * Results on [beam/transforms.py]                                  *)
(* ================================================================== *)

Module TransformFacts.
Import Py Models DataQuality Transforms CheckerNotions TransformNotions.
Local Open Scope string_scope.
Local Open Scope list_scope.

(** ** [ParseVideoEvent] *)

Section ParseFacts.
Context `{Rendering}.
Variable json_loads : string -> result PyVal.
Variable construct : PyVal -> result VideoAnalyticsEvent.

(** X1. With the checker that [setup] installs, the parse stage yields no
    event, whatever message it reads and whatever the clock shows: a
    message that parses and constructs is judged invalid by the schema
    step, and any other is dropped by a handler. *)
Theorem ParseVideoEvent_never_yields checked_at now element counters :
  fst (ParseVideoEvent_process json_loads construct checked_at now element
                               counters)
  = [].
Proof.
  unfold ParseVideoEvent_process, ParseVideoEvent_process_with, parse_body,
    bind.
  destruct (json_loads element) as [d|ex];
    [|destruct (exn_cls ex); reflexivity].
  destruct (construct d) as [e|ex]; [|destruct (exn_cls ex); reflexivity].
  destruct (CheckerFacts.validate_event_never_valid checked_at e) as [V _].
  now rewrite V.
Qed.

(** With a checker that accepts the event, and processing metadata on the
    event, the stage stamps and yields it. *)
Lemma parse_stage_stamps_present_metadata checker now element counters
  event_data e m :
  json_loads element = Ok event_data ->
  construct event_data = Ok e ->
  is_valid (checker e) = true ->
  processing_metadata e = Some m ->
  ParseVideoEvent_process_with json_loads construct checker now element
                               counters
  = ([with_metadata e (Some {| pipeline_version := Some "1.0.0";
                               processing_time := Some (naive now);
                               model_version := model_version m |})],
     increment_counter counters "events_processed_success").
Proof.
  intros J C V M.
  unfold ParseVideoEvent_process_with, parse_body, bind.
  rewrite J, C, V. unfold add_processing_metadata. rewrite M. reflexivity.
Qed.

(** C1 fails on every message that parses and constructs to an event
    without processing metadata. The stage as set up drops it and counts
    "data quality failed", since its checker judges no event valid. With any
    checker that judges the event valid the stage drops it as well: [None]
    is replaced by a dictionary, the assignment of [processing_time] to it
    raises [AttributeError], and the last handler counts "processing
    error". *)
Theorem C1_valid_message_dropped checked_at now element counters event_data
  e :
  json_loads element = Ok event_data ->
  construct event_data = Ok e ->
  processing_metadata e = None ->
  ParseVideoEvent_process json_loads construct checked_at now element counters
  = ([], increment_counter counters "events_data_quality_failed")
  /\ (forall checker, is_valid (checker e) = true ->
      ParseVideoEvent_process_with json_loads construct checker now element
                                   counters
      = ([], increment_counter counters "events_processing_error")).
Proof.
  intros J C M. split.
  - unfold ParseVideoEvent_process, ParseVideoEvent_process_with, parse_body,
      bind.
    rewrite J, C.
    destruct (CheckerFacts.validate_event_never_valid checked_at e) as [V _].
    now rewrite V.
  - intros checker V.
    unfold ParseVideoEvent_process_with, parse_body, bind.
    rewrite J, C, V. unfold add_processing_metadata. rewrite M. reflexivity.
Qed.

End ParseFacts.

(** ** [EnrichEvent] *)

Lemma same_but_attributes_refl a : same_but_attributes a a.
Proof. repeat split. Qed.

Lemma same_but_attributes_trans a b c :
  same_but_attributes a b -> same_but_attributes b c ->
  same_but_attributes a c.
Proof. unfold same_but_attributes. intuition congruence. Qed.

Lemma set_attribute_same e k : same_but_attributes e (set_attribute e k).
Proof. repeat split. Qed.

Lemma mark_high_confidence_same e :
  same_but_attributes e (mark_high_confidence e).
Proof.
  unfold mark_high_confidence.
  destruct (_ && _); [apply set_attribute_same|apply same_but_attributes_refl].
Qed.

Lemma mark_has_location_same e :
  same_but_attributes e (mark_has_location e).
Proof.
  unfold mark_has_location.
  destruct (location _);
    [apply set_attribute_same|apply same_but_attributes_refl].
Qed.


(** ** [FilterAnomalies] *)

Lemma str_in_person_vehicle t :
  str_in (EventType_value t) ["person_detected"; "vehicle_detected"] = true
  <-> t = PERSON_DETECTED \/ t = VEHICLE_DETECTED.
Proof. destruct t; cbn; split; intros; intuition discriminate. Qed.

Lemma is_anomaly_type t :
  String.eqb (EventType_value t) "anomaly_detected" = true
  <-> t = ANOMALY_DETECTED.
Proof. destruct t; cbn; split; intros; congruence. Qed.

Lemma anomaly_detected_always_anomalous threshold e :
  event_type e = ANOMALY_DETECTED -> detect_anomaly threshold e = true.
Proof. intros E. unfold detect_anomaly. now rewrite E. Qed.

(** The three examples of the specification, at the default threshold. *)
Lemma classification_examples :
  detect_anomaly default_confidence_threshold
                 (event_of PERSON_DETECTED (Some 0.96%float)) = true
  /\ detect_anomaly default_confidence_threshold
                    (event_of PERSON_DETECTED (Some 0.80%float)) = false
  /\ detect_anomaly default_confidence_threshold
                    (event_of ANOMALY_DETECTED None) = true.
Proof. repeat split. Qed.

(** C4, as amended. For every event and every threshold, the classifier
    yields one result for the event, with [is_anomaly] true exactly when
    the event type is [anomaly_detected], or the confidence is present, is
    not zero (the truth test of [event.data.confidence and ...]), is
    greater than the threshold, and the event type is [person_detected] or
    [vehicle_detected] ([motion_detected] is not in the classifier's list);
    the priority is "high" exactly for an anomaly, and the result goes to
    the anomaly branch when [is_anomaly] is true and to the normal branch
    otherwise. *)
Theorem C4_classifier threshold now e counters :
  exists r counters',
    FilterAnomalies_process threshold now e counters = ([r], counters')
    /\ event r = e
    /\ (is_anomaly r = true <->
        event_type e = ANOMALY_DETECTED
        \/ (exists c, confidence (data e) = Some c
                      /\ float_truthy c = true
                      /\ fgt c threshold = true
                      /\ (event_type e = PERSON_DETECTED
                          \/ event_type e = VEHICLE_DETECTED)))
    /\ processing_priority r = (if is_anomaly r then "high" else "normal")
    /\ anomaly_events [r] = (if is_anomaly r then [r] else [])
    /\ normal_events [r] = (if is_anomaly r then [] else [r]).
Proof.
  unfold FilterAnomalies_process.
  eexists; eexists; split; [reflexivity|].
  cbv [event is_anomaly processing_priority].
  split; [reflexivity|]. split.
  - unfold detect_anomaly.
    destruct (String.eqb (EventType_value (event_type e)) "anomaly_detected")
      eqn:A.
    + apply is_anomaly_type in A. intuition.
    + assert (NA : event_type e <> ANOMALY_DETECTED).
      { intros E. apply is_anomaly_type in E. congruence. }
      destruct (confidence (data e)) as [c|] eqn:C.
      * cbn [opt_float_truthy].
        destruct (float_truthy c) eqn:T; cbn [andb].
        -- destruct (fgt c threshold) eqn:G; cbn [andb].
           ++ destruct (str_in _ _) eqn:S.
              ** apply str_in_person_vehicle in S.
                 split; [intros _|reflexivity].
                 right. exists c. auto.
              ** split; [discriminate|].
                 intros [E|(c' & Ec & _ & _ & PV)]; [contradiction|].
                 apply str_in_person_vehicle in PV. congruence.
           ++ split; [discriminate|].
              intros [E|(c' & Ec & _ & G' & _)]; [contradiction|]. congruence.
        -- split; [discriminate|].
           intros [E|(c' & Ec & T' & _)]; [contradiction|]. congruence.
      * cbn. split; [discriminate|].
        intros [E|(c' & Ec & _)]; [contradiction|discriminate].
  - unfold anomaly_events, normal_events. cbn [filter is_anomaly].
    destruct (detect_anomaly threshold e); repeat split.
Qed.

#[local] Existing Instance plain_rendering.

(** C1 on the fixture of the tests, with a checker that accepts it. *)
Lemma C1_witness :
  (fun _ : string => Ok PyNone) "{}" = Ok PyNone
  /\ (fun _ : PyVal => Ok valid_event) PyNone = Ok valid_event
  /\ processing_metadata valid_event = None
  /\ ParseVideoEvent_process_with (fun _ => Ok PyNone)
       (fun _ => Ok valid_event) accepting_checker now0 "{}" []
     = ([], [("video_analytics.events_processing_error", 1%Z)]).
Proof.
  split; [reflexivity|]. split; [reflexivity|]. split; [reflexivity|].
  exact (proj2 (C1_valid_message_dropped (fun _ => Ok PyNone)
                  (fun _ => Ok valid_event) now0 now0 "{}" [] PyNone
                  valid_event eq_refl eq_refl eq_refl)
               accepting_checker eq_refl).
Defined.

(** The claim of C4 fails on a [motion_detected] event of confidence 0.96
    at the default threshold: the specification's family includes it, the
    classifier's list does not. *)
Lemma C4_counterexample :
  detect_anomaly default_confidence_threshold
                 (event_of MOTION_DETECTED (Some 0.96%float)) = false
  /\ claimed_is_anomaly default_confidence_threshold
                        (event_of MOTION_DETECTED (Some 0.96%float)) = true.
Proof. split; vm_compute; reflexivity. Qed.

(** ** [WindowedAggregation] *)

Lemma aggregate_loop events : forall event_types confidence_scores,
  fold_left aggregate_step events (event_types, confidence_scores)
  = (Monitor.count_messages event_types
       (map (fun x => EventType_value (event_type (event x))) events),
     confidence_scores ++ collected_confidences events).
Proof.
  induction events as [|x events IH]; intros d cs.
  - cbn. now rewrite app_nil_r.
  - cbn [fold_left aggregate_step]. rewrite IH.
    cbn [map collected_confidences flat_map]. unfold Monitor.count_messages.
    cbn [fold_left]. f_equal.
    destruct (confidence (data (event x))) as [c|]; cbn [opt_float_truthy];
      [destruct (float_truthy c)|]; now rewrite <- ?app_assoc.
Qed.


(** The example of the specification: confidences 0.8 and 1.0. *)
Lemma aggregator_spec_example :
  let events := [classified PERSON_DETECTED (Some 0.8%float);
                 classified PERSON_DETECTED (Some 1.0%float)] in
  exists agg counters',
    WindowedAggregation_process now0 "A" events 0 60000000 []
    = ([agg], counters')
    /\ total_events agg = 2%nat
    /\ average_confidence agg = 0.9%float
    /\ high_confidence_events agg = 1%nat.
Proof.
  cbv zeta. eexists; eexists. repeat split; vm_compute; reflexivity.
Qed.

(** A window without confidence values closes with average 0. *)
Lemma aggregator_no_confidence :
  let events := [classified SYSTEM_EVENT None; classified SYSTEM_EVENT None] in
  exists agg counters',
    WindowedAggregation_process now0 "A" events 0 60000000 []
    = ([agg], counters')
    /\ total_events agg = 2%nat
    /\ average_confidence agg = 0%float
    /\ high_confidence_events agg = 0%nat.
Proof.
  cbv zeta. eexists; eexists. repeat split; vm_compute; reflexivity.
Qed.

(** C3 fails on a window whose events carry the confidences 0.0 and 1.0:
    the test [if ....get("confidence")] is false for 0.0, so that value is
    not collected and the average is 1.0, where the mean of the two values
    present is 0.5. *)
Theorem C3_zero_confidence_left_out :
  let events := [classified PERSON_DETECTED (Some 0.0%float);
                 classified PERSON_DETECTED (Some 1.0%float)] in
  exists agg counters',
    WindowedAggregation_process now0 "A" events 0 60000000 []
    = ([agg], counters')
    /\ total_events agg = 2%nat
    /\ event_type_counts agg = [("person_detected", 2%nat)]
    /\ average_confidence agg = 1.0%float
    /\ claimed_average_confidence events = 0.5%float.
Proof.
  cbv zeta. eexists; eexists. repeat split; vm_compute; reflexivity.
Qed.

End TransformFacts.

(* ================================================================== *)
(** * Results on the stages of [beam/transforms.py], run on many
      elements                                                         *)
(* ================================================================== *)

Module StageFacts.
Import Py Models DataQuality Transforms.
Import MonitorNotions TransformNotions StageNotions.
Local Open Scope string_scope.
Local Open Scope list_scope.
Local Open Scope Z_scope.

(** ** Dictionaries and counters *)

Lemma dict_get_set {V} (d : dict V) k v k' :
  dict_get (dict_set d k v) k'
  = if String.eqb k k' then Some v else dict_get d k'.
Proof.
  induction d as [|[k0 v0] d IH]; cbn [dict_set dict_get].
  - reflexivity.
  - destruct (String.eqb k0 k) eqn:E0; cbn [dict_get].
    + apply String.eqb_eq in E0. subst k0.
      now destruct (String.eqb k k').
    + destruct (String.eqb k0 k') eqn:E1; [|exact IH].
      apply String.eqb_eq in E1. subst k0. now rewrite String.eqb_sym, E0.
Qed.

Lemma append_eqb p a b :
  String.eqb (p ++ a) (p ++ b) = String.eqb a b.
Proof.
  induction p as [|c p IH]; cbn [String.append]; [reflexivity|].
  cbn [String.eqb]. now rewrite Ascii.eqb_refl.
Qed.

Lemma counter_increment counters n n' :
  counter (increment_counter counters n) n'
  = if String.eqb n n' then counter counters n' + 1 else counter counters n'.
Proof.
  unfold counter, increment_counter, dict_get_default.
  rewrite dict_get_set, !append_eqb.
  destruct (String.eqb n n') eqn:E; [|reflexivity].
  apply String.eqb_eq in E. now subst.
Qed.

Lemma counter_increment_same counters n :
  counter (increment_counter counters n) n = counter counters n + 1.
Proof. now rewrite counter_increment, String.eqb_refl. Qed.

Lemma counter_increment_other counters n n' :
  String.eqb n n' = false ->
  counter (increment_counter counters n) n' = counter counters n'.
Proof. intros E. now rewrite counter_increment, E. Qed.

(** ** [beam.ParDo] *)

Lemma par_do_from {A B} (process : Z -> A -> Counters -> list B * Counters)
  elements : forall out counters,
  fold_left (fun acc el =>
               let (o, c) := process (fst el) (snd el) (snd acc) in
               (fst acc ++ o, c))
            elements (out, counters)
  = (out ++ fst (par_do process elements counters),
     snd (par_do process elements counters)).
Proof.
  unfold par_do.
  induction elements as [|el elements IH]; intros out counters.
  - cbn. now rewrite app_nil_r.
  - cbn [fold_left fst snd].
    destruct (process (fst el) (snd el) counters) as [o c] eqn:P.
    rewrite IH. cbn [app]. rewrite (IH o c). cbn [fst snd].
    now rewrite app_assoc.
Qed.

Lemma par_do_cons {A B} (process : Z -> A -> Counters -> list B * Counters)
  el elements counters :
  par_do process (el :: elements) counters
  = (fst (process (fst el) (snd el) counters)
     ++ fst (par_do process elements
                    (snd (process (fst el) (snd el) counters))),
     snd (par_do process elements
                 (snd (process (fst el) (snd el) counters)))).
Proof.
  unfold par_do at 1. cbn [fold_left fst snd].
  destruct (process (fst el) (snd el) counters) as [o c].
  rewrite par_do_from. reflexivity.
Qed.

(** ** [ParseVideoEvent] *)

Section ParseAccounting.
Variable json_loads : string -> result PyVal.
Variable construct : PyVal -> result VideoAnalyticsEvent.

(** One call yields nothing or one event and increments exactly one of the
    five counters; it is "events_processed_success" exactly when an event
    is yielded. *)
Lemma parse_one checker now element counters :
  let r := ParseVideoEvent_process_with json_loads construct checker
                                        now element counters in
  exists name,
    In name parse_counters
    /\ snd r = increment_counter counters name
    /\ ((fst r = [] /\ name <> "events_processed_success")
        \/ ((exists e, fst r = [e]) /\ name = "events_processed_success")).
Proof.
  cbv zeta.
  unfold ParseVideoEvent_process_with, parse_body, parse_counters.
  destruct (json_loads element) as [v|ex]; cbn [bind].
  2:{ destruct (exn_cls ex);
      (eexists; split; [|split; [reflexivity|left; split;
                                              [reflexivity|discriminate]]]);
      cbn; tauto. }
  destruct (construct v) as [e|ex]; cbn [bind].
  2:{ destruct (exn_cls ex);
      (eexists; split; [|split; [reflexivity|left; split;
                                              [reflexivity|discriminate]]]);
      cbn; tauto. }
  destruct (is_valid (checker e)).
  - destruct (add_processing_metadata now e) as [e'|ex]; cbn [bind].
    + exists "events_processed_success". split; [cbn; tauto|].
      split; [reflexivity|]. right. split; [now exists e'|reflexivity].
    + destruct (exn_cls ex);
      (eexists; split; [|split; [reflexivity|left; split;
                                              [reflexivity|discriminate]]]);
      cbn; tauto.
  - exists "events_data_quality_failed". split; [cbn; tauto|].
    split; [reflexivity|]. left. split; [reflexivity|discriminate].
Qed.

Lemma total_increment counters name :
  In name parse_counters ->
  total (increment_counter counters name) parse_counters
  = total counters parse_counters + 1.
Proof.
  unfold total, parse_counters. cbn [map fold_right In].
  rewrite !counter_increment.
  intros [E|[E|[E|[E|[E|[]]]]]]; subst name; cbn; lia.
Qed.

(** X6. Every message is counted once, whatever happens to it: after any number
    of messages the five counters of the parse stage have grown, together,
    by the number of messages, and "events_processed_success" by the number
    of events passed on, of which there is at most one per message. This
    holds for every JSON parser, constructor and checker the stage is run
    with. *)
Theorem parse_stage_counts_every_message checker elements counters :
  let r := par_do (parse_process json_loads construct checker)
                  elements counters in
  total (snd r) parse_counters
  = total counters parse_counters + Z.of_nat (List.length elements)
  /\ counter (snd r) "events_processed_success"
     = counter counters "events_processed_success"
       + Z.of_nat (List.length (fst r))
  /\ (List.length (fst r) <= List.length elements)%nat.
Proof.
  cbv zeta. revert counters.
  induction elements as [|el elements IH]; intros counters.
  - cbn. repeat split; lia.
  - rewrite par_do_cons. cbn [fst snd].
    destruct (parse_one (checker (fst (snd el))) (fst el) (snd (snd el))
                        counters) as (name & I & S & O).
    fold (parse_process json_loads construct checker (fst el) (snd el)
                        counters) in S, O.
    rewrite S. specialize (IH (increment_counter counters name)).
    destruct IH as (T & C & L). rewrite T, C.
    rewrite total_increment by exact I.
    rewrite counter_increment.
    rewrite length_app.
    destruct O as [[O N]|[[e O] N]]; rewrite O; cbn [List.length].
    + apply String.eqb_neq in N. rewrite N. repeat split; lia.
    + subst name. rewrite String.eqb_refl. repeat split; lia.
Qed.

End ParseAccounting.

(** ** [EnrichEvent] *)

Lemma dict_set_known {V} (d : dict V) k v :
  dict_get d k = Some v -> dict_set d k v = d.
Proof.
  induction d as [|[k0 v0] d IH]; cbn [dict_get dict_set]; [discriminate|].
  destruct (String.eqb k0 k); [congruence|].
  intros G. now rewrite IH.
Qed.

Lemma mark_high_confidence_spec e :
  mark_high_confidence e
  = if high_confidence_detection e then set_attribute e "high_confidence"
    else e.
Proof.
  unfold mark_high_confidence, high_confidence_detection.
  destruct (event_type e); destruct (confidence (data e)); reflexivity.
Qed.

Lemma high_confidence_detection_same a b :
  same_but_attributes a b ->
  high_confidence_detection a = high_confidence_detection b.
Proof.
  intros (_ & _ & _ & T & C & _). unfold high_confidence_detection.
  now rewrite T, C.
Qed.

Lemma attributes_of_set e k :
  attributes_of (set_attribute e k)
  = dict_set (attributes_of e) k (PyBool true).
Proof. reflexivity. Qed.

Lemma set_attribute_known e k :
  dict_get (attributes_of e) k = Some (PyBool true) ->
  set_attribute (set_attribute e k) k = set_attribute e k.
Proof.
  intros _. unfold set_attribute, with_attributes.
  cbn [attributes data event_id timestamp video_source event_type
       confidence bounding_box metrics processing_metadata].
  rewrite (dict_set_known (dict_set _ k _) k (PyBool true)); [reflexivity|].
  now rewrite dict_get_set, String.eqb_refl.
Qed.

(** Setting a flag that the attributes hold already changes nothing. *)
Lemma set_attribute_present e k :
  attributes (data e) <> None ->
  dict_get (attributes_of e) k = Some (PyBool true) ->
  set_attribute e k = e.
Proof.
  intros N G. unfold set_attribute, with_attributes.
  fold (attributes_of e). rewrite (dict_set_known _ _ _ G).
  unfold attributes_of.
  destruct e as [i t s ty [c b m [a|]] p]; [reflexivity|].
  now contradiction N.
Qed.

Lemma set_attribute_not_none e k : attributes (data (set_attribute e k)) <> None.
Proof. discriminate. Qed.

(** What the enriched event holds under an attribute key: [True] under the
    two flags when their conditions are met, and in every other case what
    the incoming event held there. *)
Lemma enrich_lookup e k :
  dict_get (attributes_of (enrich e)) k
  = if (String.eqb "has_location" k
        && match location (video_source e) with
           | Some _ => true
           | None => false
           end)
       || (String.eqb "high_confidence" k && high_confidence_detection e)
    then Some (PyBool true)
    else dict_get (attributes_of e) k.
Proof.
  unfold enrich, mark_has_location. rewrite mark_high_confidence_spec.
  assert (L : forall e', location (video_source (set_attribute e' "high_confidence"))
                         = location (video_source e')) by reflexivity.
  destruct (high_confidence_detection e).
  - rewrite L. destruct (location (video_source e)).
    + rewrite !attributes_of_set, !dict_get_set.
      destruct (String.eqb "has_location" k); [reflexivity|].
      now destruct (String.eqb "high_confidence" k).
    + rewrite attributes_of_set, dict_get_set.
      now destruct (String.eqb "has_location" k),
                   (String.eqb "high_confidence" k).
  - destruct (location (video_source e)).
    + rewrite attributes_of_set, dict_get_set.
      now destruct (String.eqb "has_location" k),
                   (String.eqb "high_confidence" k).
    + now destruct (String.eqb "has_location" k),
                   (String.eqb "high_confidence" k).
Qed.

Lemma enrich_same e : same_but_attributes e (enrich e).
Proof.
  unfold enrich.
  eapply TransformFacts.same_but_attributes_trans;
    [apply TransformFacts.mark_high_confidence_same
    |apply TransformFacts.mark_has_location_same].
Qed.

Lemma enrich_has_attributes e :
  high_confidence_detection e = true
  \/ location (video_source e) <> None ->
  attributes (data (enrich e)) <> None.
Proof.
  unfold enrich, mark_has_location. rewrite mark_high_confidence_spec.
  intros [D|L].
  - rewrite D. destruct (location _); discriminate.
  - destruct (high_confidence_detection e).
    + destruct (location _); discriminate.
    + destruct (location (video_source e)); [discriminate|].
      now contradiction L.
Qed.

(** X7. Enriching twice is enriching once: an event that passes the stage again
    (a retried bundle, a replayed message) comes out unchanged. *)
Theorem enrich_idempotent e : enrich (enrich e) = enrich e.
Proof.
  pose proof (enrich_same e) as S.
  pose proof (high_confidence_detection_same _ _ S) as H.
  assert (L : location (video_source (enrich e))
              = location (video_source e)).
  { destruct S as (_ & _ & V & _). now rewrite V. }
  pose proof (enrich_lookup e) as G.
  pose proof (enrich_has_attributes e) as N.
  set (e' := enrich e) in *. clearbody e'.
  assert (M : mark_high_confidence e' = e').
  { rewrite mark_high_confidence_spec, <- H.
    destruct (high_confidence_detection e) eqn:D; [|reflexivity].
    apply set_attribute_present; [apply N; now left|].
    rewrite G. cbn [String.eqb Ascii.eqb Bool.eqb andb orb].
    now destruct (location _). }
  unfold enrich. rewrite M. unfold mark_has_location. rewrite L.
  destruct (location (video_source e)) eqn:Loc; [|reflexivity].
  apply set_attribute_present; [apply N; right; discriminate|].
  rewrite G. reflexivity.
Qed.

(** X8. Enrichment changes the attributes only under its two flags, and
    only towards [True]: under "has_location" the enriched event holds
    [True] when the source has a location, under "high_confidence" it holds
    [True] for a person or vehicle detection whose confidence is not zero
    and above 0.9, and in every other case, and under every other key, it
    holds what the incoming event held. So a flag that comes in with the
    event is never cleared, even when its condition is not met. *)
Theorem enrichment_sets_flags_only e :
  (forall k, String.eqb "has_location" k = false ->
             String.eqb "high_confidence" k = false ->
             dict_get (attributes_of (enrich e)) k
             = dict_get (attributes_of e) k)
  /\ dict_get (attributes_of (enrich e)) "has_location"
     = match location (video_source e) with
       | Some _ => Some (PyBool true)
       | None => dict_get (attributes_of e) "has_location"
       end
  /\ dict_get (attributes_of (enrich e)) "high_confidence"
     = (if high_confidence_detection e then Some (PyBool true)
        else dict_get (attributes_of e) "high_confidence")
  /\ same_but_attributes e (enrich e).
Proof.
  split; [|split; [|split]].
  - intros k L H. now rewrite enrich_lookup, L, H.
  - rewrite enrich_lookup. cbn [String.eqb Ascii.eqb Bool.eqb andb orb].
    now destruct (location _).
  - rewrite enrich_lookup. cbn [String.eqb Ascii.eqb Bool.eqb andb orb].
    reflexivity.
  - apply enrich_same.
Qed.

(** ** [EnrichEvent] before [FilterAnomalies] *)



(** ** [FilterAnomalies] and the two branches *)

Lemma filter_split {A} (f : A -> bool) l :
  Permutation l (filter f l ++ filter (fun x => negb (f x)) l).
Proof.
  induction l as [|a l IH]; [constructor|].
  cbn [filter]. destruct (f a); cbn [negb app].
  - now constructor.
  - now apply Permutation_cons_app.
Qed.

Lemma filter_split_length {A} (f : A -> bool) l :
  (List.length (filter f l) + List.length (filter (fun x => negb (f x)) l)
   = List.length l)%nat.
Proof.
  rewrite <- length_app. symmetry. apply Permutation_length, filter_split.
Qed.

(** X10. After [FilterAnomalies] has run on any number of events there is one
    result per event, in order; the anomaly branch and the normal branch of
    [pipeline.py] divide the results between them, every result going to
    exactly one branch; the results of the anomaly branch carry priority
    "high" and those of the normal branch "normal"; and "events_filtered"
    has grown by the number of events, "anomalies_detected" by the number
    of results in the anomaly branch. *)
Theorem filter_stage_splits_and_counts threshold events counters :
  let r := par_do (FilterAnomalies_process threshold) events counters in
  map event (fst r) = map snd events
  /\ Permutation (fst r) (anomaly_events (fst r) ++ normal_events (fst r))
  /\ (List.length (anomaly_events (fst r))
      + List.length (normal_events (fst r)) = List.length events)%nat
  /\ Forall (fun x => processing_priority x = "high") (anomaly_events (fst r))
  /\ Forall (fun x => processing_priority x = "normal")
            (normal_events (fst r))
  /\ counter (snd r) "events_filtered"
     = counter counters "events_filtered" + Z.of_nat (List.length events)
  /\ counter (snd r) "anomalies_detected"
     = counter counters "anomalies_detected"
       + Z.of_nat (List.length (anomaly_events (fst r))).
Proof.
  cbv zeta.
  assert (M : forall counters,
             map event (fst (par_do (FilterAnomalies_process threshold)
                                    events counters))
             = map snd events).
  { induction events as [|el events IH]; intros c; [reflexivity|].
    rewrite par_do_cons. cbn [fst snd FilterAnomalies_process app map event].
    now rewrite IH. }
  split; [apply M|]. split; [apply (filter_split is_anomaly)|].
  split.
  { unfold anomaly_events, normal_events.
    rewrite (filter_split_length is_anomaly).
    rewrite <- (length_map event), M. apply length_map. }
  clear M. revert counters.
  induction events as [|el events IH]; intros counters.
  { cbn. repeat split; try constructor; lia. }
  rewrite par_do_cons.
  cbn [fst snd FilterAnomalies_process app].
  set (c1 := increment_counter
               (if detect_anomaly threshold (snd el)
                then increment_counter counters "anomalies_detected"
                else counters) "events_filtered").
  destruct (IH c1) as (FA & FN & CF & CA). clear IH.
  unfold anomaly_events, normal_events in *.
  cbn [filter is_anomaly].
  assert (E1 : counter c1 "events_filtered"
               = counter counters "events_filtered" + 1).
  { unfold c1. rewrite counter_increment_same.
    destruct (detect_anomaly _ _); [|reflexivity].
    now rewrite counter_increment_other. }
  assert (E2 : counter c1 "anomalies_detected"
               = counter counters "anomalies_detected"
                 + if detect_anomaly threshold (snd el) then 1 else 0).
  { unfold c1. rewrite counter_increment_other by reflexivity.
    destruct (detect_anomaly _ _); [apply counter_increment_same|lia]. }
  rewrite CF, CA, E1, E2.
  destruct (detect_anomaly threshold (snd el)); cbn [negb List.length];
    (split; [|split; [|split]]);
    try (constructor; [reflexivity|]); try assumption; lia.
Qed.

(** ** [WindowedAggregation] *)

Lemma sum_dict_bump (d : dict nat) k :
  list_sum (map snd (dict_set d k (dict_get_default d k 0 + 1)%nat))
  = (list_sum (map snd d) + 1)%nat.
Proof.
  unfold dict_get_default.
  unfold list_sum in *.
  induction d as [|[k0 v0] d IH]; cbn [dict_set dict_get map snd fold_right];
    [reflexivity|].
  destruct (String.eqb k0 k); cbn [map snd fold_right]; [lia|].
  rewrite IH. lia.
Qed.

Lemma sum_count_messages ms : forall d,
  list_sum (map snd (Monitor.count_messages d ms))
  = (list_sum (map snd d) + List.length ms)%nat.
Proof.
  unfold Monitor.count_messages.
  induction ms as [|m ms IH]; intros d; cbn [fold_left List.length]; [lia|].
  rewrite IH, sum_dict_bump. lia.
Qed.

Lemma collected_confidences_length events :
  (List.length (collected_confidences events) <= List.length events)%nat.
Proof.
  induction events as [|x events IH]; [reflexivity|].
  cbn [collected_confidences flat_map]. rewrite length_app.
  fold (collected_confidences events). cbn [List.length].
  destruct (confidence (data (event x))) as [c|];
    [destruct (float_truthy c)|]; cbn [List.length]; lia.
Qed.

(** X11. In every aggregate that [WindowedAggregation] emits, the counts per
    event type add up to [total_events], and [high_confidence_events] is
    at most [total_events]. *)
Theorem aggregate_counts_add_up now key events window_start window_end
  counters :
  Forall (fun a =>
            list_sum (map snd (event_type_counts a)) = total_events a
            /\ (high_confidence_events a <= total_events a)%nat
            /\ total_events a = List.length events)
         (fst (WindowedAggregation_process now key events window_start
                                           window_end counters)).
Proof.
  unfold WindowedAggregation_process.
  rewrite TransformFacts.aggregate_loop. cbn [fst app].
  constructor; [|constructor].
  cbn [event_type_counts total_events high_confidence_events].
  rewrite sum_count_messages, length_map. cbn [map list_sum fold_right].
  split; [lia|]. split; [|reflexivity].
  etransitivity; [apply filter_length_le|].
  apply collected_confidences_length.
Qed.

End StageFacts.

(* ================================================================== *)
(** * [EnrichEvent.process]: what is yielded and what is counted       *)
(* ================================================================== *)

Module EnrichFacts.
Import Py Models DataQuality Transforms.
Import TransformNotions StageNotions StageFacts.
Local Open Scope string_scope.
Local Open Scope list_scope.
Local Open Scope Z_scope.


Lemma mark_has_location_lookup e k :
  dict_get (attributes_of (mark_has_location e)) k
  = if String.eqb "has_location" k
       && match location (video_source e) with
          | Some _ => true
          | None => false
          end
    then Some (PyBool true)
    else dict_get (attributes_of e) k.
Proof.
  unfold mark_has_location. destruct (location (video_source e)).
  - rewrite attributes_of_set, dict_get_set.
    now destruct (String.eqb "has_location" k).
  - now rewrite Bool.andb_false_r.
Qed.



End EnrichFacts.

(* ================================================================== *)
(** * Results on the rules of [utils/data_quality.py] and the field
      constraints of [schemas/models.py]                               *)
(* ================================================================== *)

Module RuleFacts.
Import Py Models DataQuality CheckerNotions FieldConstraints.
Local Open Scope string_scope.
Local Open Scope list_scope.

(** ** Comparisons with zero *)

Lemma zero_sf : Prim2SF 0%float = S754_zero false.
Proof. reflexivity. Qed.

Lemma fge_zero_not_flt x : fge x 0%float = true -> flt x 0%float = false.
Proof.
  unfold fge, flt. rewrite leb_spec, ltb_spec, zero_sf.
  destruct (Prim2SF x) as [s|s| |s m e]; try destruct s; cbn; congruence.
Qed.

Lemma fgt_zero_not_fle x : fgt x 0%float = true -> fle x 0%float = false.
Proof.
  unfold fgt, fle. rewrite leb_spec, ltb_spec, zero_sf.
  destruct (Prim2SF x) as [s|s| |s m e]; try destruct s; cbn; congruence.
Qed.

Section Constructed.
Context `{Rendering}.

(** X12. On event data that meets the field constraints of the model
    ([confidence] in [0,1]; a bounding box with [x], [y] at least 0 and
    [width], [height] above 0), the confidence rule and the bounding-box
    rule report no error: their range checks can only fire on data that
    was changed after construction. *)
Theorem range_rules_silent_on_constrained_data e :
  EventData_constraints (data e) = true ->
  rule_errors (_validate_confidence e) = []
  /\ rule_errors (_validate_bounding_box e) = [].
Proof.
  unfold EventData_constraints. intros C.
  apply andb_true_iff in C. destruct C as [Cc Cb]. split.
  - unfold _validate_confidence, try_except, seq, when_, skip.
    destruct (confidence (data e)) as [c|]; [|reflexivity].
    unfold fge in Cc. unfold fle at 1 2. cbn [negb] in *.
    change (0.0%float) with 0%float. change (1.0%float) with 1%float.
    apply andb_true_iff in Cc. destruct Cc as [C0 C1].
    unfold fle in C1. rewrite C0, C1. cbn [andb negb].
    destruct (_ && _); reflexivity.
  - unfold _validate_bounding_box, try_except, seq, when_, skip.
    destruct (bounding_box (data e)) as [b|]; [|reflexivity].
    unfold BoundingBox_constraints in Cb.
    apply andb_true_iff in Cb. destruct Cb as [Cb Ch].
    apply andb_true_iff in Cb. destruct Cb as [Cb Cw].
    apply andb_true_iff in Cb. destruct Cb as [Cx Cy].
    rewrite (fge_zero_not_flt _ Cx), (fge_zero_not_flt _ Cy),
      (fgt_zero_not_fle _ Cw), (fgt_zero_not_fle _ Ch).
    cbn [orb].
    destruct (_ || _); destruct (_ || _); reflexivity.
Qed.

End Constructed.

#[local] Existing Instance plain_rendering.

(** X12 on the fixture of the tests. *)
Lemma range_rules_witness :
  EventData_constraints (data valid_event) = true
  /\ rule_errors (_validate_confidence valid_event) = []
  /\ rule_errors (_validate_bounding_box valid_event) = [].
Proof.
  assert (C : EventData_constraints (data valid_event) = true)
    by (vm_compute; reflexivity).
  split; [exact C|].
  exact (range_rules_silent_on_constrained_data valid_event C).
Defined.

End RuleFacts.

(* ================================================================== *)
(** * Results on [monitoring/metrics.py]                               *)
(* ================================================================== *)

Module MetricsFacts.
Import Py Metrics MetricsNotions.
Local Open Scope string_scope.
Local Open Scope list_scope.
Local Infix "+++" := String.append (right associativity, at level 60).

(** ** String methods *)

Lemma contains_app c a b :
  contains c (a +++ b) = contains c a || contains c b.
Proof.
  induction a as [|x a IH]; cbn [String.append contains]; [reflexivity|].
  now rewrite IH, orb_assoc.
Qed.

Lemma contains_sep c b : contains c (String c b) = true.
Proof. cbn [contains]. now rewrite Ascii.eqb_refl. Qed.

Lemma split_once_app c a b :
  contains c a = false -> split_once c (a +++ String c b) = [a; b].
Proof.
  induction a as [|x a IH]; cbn [String.append contains split_once].
  - now rewrite Ascii.eqb_refl.
  - intros N. apply orb_false_iff in N. destruct N as [N1 N2].
    now rewrite N1, IH.
Qed.

Lemma split_absent c a : contains c a = false -> split c a = [a].
Proof.
  induction a as [|x a IH]; cbn [contains split]; [reflexivity|].
  intros N. apply orb_false_iff in N. destruct N as [N1 N2].
  now rewrite N1, IH.
Qed.

Lemma split_app c a b :
  contains c a = false -> split c (a +++ String c b) = a :: split c b.
Proof.
  induction a as [|x a IH]; cbn [String.append contains split].
  - now rewrite Ascii.eqb_refl.
  - intros N. apply orb_false_iff in N. destruct N as [N1 N2].
    now rewrite N1, IH.
Qed.

Lemma split_join c parts :
  parts <> [] ->
  Forall (fun p => contains c p = false) parts ->
  split c (join (String c EmptyString) parts) = parts.
Proof.
  induction parts as [|a parts IH]; [congruence|]. intros _ F.
  inversion F as [|? ? Fa Fp]; subst.
  destruct parts as [|b parts]; cbn [join].
  - now apply split_absent.
  - cbn [String.append]. rewrite split_app by exact Fa.
    f_equal. apply IH; [discriminate|exact Fp].
Qed.

Lemma rstrip_char_snoc c s :
  rstrip_char c (s +++ String c EmptyString) = rstrip_char c s.
Proof.
  induction s as [|x s IH]; cbn [String.append rstrip_char].
  - now rewrite Ascii.eqb_refl.
  - now rewrite IH.
Qed.

Lemma rstrip_char_id c s : ends_with c s = false -> rstrip_char c s = s.
Proof.
  induction s as [|x s IH]; [reflexivity|].
  cbn [ends_with rstrip_char]. destruct s as [|y s].
  - intros E. cbn [rstrip_char]. now rewrite E.
  - intros E. rewrite (IH E). reflexivity.
Qed.

Lemma ends_with_app c a b :
  b <> EmptyString -> ends_with c (a +++ b) = ends_with c b.
Proof.
  intros N. induction a as [|x a IH]; [reflexivity|].
  cbn [String.append ends_with]. rewrite IH.
  destruct (a +++ b) eqn:E; [|reflexivity].
  destruct a; [cbn in E; congruence|discriminate].
Qed.

(** ** The order of [sorted] *)

Lemma ascii_compare_refl a : Ascii.compare a a = Eq.
Proof. unfold Ascii.compare. apply N.compare_refl. Qed.

Lemma ascii_compare_trans a b c :
  Ascii.compare a b = Lt -> Ascii.compare b c = Lt -> Ascii.compare a c = Lt.
Proof.
  unfold Ascii.compare. rewrite !N.compare_lt_iff. apply N.lt_trans.
Qed.

Lemma compare_refl s : String.compare s s = Eq.
Proof.
  induction s as [|a s IH]; [reflexivity|].
  cbn [String.compare]. now rewrite ascii_compare_refl.
Qed.

Lemma compare_trans a : forall b c,
  String.compare a b = Lt -> String.compare b c = Lt ->
  String.compare a c = Lt.
Proof.
  induction a as [|x a IH]; intros [|y b] [|z c]; cbn [String.compare];
    try congruence.
  destruct (Ascii.compare x y) eqn:XY; try discriminate;
    destruct (Ascii.compare y z) eqn:YZ; try discriminate.
  - apply Ascii.compare_eq_iff in XY, YZ. subst.
    rewrite ascii_compare_refl. apply IH.
  - apply Ascii.compare_eq_iff in XY. subst. now rewrite YZ.
  - apply Ascii.compare_eq_iff in YZ. subst. now rewrite XY.
  - now rewrite (ascii_compare_trans _ _ _ XY YZ).
Qed.

Lemma eqb_compare a b : String.eqb a b = true <-> String.compare a b = Eq.
Proof.
  rewrite String.eqb_eq. split.
  - intros ->. apply compare_refl.
  - apply String.compare_eq_iff.
Qed.

Lemma item_lt_compare a b :
  item_lt a b = match item_compare a b with Lt => true | _ => false end.
Proof.
  unfold item_lt, item_compare, str_lt.
  destruct (String.eqb (fst a) (fst b)) eqn:K.
  - apply eqb_compare in K. rewrite K.
    destruct (String.eqb (snd a) (snd b)) eqn:V; [|reflexivity].
    apply eqb_compare in V. now rewrite V.
  - destruct (String.compare (fst a) (fst b)) eqn:C; try reflexivity.
    apply eqb_compare in C. congruence.
Qed.

Lemma item_compare_antisym a b :
  item_compare a b = CompOpp (item_compare b a).
Proof.
  unfold item_compare.
  rewrite (String.compare_antisym (fst a)), (String.compare_antisym (snd a)).
  now destruct (String.compare (fst b) (fst a)).
Qed.

Lemma item_compare_eq a b : item_compare a b = Eq -> a = b.
Proof.
  unfold item_compare. destruct a as [ka va], b as [kb vb]. cbn [fst snd].
  destruct (String.compare ka kb) eqn:K; try discriminate.
  intros V. apply String.compare_eq_iff in K, V. now subst.
Qed.

Lemma item_compare_trans a b c :
  item_compare a b = Lt -> item_compare b c = Lt -> item_compare a c = Lt.
Proof.
  unfold item_compare.
  destruct (String.compare (fst a) (fst b)) eqn:AB; try discriminate;
    destruct (String.compare (fst b) (fst c)) eqn:BC; try discriminate;
    intros H1 H2.
  - apply String.compare_eq_iff in AB, BC. rewrite AB, BC, compare_refl.
    eapply compare_trans; eassumption.
  - apply String.compare_eq_iff in AB. now rewrite AB, BC.
  - apply String.compare_eq_iff in BC. now rewrite <- BC, AB.
  - now rewrite (compare_trans _ _ _ AB BC).
Qed.

Lemma item_le_compare a b : item_le a b <-> item_compare a b <> Gt.
Proof.
  unfold item_le. rewrite item_lt_compare, item_compare_antisym.
  destruct (item_compare a b); cbn; split; congruence.
Qed.

Lemma item_le_antisym a b : item_le a b -> item_le b a -> a = b.
Proof.
  rewrite !item_le_compare, (item_compare_antisym b a).
  destruct (item_compare a b) eqn:C; cbn; try congruence.
  intros _ _. now apply item_compare_eq.
Qed.

Lemma item_le_trans a b c : item_le a b -> item_le b c -> item_le a c.
Proof.
  rewrite !item_le_compare. intros AB BC.
  destruct (item_compare a b) eqn:C1; [| |congruence].
  - apply item_compare_eq in C1. now subst.
  - destruct (item_compare b c) eqn:C2; [| |congruence].
    + apply item_compare_eq in C2. subst. now rewrite C1.
    + now rewrite (item_compare_trans _ _ _ C1 C2).
Qed.

Lemma item_lt_le a b : item_lt a b = true -> item_le a b.
Proof.
  rewrite item_le_compare, item_lt_compare.
  destruct (item_compare a b); congruence.
Qed.

Lemma insert_item_perm x l : Permutation (x :: l) (insert_item x l).
Proof.
  induction l as [|y l IH]; cbn [insert_item]; [reflexivity|].
  destruct (item_lt x y); [reflexivity|].
  etransitivity; [apply perm_swap|]. now constructor.
Qed.

Lemma sorted_from acc l :
  Permutation (acc ++ l) (fold_left (fun acc x => insert_item x acc) l acc).
Proof.
  revert acc. induction l as [|x l IH]; intros acc; cbn [fold_left].
  - now rewrite app_nil_r.
  - etransitivity; [|apply IH].
    etransitivity; [symmetry; apply Permutation_middle|].
    apply (Permutation_app_tail l (insert_item_perm x acc)).
Qed.

Lemma sorted_perm l : Permutation l (sorted l).
Proof. apply (sorted_from [] l). Qed.

Lemma insert_item_sorted x l :
  StronglySorted item_le l -> StronglySorted item_le (insert_item x l).
Proof.
  induction 1 as [|y l S IH F]; cbn [insert_item].
  - repeat constructor.
  - destruct (item_lt x y) eqn:L.
    + constructor; [now constructor|].
      apply item_lt_le in L. constructor; [exact L|].
      eapply Forall_impl; [|exact F]. intros z. now apply item_le_trans.
    + constructor; [exact IH|].
      eapply Permutation_Forall; [apply insert_item_perm|].
      constructor; [exact L|exact F].
Qed.

Lemma sorted_sorted l : StronglySorted item_le (sorted l).
Proof.
  unfold sorted.
  enough (G : forall acc, StronglySorted item_le acc ->
                          StronglySorted item_le
                            (fold_left (fun acc x => insert_item x acc) l acc))
    by (apply G; constructor).
  induction l as [|x l IH]; intros acc S; [exact S|].
  cbn [fold_left]. apply IH. now apply insert_item_sorted.
Qed.

(** A list has one sorted arrangement. *)
Lemma sorted_unique l1 : forall l2,
  StronglySorted item_le l1 -> StronglySorted item_le l2 ->
  Permutation l1 l2 -> l1 = l2.
Proof.
  induction l1 as [|a l1 IH]; intros l2 S1 S2 P.
  - now apply Permutation_nil in P.
  - destruct l2 as [|b l2]; [now apply Permutation_sym, Permutation_nil in P|].
    inversion S1 as [|? ? S1' F1]; inversion S2 as [|? ? S2' F2]; subst.
    assert (E : a = b).
    { assert (I1 : In b (a :: l1))
        by (eapply Permutation_in; [symmetry; exact P|now left]).
      assert (I2 : In a (b :: l2))
        by (eapply Permutation_in; [exact P|now left]).
      destruct I1 as [->|I1]; [reflexivity|].
      destruct I2 as [->|I2]; [reflexivity|].
      rewrite Forall_forall in F1, F2.
      apply item_le_antisym; [now apply F1|now apply F2]. }
    subst b. f_equal. apply IH; try assumption.
    now apply Permutation_cons_inv in P.
Qed.

Lemma sorted_permutation l1 l2 : Permutation l1 l2 -> sorted l1 = sorted l2.
Proof.
  intros P. apply sorted_unique; try apply sorted_sorted.
  etransitivity; [symmetry; apply sorted_perm|].
  etransitivity; [exact P|apply sorted_perm].
Qed.

(** ** Metric keys *)

Lemma create_nonempty name items :
  items <> [] ->
  _create_metric_key name (Some items)
  = name +++ String "[" (join "," (map label_text (sorted items)) +++ "]").
Proof. destruct items; [congruence|reflexivity]. Qed.

Lemma plain_label_spec kv :
  plain_label kv = true ->
  contains "=" (fst kv) = false /\ contains "," (fst kv) = false
  /\ contains "," (snd kv) = false /\ ends_with "]" (snd kv) = false.
Proof.
  unfold plain_label. rewrite !andb_true_iff, !negb_true_iff. tauto.
Qed.

Lemma label_text_no_comma kv :
  plain_label kv = true -> contains "," (label_text kv) = false.
Proof.
  intros P. apply plain_label_spec in P. destruct P as (_ & K & V & _).
  unfold label_text. rewrite !contains_app, K, V. reflexivity.
Qed.

Lemma label_text_end kv :
  plain_label kv = true -> ends_with "]" (label_text kv) = false.
Proof.
  intros P. apply plain_label_spec in P. destruct P as (_ & _ & _ & E).
  unfold label_text. rewrite ends_with_app by (destruct (snd kv); discriminate).
  destruct (snd kv) as [|c v] eqn:V; [reflexivity|].
  change ("=" +++ String c v) with (String "=" (String c v)).
  exact E.
Qed.

Lemma join_end c sep parts :
  parts <> [] ->
  Forall (fun p => ends_with c p = false /\ p <> EmptyString) parts ->
  ends_with c (join sep parts) = false.
Proof.
  induction parts as [|a parts IH]; [congruence|]. intros _ F.
  inversion F as [|? ? [Ea Na] Fp]; subst.
  destruct parts as [|b parts]; cbn [join]; [exact Ea|].
  assert (J : join sep (b :: parts) <> EmptyString).
  { inversion Fp as [|? ? [_ Nb] _]; subst.
    destruct parts; cbn [join]; [exact Nb|].
    destruct b; [congruence|discriminate]. }
  rewrite ends_with_app.
  - rewrite ends_with_app by exact J. apply IH; [discriminate|exact Fp].
  - destruct sep; [exact J|discriminate].
Qed.

Lemma label_text_nonempty kv : label_text kv <> EmptyString.
Proof. unfold label_text. destruct (fst kv); discriminate. Qed.

(** Reading the labels back from their texts. *)
Lemma labels_read items : forall labels,
  Forall (fun kv => plain_label kv = true) items ->
  fold_left (fun labels pair =>
               if contains "=" pair then
                 match split_once "=" pair with
                 | [key; value] => dict_set labels key value
                 | _ => labels
                 end
               else labels)
            (map label_text items) labels
  = fold_left (fun labels kv => dict_set labels (fst kv) (snd kv))
              items labels.
Proof.
  induction items as [|kv items IH]; intros labels F; [reflexivity|].
  inversion F as [|? ? P F']; subst.
  apply plain_label_spec in P. destruct P as (K & _).
  assert (C : contains "=" (label_text kv) = true).
  { unfold label_text. cbn [String.append].
    now rewrite contains_app, contains_sep, orb_true_r. }
  assert (S : split_once "=" (label_text kv) = [fst kv; snd kv])
    by apply (split_once_app "=" (fst kv) (snd kv) K).
  cbn [map fold_left]. rewrite C, S. now apply IH.
Qed.

Lemma dict_of_items items : forall (labels : dict string),
  NoDup (map fst (labels ++ items)) ->
  fold_left (fun labels kv => dict_set labels (fst kv) (snd kv)) items labels
  = labels ++ items.
Proof.
  induction items as [|[k v] items IH]; intros labels N; cbn [fold_left].
  - now rewrite app_nil_r.
  - cbn [fst snd]. rewrite MonitorFacts.dict_set_absent.
    + rewrite IH; rewrite <- app_assoc; [reflexivity|exact N].
    + apply MonitorFacts.dict_get_none_has_key.
      destruct (MonitorNotions.has_key labels k) eqn:H; [|reflexivity].
      apply MonitorFacts.has_key_in in H. exfalso.
      rewrite map_app in N. cbn [map fst] in N.
      apply NoDup_remove_2 in N. apply N, in_or_app. now left.
Qed.

(** X13. A metric key can be read back. For a metric name without "[" and
    a non-empty set of labels whose keys hold no "=" or "," and whose
    values hold no "," and do not end in "]", [_parse_metric_key] returns,
    from the key that [_create_metric_key] builds, the name and the same
    labels, ordered by label key. *)
Theorem metric_key_round_trip name labels :
  contains "[" name = false ->
  labels <> [] ->
  NoDup (map fst labels) ->
  Forall (fun kv => plain_label kv = true) labels ->
  _parse_metric_key (_create_metric_key name (Some labels))
  = (name, sorted labels)
  /\ Permutation labels (sorted labels).
Proof.
  intros Nname Nlabels Nkeys Plain.
  split; [|apply sorted_perm].
  pose proof (sorted_perm labels) as P.
  assert (Nsorted : sorted labels <> []).
  { intros E. rewrite E in P. apply Permutation_sym, Permutation_nil in P.
    congruence. }
  assert (Psorted : Forall (fun kv => plain_label kv = true) (sorted labels))
    by (eapply Permutation_Forall; eassumption).
  rewrite create_nonempty by exact Nlabels.
  set (body := join "," (map label_text (sorted labels))).
  unfold _parse_metric_key.
  rewrite contains_app, contains_sep, orb_true_r.
  rewrite (split_once_app "[" name _ Nname).
  rewrite rstrip_char_snoc, rstrip_char_id.
  2:{ apply join_end.
      - destruct (sorted labels); [congruence|discriminate].
      - apply Forall_map. eapply Forall_impl; [|exact Psorted].
        intros kv Pkv. split;
          [now apply label_text_end|apply label_text_nonempty]. }
  unfold body. rewrite split_join.
  2:{ destruct (sorted labels); [congruence|discriminate]. }
  2:{ apply Forall_map. eapply Forall_impl; [|exact Psorted].
      intros kv. apply label_text_no_comma. }
  rewrite labels_read by exact Psorted.
  rewrite dict_of_items; [reflexivity|].
  cbn [app]. eapply Permutation_NoDup; [|exact Nkeys].
  now apply Permutation_map.
Qed.

(** Without labels the key is the name, and it reads back as such. *)
Lemma metric_key_without_labels name :
  contains "[" name = false ->
  _create_metric_key name None = name
  /\ _create_metric_key name (Some []) = name
  /\ _parse_metric_key name = (name, []).
Proof.
  intros N. unfold _parse_metric_key. rewrite N. repeat split.
Qed.

(** The conditions on the labels are needed: a value that ends in "]"
    comes back without it, a value with "," comes back cut, with the rest
    lost or read as another label, and two different label sets can share
    a key. *)
Lemma metric_key_ambiguities :
  _parse_metric_key (_create_metric_key "m" (Some [("id", "a[0]")]))
  = ("m", [("id", "a[0")])
  /\ _parse_metric_key (_create_metric_key "m" (Some [("id", "a,b")]))
     = ("m", [("id", "a")])
  /\ _create_metric_key "m" (Some [("a", "1,b=2")])
     = _create_metric_key "m" (Some [("a", "1"); ("b", "2")]).
Proof. repeat split. Qed.

(** X14. The key of a metric does not depend on the order in which its
    labels were put into the dictionary. *)
Theorem metric_key_ignores_label_order name l1 l2 :
  Permutation l1 l2 ->
  _create_metric_key name (Some l1) = _create_metric_key name (Some l2).
Proof.
  intros P. destruct l1 as [|a l1].
  - apply Permutation_nil in P. now subst.
  - destruct l2 as [|b l2];
      [now apply Permutation_sym, Permutation_nil in P|].
    rewrite !create_nonempty by discriminate.
    now rewrite (sorted_permutation _ _ P).
Qed.

(** ** The stores *)

Lemma dict_set_values {V} (Q : V -> Prop) (d : dict V) k v :
  Forall (fun kv => Q (snd kv)) d -> Q v ->
  Forall (fun kv => Q (snd kv)) (dict_set d k v).
Proof.
  intros F Qv. induction d as [|[k0 v0] d IH]; cbn [dict_set].
  - now repeat constructor.
  - inversion F as [|? ? Q0 F']; subst.
    destruct (String.eqb k0 k); constructor; auto.
Qed.

Lemma dict_get_values {V} (Q : V -> Prop) (d : dict V) k v :
  Forall (fun kv => Q (snd kv)) d -> dict_get d k = Some v -> Q v.
Proof.
  intros F. induction d as [|[k0 v0] d IH]; cbn [dict_get]; [discriminate|].
  inversion F as [|? ? Q0 F']; subst.
  destruct (String.eqb k0 k); [intros [= <-]; exact Q0|now apply IH].
Qed.

Lemma maybe_export_cases m t :
  _maybe_export_metrics m t = m
  \/ (histograms (_maybe_export_metrics m t) = histograms m
      /\ counters (_maybe_export_metrics m t) = counters m
      /\ gauges (_maybe_export_metrics m t) = gauges m
      /\ client m = false)
  \/ (histograms (_maybe_export_metrics m t) = []
      /\ counters (_maybe_export_metrics m t) = []
      /\ gauges (_maybe_export_metrics m t) = []
      /\ client m = true /\ export_due m t = true).
Proof.
  unfold _maybe_export_metrics, export_metrics, export_due.
  destruct (fge _ _); [|now left].
  destruct (client m) eqn:C; cbn [negb]; right; [right|left]; repeat split.
Qed.

Lemma recorded_values_bounded old value :
  (List.length old <= 1000)%nat ->
  let values := old ++ [value] in
  (1 <= List.length (if (1000 <? List.length values)%nat
                     then last_1000 values else values) <= 1000)%nat.
Proof.
  intros B values. assert (L : List.length values = S (List.length old)).
  { unfold values. rewrite length_app. cbn [List.length]. lia. }
  destruct (1000 <? List.length values)%nat eqn:E.
  - apply Nat.ltb_lt in E. unfold last_1000. rewrite length_skipn. lia.
  - apply Nat.ltb_ge in E. lia.
Qed.

Lemma step_bounded m tc : bounded_histograms m -> bounded_histograms (step m tc).
Proof.
  unfold bounded_histograms. intros B.
  assert (G : forall m1, histograms m1 = histograms m \/
                         Forall (fun kv => (1 <= List.length (snd kv) <= 1000)%nat)
                                (histograms m1) ->
              Forall (fun kv => (1 <= List.length (snd kv) <= 1000)%nat)
                     (histograms (_maybe_export_metrics m1 (fst tc)))).
  { intros m1 H1.
    assert (B1 : Forall (fun kv => (1 <= List.length (snd kv) <= 1000)%nat)
                        (histograms m1))
      by (destruct H1 as [->|H1]; assumption).
    destruct (maybe_export_cases m1 (fst tc)) as [->|[(-> & _)|(-> & _)]];
      try assumption. constructor. }
  unfold step.
  destruct (snd tc) as [n v l|n v l|n v l];
    unfold increment_counter, set_gauge, record_histogram;
    apply G; try (left; reflexivity).
  right. cbn [histograms with_stores].
  apply (dict_set_values (fun v => (1 <= List.length v <= 1000)%nat)).
  - exact B.
  - apply recorded_values_bounded. unfold dict_get_default.
    destruct (dict_get (histograms m) _) as [old|] eqn:E; [|cbn; lia].
    apply (dict_get_values (fun v => (1 <= List.length v <= 1000)%nat)
                           _ _ _ B E).
Qed.

(** X15. However a collector is built and whatever is recorded in it, at
    any times, no histogram ever holds more than 1000 values, and none is
    empty (so the averages that exporting and logging compute never divide
    by zero). *)
Theorem histograms_stay_bounded project_id metric_prefix now connects calls :
  bounded_histograms
    (run calls (new_collector project_id metric_prefix now connects)).
Proof.
  unfold run.
  enough (G : forall m, bounded_histograms m ->
                        bounded_histograms (fold_left step calls m))
    by (apply G; constructor).
  induction calls as [|tc calls IH]; intros m B; [exact B|].
  cbn [fold_left]. apply IH. now apply step_bounded.
Qed.

(** ** Counters *)

Lemma step_settings m tc :
  metric_prefix (step m tc) = metric_prefix m
  /\ client (step m tc) = client m.
Proof.
  assert (G : forall m1, metric_prefix (_maybe_export_metrics m1 (fst tc))
                         = metric_prefix m1
                         /\ client (_maybe_export_metrics m1 (fst tc))
                            = client m1).
  { intros m1. unfold _maybe_export_metrics, export_metrics.
    destruct (fge _ _); [|now split].
    destruct (negb (client m1)); now split. }
  unfold step.
  destruct (snd tc); unfold increment_counter, set_gauge, record_histogram;
    match goal with
    | |- context [_maybe_export_metrics ?m1 _] => exact (G m1)
    end.
Qed.

Lemma incremented_prefix m m' k calls :
  metric_prefix m' = metric_prefix m ->
  incremented m' k calls = incremented m k calls.
Proof.
  intros E. unfold incremented, full_metric_name. now rewrite E.
Qed.

Lemma step_counter m tc k :
  client m = false ->
  dict_get_default (counters (step m tc)) k 0%Z
  = (dict_get_default (counters m) k 0
     + incremented m k [tc])%Z.
Proof.
  intros C.
  assert (G : forall m1, client m1 = false ->
                         counters (_maybe_export_metrics m1 (fst tc))
                         = counters m1).
  { intros m1 C1.
    destruct (maybe_export_cases m1 (fst tc))
      as [->|[(_ & -> & _)|(_ & _ & _ & C2 & _)]]; congruence. }
  unfold step, incremented. cbn [map fold_right].
  destruct (snd tc) as [n v l|n v l|n v l];
    unfold increment_counter, set_gauge, record_histogram;
    rewrite G by exact C; cbn [counters with_stores]; try lia.
  unfold dict_get_default at 1.
  rewrite StageFacts.dict_get_set.
  destruct (String.eqb _ k) eqn:E.
  - apply String.eqb_eq in E. subst k. lia.
  - unfold dict_get_default. lia.
Qed.

(** X16. A collector without a client, as the transforms build theirs,
    never loses a count: after any calls, made at any times, the counter
    under a key holds what it held before plus the sum of the increments
    made under that key, and the collector still has no client. *)
Theorem counters_accumulate calls m k :
  client m = false ->
  dict_get_default (counters (run calls m)) k 0%Z
  = (dict_get_default (counters m) k 0 + incremented m k calls)%Z
  /\ client (run calls m) = false.
Proof.
  unfold run. revert m.
  induction calls as [|tc calls IH]; intros m C.
  - cbn. split; [lia|exact C].
  - cbn [fold_left]. destruct (step_settings m tc) as [P C'].
    destruct (IH (step m tc)) as [IH1 IH2]; [congruence|].
    split; [|exact IH2].
    rewrite IH1, step_counter by exact C.
    rewrite (incremented_prefix m (step m tc) k calls P).
    unfold incremented. cbn [map fold_right]. lia.
Qed.

(** The counters of [Module Transforms] are those of a collector without
    a client whose prefix is the default one: for it, an increment by one
    without labels is [Transforms.increment_counter], whatever the clock
    reads, and it leaves gauges and histograms as they are. *)
Lemma transforms_counters_agree m metric_name t :
  client m = false ->
  metric_prefix m = Transforms.metric_prefix ->
  counters (increment_counter m metric_name 1 None t)
  = Transforms.increment_counter (counters m) metric_name
  /\ gauges (increment_counter m metric_name 1 None t) = gauges m
  /\ histograms (increment_counter m metric_name 1 None t) = histograms m.
Proof.
  intros C P. unfold increment_counter.
  set (m1 := with_stores _ _ _ _).
  assert (C1 : client m1 = false) by exact C.
  destruct (maybe_export_cases m1 t)
    as [->|[(-> & -> & -> & _)|(_ & _ & _ & C2 & _)]]; [| |congruence];
    unfold m1; cbn [counters gauges histograms with_stores];
    unfold Transforms.increment_counter, _create_metric_key,
      full_metric_name; rewrite P; repeat split.
Qed.

(** X17. With a client, a call that comes when an export is due leaves the
    collector empty: what had been recorded, and the value of the call
    itself, are handed to the export (which only logs them) and cleared,
    and the time of the last export becomes the time of the call. *)
Theorem due_export_clears m tc :
  client m = true ->
  export_due m (fst tc) = true ->
  counters (step m tc) = []
  /\ gauges (step m tc) = []
  /\ histograms (step m tc) = []
  /\ last_export_time (step m tc) = fst tc.
Proof.
  intros C D.
  assert (G : forall m1, client m1 = true ->
                         last_export_time m1 = last_export_time m ->
                         export_interval m1 = export_interval m ->
              let m' := _maybe_export_metrics m1 (fst tc) in
              counters m' = [] /\ gauges m' = [] /\ histograms m' = []
              /\ last_export_time m' = fst tc).
  { intros m1 C1 L1 I1. unfold export_due in D. cbv zeta.
    unfold _maybe_export_metrics, export_metrics.
    rewrite L1, I1, D, C1. repeat split. }
  unfold step.
  destruct (snd tc); unfold increment_counter, set_gauge, record_histogram;
    apply G; assumption || reflexivity.
Qed.

(** ** Sample inputs *)

(** X13 at the gauge that the health checker writes, with a second
    label. *)
Lemma metric_key_round_trip_witness :
  let name := "video_analytics.component_health" in
  let labels := [("zone", "b"); ("component", "pubsub_connection")] in
  contains "[" name = false
  /\ NoDup (map fst labels)
  /\ Forall (fun kv => plain_label kv = true) labels
  /\ _create_metric_key name (Some labels)
     = "video_analytics.component_health[component=pubsub_connection,zone=b]"
  /\ _parse_metric_key (_create_metric_key name (Some labels))
     = (name, [("component", "pubsub_connection"); ("zone", "b")]).
Proof.
  cbv zeta.
  assert (H1 : contains "[" "video_analytics.component_health" = false)
    by reflexivity.
  assert (H2 : [("zone", "b"); ("component", "pubsub_connection")]
               <> ([] : list (string * string))) by discriminate.
  assert (H3 : NoDup (map fst [("zone", "b");
                               ("component", "pubsub_connection")])).
  { cbn [map fst]. constructor.
    - intros [E|[]]. discriminate.
    - constructor; [intros []|constructor]. }
  assert (H4 : Forall (fun kv => plain_label kv = true)
                      [("zone", "b"); ("component", "pubsub_connection")])
    by (repeat constructor).
  split; [exact H1|]. split; [exact H3|]. split; [exact H4|].
  split; [reflexivity|].
  exact (proj1 (metric_key_round_trip _ _ H1 H2 H3 H4)).
Defined.

(** X14 at two labels, in their two orders. *)
Lemma metric_key_order_witness :
  Permutation [("zone", "b"); ("component", "a")]
              [("component", "a"); ("zone", "b")]
  /\ _create_metric_key "m" (Some [("zone", "b"); ("component", "a")])
     = _create_metric_key "m" (Some [("component", "a"); ("zone", "b")]).
Proof.
  assert (P : Permutation [("zone", "b"); ("component", "a")]
                          [("component", "a"); ("zone", "b")])
    by apply perm_swap.
  split; [exact P|].
  exact (metric_key_ignores_label_order "m" _ _ P).
Defined.

(** X16 at the collector of a transform after three calls. *)
Lemma counters_accumulate_witness :
  let m := default_collector 0%float in
  let calls := [(1%float, Increment "events_filtered" 1 None);
                (40%float, SetGauge "load" 0.5%float None);
                (41%float, Increment "events_filtered" 1 None)] in
  client m = false
  /\ incremented m "video_analytics.events_filtered" calls = 2%Z
  /\ dict_get_default (counters (run calls m))
                      "video_analytics.events_filtered" 0%Z
     = (dict_get_default (counters m) "video_analytics.events_filtered" 0
        + incremented m "video_analytics.events_filtered" calls)%Z.
Proof.
  cbv zeta. split; [reflexivity|]. split; [reflexivity|].
  exact (proj1 (counters_accumulate _ (default_collector 0%float)
                                    "video_analytics.events_filtered"
                                    eq_refl)).
Defined.

(** X17 at a collector with a client, 31 seconds after it was built. *)
Lemma due_export_witness :
  let m := new_collector (Some "project") "video_analytics" 0%float true in
  let tc := (31%float, Increment "events_filtered" 1 None) in
  client m = true
  /\ export_due m (fst tc) = true
  /\ counters (step m tc) = [].
Proof.
  cbv zeta. split; [reflexivity|]. split; [reflexivity|].
  exact (proj1 (due_export_clears
                  (new_collector (Some "project") "video_analytics"
                                 0%float true)
                  (31%float, Increment "events_filtered" 1 None)
                  eq_refl eq_refl)).
Defined.

End MetricsFacts.

(* ================================================================== *)
(** * Results on [config/settings.py]                                  *)
(* ================================================================== *)

Module SettingsFacts.
Import Py Settings SettingsNotions.
Local Open Scope string_scope.
Local Open Scope list_scope.

Lemma find_first {A} (p : A -> bool) before x after :
  Forall (fun a => p a = false) before -> p x = true ->
  List.find p (before ++ x :: after) = Some x.
Proof.
  induction 1 as [|a before Pa F IH]; intros Px; cbn [app List.find].
  - now rewrite Px.
  - rewrite Pa. now apply IH.
Qed.

Lemma startswith_nonempty s : startswith s "gs://" = true -> str_truthy s = true.
Proof. destruct s; [discriminate|reflexivity]. Qed.

Lemma validate_first_missing c before field after :
  required_fields = before ++ field :: after ->
  Forall (fun f => str_truthy (snd f c) = true) before ->
  str_truthy (snd field c) = false ->
  validate c
  = Raise (Exn ValueError ("Required configuration field '"
                           ++ fst field ++ "' is missing")).
Proof.
  intros E B F. unfold validate.
  rewrite E, (find_first _ before field after); [reflexivity| |].
  - eapply Forall_impl; [|exact B]. intros f T. cbn beta. now rewrite T.
  - now rewrite F.
Qed.

(** X18. [validate] returns [True] exactly for a configuration with a
    project, an input subscription, an output topic and staging and temp
    locations that start with "gs://"; otherwise it raises [ValueError]
    (it never returns [False]), naming the first required field that is
    empty. The topics for anomalies, analytics and dead letters play no
    part: a configuration is accepted or rejected, with the same message,
    whatever they are, empty included. *)
Theorem validate_spec c :
  (validate c = Ok true <-> accepted c = true)
  /\ validate c <> Ok false
  /\ (forall e, validate c = Raise e -> exn_cls e = ValueError)
  /\ (forall before field after,
        required_fields = before ++ field :: after ->
        Forall (fun f => str_truthy (snd f c) = true) before ->
        str_truthy (snd field c) = false ->
        validate c
        = Raise (Exn ValueError ("Required configuration field '"
                                 ++ fst field ++ "' is missing")))
  /\ (forall anomaly analytics dead,
        validate (with_topics c anomaly analytics dead) = validate c).
Proof.
  unfold validate, accepted, required_fields.
  cbn [List.find fst snd String.append].
  split; [|split; [|split; [|split]]].
  - destruct (gcp_project c); cbn [str_truthy negb andb];
      [split; discriminate|].
    destruct (input_subscription c); cbn [str_truthy negb andb];
      [split; discriminate|].
    destruct (output_topic c); cbn [str_truthy negb andb];
      [split; discriminate|].
    destruct (startswith (staging_location c) "gs://") eqn:S.
    + rewrite (startswith_nonempty _ S). cbn [negb andb].
      destruct (startswith (temp_location c) "gs://") eqn:T.
      * rewrite (startswith_nonempty _ T). cbn [negb]. tauto.
      * destruct (str_truthy (temp_location c)); cbn [negb];
          split; discriminate.
    + cbn [andb].
      destruct (str_truthy (staging_location c)); cbn [negb];
        [|split; discriminate].
      destruct (str_truthy (temp_location c)); cbn [negb];
        split; discriminate.
  - repeat (destruct (negb _); [discriminate|]). discriminate.
  - intros e.
    repeat (destruct (negb _); [now intros [= <-]|]). discriminate.
  - apply validate_first_missing.
  - reflexivity.
Qed.

End SettingsFacts.
(* ================================================================== *)
(** * Results on [beam/pipeline.py]                                    *)
(* ================================================================== *)

Module PipelineFacts.
Import Py Models DataQuality Transforms Pipeline.
Local Open Scope string_scope.
Local Open Scope list_scope.

Section Serialization.
Context `{Rendering}.
Variable isoformat : Z -> string.

(** X19. No element that [FilterAnomalies] yields can be written out: for
    every such element, of the normal branch or of the anomaly branch,
    [json.dumps] raises [TypeError], because the element holds
    [event.dict()], in which the timestamp is a [datetime] object. *)
Theorem filtered_events_not_serializable threshold now e counters :
  Forall (fun x => convert_to_json isoformat x
                   = Raise (Exn TypeError
                       "Object of type datetime is not JSON serializable"))
         (fst (FilterAnomalies_process threshold now e counters))
  /\ forall x, convert_to_json isoformat x
               = Raise (not_serializable "datetime").
Proof.
  assert (G : forall x, convert_to_json isoformat x
                        = Raise (not_serializable "datetime")).
  { intros x. unfold convert_to_json, Filtered_dict, event_dict.
    cbn [dumps bind]. reflexivity. }
  split; [|exact G].
  unfold FilterAnomalies_process. cbn [fst].
  constructor; [apply G|constructor].
Qed.

End Serialization.

End PipelineFacts.

(* ================================================================== *)
(** * Results on [HealthChecker]                                       *)
(* ================================================================== *)

Module HealthFacts.
Import Py Metrics Health HealthNotions.
Local Open Scope string_scope.
Local Open Scope list_scope.

Lemma check_status hc name c :
  status (fst (check_component_health hc name c)) = recorded_status name
  /\ component_health (snd (check_component_health hc name c))
     = dict_set (component_health hc) name
                (fst (check_component_health hc name c)).
Proof.
  unfold check_component_health, recorded_status, known, str_in.
  cbn [existsb]. rewrite !(String.eqb_sym name).
  destruct (String.eqb "pubsub_connection" name); [now split|].
  destruct (String.eqb "dataflow_job" name); [now split|].
  destruct (String.eqb "data_quality" name); [now split|].
  destruct (String.eqb "monitoring" name); now split.
Qed.

Lemma dict_set_entries {V} (P : string -> V -> Prop) (d : dict V) k v :
  Forall (fun kv => P (fst kv) (snd kv)) d -> P k v ->
  Forall (fun kv => P (fst kv) (snd kv)) (dict_set d k v).
Proof.
  intros F Pv. induction d as [|[k0 v0] d IH]; cbn [dict_set].
  - now repeat constructor.
  - inversion F as [|? ? P0 F']; subst.
    destruct (String.eqb k0 k) eqn:E; constructor; auto.
    apply String.eqb_eq in E. now subst.
Qed.

Lemma dict_set_keys {V} (d : dict V) k v k' :
  In k' (map fst (dict_set d k v)) <-> k' = k \/ In k' (map fst d).
Proof.
  induction d as [|[k0 v0] d IH]; cbn [dict_set map fst In].
  - intuition.
  - destruct (String.eqb k0 k) eqn:E; cbn [map fst In].
    + apply String.eqb_eq in E. subst. intuition.
    + rewrite IH. intuition.
Qed.

Lemma check_follows hc names name c :
  follows hc names ->
  follows (snd (check_component_health hc name c)) (names ++ [name]).
Proof.
  intros [F K]. destruct (check_status hc name c) as [S D].
  unfold follows. rewrite D. split.
  - apply (dict_set_entries (fun k v => status v = recorded_status k));
      assumption.
  - intros k. rewrite dict_set_keys, in_app_iff, K. cbn [In]. intuition.
Qed.

Lemma check_all_follows checks : forall hc names,
  follows hc names ->
  follows (check_all hc checks) (names ++ map snd checks).
Proof.
  unfold check_all.
  induction checks as [|ck checks IH]; intros hc names F; cbn [fold_left map].
  - now rewrite app_nil_r.
  - replace (names ++ snd ck :: map snd checks)
      with ((names ++ [snd ck]) ++ map snd checks)
      by now rewrite <- app_assoc.
    apply IH. now apply check_follows.
Qed.

Lemma filter_all {A} (p : A -> bool) l :
  (List.length (filter p l) =? List.length l)%nat = forallb p l.
Proof.
  induction l as [|a l IH]; [reflexivity|].
  cbn [filter forallb]. destruct (p a); cbn [List.length andb].
  - exact IH.
  - apply Nat.eqb_neq. pose proof (filter_length_le p l). lia.
Qed.

Lemma filter_any {A} (p : A -> bool) l :
  (List.length (filter p l) =? 0)%nat = negb (existsb p l).
Proof.
  induction l as [|a l IH]; [reflexivity|].
  cbn [filter existsb]. destruct (p a); cbn [List.length orb negb];
    [reflexivity|exact IH].
Qed.

Lemma recorded_healthy name :
  String.eqb (recorded_status name) "healthy" = known name.
Proof. unfold recorded_status. now destruct (known name). Qed.

Lemma bool_eq_iff (a b : bool) : (a = true <-> b = true) -> a = b.
Proof. destruct a, b; intuition congruence. Qed.

(** X20. The overall health that [get_overall_health] reports after any
    series of checks depends only on the names that were checked, never on
    the state of a component: every check of one of the four known
    components records "healthy" and every other name
    "unknown_component", so the report is "healthy" when only known names
    were checked, "unhealthy" when only unknown names were, "degraded"
    when both were, and "unknown" when nothing was checked. *)
Theorem overall_health_follows_names metrics_collector checks now :
  let hc := check_all (new_checker metrics_collector) checks in
  let names := map snd checks in
  Forall (fun kv => status (snd kv) = recorded_status (fst kv))
         (component_health hc)
  /\ overall_status (get_overall_health hc now)
     = match names with
       | [] => "unknown"
       | _ => if forallb known names then "healthy"
              else if existsb known names then "degraded"
              else "unhealthy"
       end.
Proof.
  cbv zeta.
  assert (F0 : follows (new_checker metrics_collector) []).
  { split; [constructor|]. intros k. reflexivity. }
  pose proof (check_all_follows checks _ _ F0) as [F K]. cbn [app] in K.
  split; [exact F|].
  set (hc := check_all _ _) in *. clearbody hc.
  set (names := map snd checks) in *. clearbody names.
  unfold get_overall_health.
  set (d := component_health hc) in *. clearbody d.
  assert (E : filter (fun kv => String.eqb (status (snd kv)) "healthy") d
              = filter (fun kv => known (fst kv)) d).
  { apply filter_ext_in. intros kv I. rewrite Forall_forall in F.
    rewrite (F kv I). apply recorded_healthy. }
  rewrite E, filter_all, filter_any.
  assert (A : forallb (fun kv : string * health_status => known (fst kv)) d
              = forallb known names).
  { apply bool_eq_iff. rewrite !forallb_forall. split.
    - intros G k I. apply K in I. apply in_map_iff in I.
      destruct I as (kv & <- & I). now apply G.
    - intros G kv I. apply G, K. now apply in_map. }
  assert (X : existsb (fun kv : string * health_status => known (fst kv)) d
              = existsb known names).
  { apply bool_eq_iff. rewrite !existsb_exists. split.
    - intros (kv & I & P). exists (fst kv). split; [|exact P].
      apply K. now apply in_map.
    - intros (k & I & P). apply K in I. apply in_map_iff in I.
      destruct I as (kv & <- & I). now exists kv. }
  rewrite A, X.
  destruct d as [|kv d], names as [|n names].
  - reflexivity.
  - exfalso. apply (proj2 (K n)). now left.
  - exfalso. apply (proj1 (K (fst kv))). now left.
  - cbn [overall_status].
    destruct (existsb known (n :: names)) eqn:Ex; cbn [negb].
    + reflexivity.
    + destruct (forallb known (n :: names)) eqn:Fa; [|reflexivity].
      exfalso. cbn [forallb existsb] in *.
      apply andb_true_iff in Fa. apply orb_false_iff in Ex.
      destruct Fa, Ex. congruence.
Qed.

End HealthFacts.

(* ================================================================== *)
(** * Results on [security/iam.py]                                     *)
(* ================================================================== *)

Module SecurityFacts.
Import Py Security SecurityNotions.
Local Open Scope string_scope.
Local Open Scope list_scope.

(** ** The loop over the checks *)

Lemma run_checks_from table c : forall res,
  let res' := fold_left (run_check c) table res in
  overall_status res'
  = (if existsb (fun ck => high_failure (snd ck c)) table
     then "non_compliant" else overall_status res)
  /\ violations res'
     = violations res
       ++ flat_map (fun ck => violation_of (fst ck) (snd ck c)) table
  /\ all_warnings res'
     = all_warnings res
       ++ flat_map (fun ck => match snd ck c with
                              | Ok r => warnings r
                              | Raise _ => []
                              end) table.
Proof.
  induction table as [|[name f] table IH]; intros res; cbv zeta.
  - cbn. now rewrite !app_nil_r.
  - cbn [fold_left existsb flat_map fst snd].
    destruct (IH (run_check c res (name, f))) as (S & V & W).
    rewrite S, V, W. clear IH S V W.
    unfold run_check, high_failure, violation_of.
    destruct (f c) as [r|e];
      cbn [overall_status violations all_warnings orb app passed].
    + destruct (passed r); cbn [negb andb orb app];
        [|destruct (severity r) as [s|];
          [destruct (String.eqb s "high")|]];
        cbn [orb]; rewrite <- ?app_assoc; cbn [app];
        repeat split; now destruct (existsb _ table).
    + rewrite <- ?app_assoc. cbn [app]. repeat split.
Qed.

(** X21. What [validate_security_config] reports, for any table of checks:
    the status is "non_compliant" exactly when some check returns a failure
    marked "high"; there is one violation for each check that returns a
    failure, in the order of the table, with severity "medium" when the
    check names none; and the warnings are those of the checks that
    return. A check that raises adds no violation and no warning and never
    changes the status, and a failure that is not marked "high" adds a
    violation but leaves the status at "compliant". *)
Theorem validate_security_config_spec table c :
  let res := validate_security_config_with table c in
  overall_status res
  = (if existsb (fun ck => high_failure (snd ck c)) table
     then "non_compliant" else "compliant")
  /\ violations res
     = flat_map (fun ck => violation_of (fst ck) (snd ck c)) table
  /\ all_warnings res
     = flat_map (fun ck => match snd ck c with
                           | Ok r => warnings r
                           | Raise _ => []
                           end) table.
Proof. apply run_checks_from. Qed.

(** ** The shipped checks *)

Lemma bind_ok {A B} (m : result A) (k : A -> result B) b :
  bind m k = Ok b -> exists a, m = Ok a /\ k a = Ok b.
Proof. destruct m as [a|e]; [now exists a|discriminate]. Qed.

Lemma high_failure_never (o : result check_result) :
  (forall r, o = Ok r ->
             passed r = true \/ severity r = Some "medium") ->
  high_failure o = false.
Proof.
  intros H. destruct o as [r|e]; [|reflexivity].
  destruct (H r eq_refl) as [P|S]; unfold high_failure;
    [now rewrite P|rewrite S; now destruct (passed r)].
Qed.

Lemma at_rest_never_high c : high_failure (_check_encryption_at_rest c) = false.
Proof.
  apply high_failure_never. intros r. unfold _check_encryption_at_rest.
  intros E. apply bind_ok in E. destruct E as (k1 & _ & E).
  apply bind_ok in E. destruct E as (k2 & _ & [= <-]).
  left. now destruct (negb (truthy k1)), (negb (truthy k2)).
Qed.

Lemma network_never_high c : high_failure (_check_network_security c) = false.
Proof.
  apply high_failure_never. intros r. unfold _check_network_security.
  intros E. apply bind_ok in E. destruct E as (k1 & _ & E).
  apply bind_ok in E. destruct E as (k2 & _ & [= <-]).
  left. now destruct (negb (truthy k1)), (negb (truthy k2)).
Qed.

Lemma logging_never_high c : high_failure (_check_data_access_logging c) = false.
Proof.
  apply high_failure_never. intros r. unfold _check_data_access_logging.
  intros E. apply bind_ok in E. destruct E as (k1 & _ & E).
  apply bind_ok in E. destruct E as (k2 & _ & [= <-]).
  destruct (negb (truthy k1)), (negb (truthy k2)); cbn; tauto.
Qed.

Lemma in_transit_high c :
  high_failure (_check_encryption_in_transit c) = true
  <-> exists v, get (section c "network") "allow_http" (ABool false) = Ok v
                /\ truthy v = true.
Proof.
  unfold _check_encryption_in_transit.
  destruct (get _ _ _) as [v|e]; cbn [bind high_failure].
  - destruct (truthy v) eqn:T; cbn.
    + split; [intros _; now exists v|reflexivity].
    + split; [discriminate|]. intros (v' & [= <-] & T'). congruence.
  - split; [discriminate|]. intros (v & E & _). discriminate.
Qed.

Section Accounts.
Variable repr_list : list Any -> string.

Lemma check_broad_passed roles r :
  passed (check_broad roles r)
  = passed r && negb (existsb (fun role => in_strings role broad_roles) roles)
  /\ (passed (check_broad roles r) = false ->
      passed r = false \/ severity (check_broad roles r) = Some "high")
  /\ (severity r = Some "high" ->
      severity (check_broad roles r) = Some "high").
Proof.
  unfold check_broad.
  destruct (List.find _ roles) as [role|] eqn:F.
  - apply find_some in F. destruct F as [I B].
    assert (X : existsb (fun role => in_strings role broad_roles) roles
                = true) by (apply existsb_exists; eauto).
    rewrite X. cbn [fail passed severity negb]. rewrite andb_false_r.
    repeat split; auto.
  - assert (X : existsb (fun role => in_strings role broad_roles) roles
                = false).
    { destruct (existsb _ roles) eqn:X; [|reflexivity].
      apply existsb_exists in X. destruct X as (role & I & B).
      now rewrite (find_none _ _ F role I) in B. }
    rewrite X. cbn [negb]. rewrite andb_true_r. repeat split; auto.
Qed.

(** A check of the accounts that returns has failed exactly when an account
    holds a broad role, and then says "high". *)
Lemma check_accounts_passed accounts : forall r r',
  (passed r = false -> severity r = Some "high") ->
  check_accounts repr_list r accounts = Ok r' ->
  passed r' = passed r && negb (existsb broad_account accounts)
  /\ (passed r' = false -> severity r' = Some "high").
Proof.
  induction accounts as [|sa accounts IH]; intros r r' H.
  - cbn. intros [= <-]. rewrite andb_true_r. now split.
  - cbn [check_accounts existsb]. intros E.
    apply bind_ok in E. destruct E as (r1 & E1 & E).
    unfold check_account in E1.
    apply bind_ok in E1. destruct E1 as (rolesv & G & E1).
    apply bind_ok in E1. destruct E1 as (roles & I & E1).
    apply bind_ok in E1. destruct E1 as (admins & _ & [= E1]).
    destruct (check_broad_passed roles r) as (P & S & S').
    assert (P1 : passed r1 = passed (check_broad roles r))
      by (subst r1; now destruct (DataQuality.nonempty admins)).
    assert (S1 : severity r1 = severity (check_broad roles r))
      by (subst r1; now destruct (DataQuality.nonempty admins)).
    destruct (IH r1 r') as (P' & S''); [|exact E|].
    + rewrite P1, S1. intros F. destruct (S F) as [F'|F']; auto.
    + split; [|exact S''].
      rewrite P', P1, P. unfold broad_account. rewrite G, I.
      now rewrite negb_orb, andb_assoc.
Qed.

Lemma service_accounts_high c :
  high_failure (_check_service_account_permissions repr_list c) = true
  <-> exists accounts r,
        accounts_of c = Ok accounts
        /\ check_accounts repr_list
             (passing "Service account permissions are appropriate")
             accounts = Ok r
        /\ existsb broad_account accounts = true.
Proof.
  unfold _check_service_account_permissions, accounts_of.
  destruct (get _ _ _) as [sa|e]; cbn [bind].
  2:{ split; [discriminate|]. intros (? & ? & ? & _). discriminate. }
  destruct (iterate sa) as [accounts|e]; cbn [bind].
  2:{ split; [discriminate|]. intros (? & ? & ? & _). discriminate. }
  destruct (check_accounts _ _ accounts) as [r|e] eqn:E.
  2:{ split; [discriminate|]. intros (a' & r' & [= <-] & C & _).
      congruence. }
  destruct (check_accounts_passed
              accounts (passing "Service account permissions are appropriate")
              r) as (P & S); [discriminate|exact E|].
  cbn [passing passed andb] in P. unfold high_failure.
  destruct (existsb broad_account accounts) eqn:X; cbn [negb] in P.
  - rewrite P, (S P). cbn. split; [intros _|reflexivity].
    exists accounts, r. auto.
  - rewrite P. cbn. split; [discriminate|].
    intros (a' & r' & [= <-] & _ & X'). congruence.
Qed.

Lemma shipped_status c :
  overall_status (validate_security_config repr_list c)
  = if high_failure (_check_encryption_in_transit c)
       || high_failure (_check_service_account_permissions repr_list c)
    then "non_compliant" else "compliant".
Proof.
  unfold validate_security_config, validate_security_config_with.
  destruct (run_checks_from (security_checks repr_list) c
              {| overall_status := "compliant"; checks := [];
                 violations := []; all_warnings := [];
                 all_recommendations := [] |}) as (S & _).
  rewrite S. unfold security_checks. cbn [existsb snd overall_status].
  rewrite at_rest_never_high, network_never_high, logging_never_high.
  cbn [orb]. now rewrite orb_false_r.
Qed.

Lemma section_other (c : config) k v name :
  String.eqb k name = false -> section (dict_set c k v) name = section c name.
Proof.
  intros E. unfold section, dict_get_default.
  now rewrite StageFacts.dict_get_set, E.
Qed.

(** X22. The report of the shipped checks is "non_compliant" in two cases
    only: the network section allows HTTP, or the service-account check
    gets through all accounts and one of them holds a broad role
    ("roles/owner", "roles/editor", "roles/iam.securityAdmin"). Nothing
    else decides: whatever the "logging", "pubsub" and "storage" sections
    hold (audit logging switched off included), the status is the same. *)
Theorem security_status_spec c :
  (overall_status (validate_security_config repr_list c) = "non_compliant"
   <-> (exists v, get (section c "network") "allow_http" (ABool false) = Ok v
                  /\ truthy v = true)
       \/ (exists accounts r,
             accounts_of c = Ok accounts
             /\ check_accounts repr_list
                  (passing "Service account permissions are appropriate")
                  accounts = Ok r
             /\ existsb broad_account accounts = true))
  /\ (overall_status (validate_security_config repr_list c) = "non_compliant"
      \/ overall_status (validate_security_config repr_list c) = "compliant")
  /\ forall k v,
       k = "logging" \/ k = "pubsub" \/ k = "storage" ->
       overall_status (validate_security_config repr_list (dict_set c k v))
       = overall_status (validate_security_config repr_list c).
Proof.
  split; [|split].
  - rewrite shipped_status, <- in_transit_high, <- service_accounts_high.
    destruct (high_failure (_check_encryption_in_transit c)),
      (high_failure (_check_service_account_permissions repr_list c));
      cbn [orb]; intuition discriminate.
  - rewrite shipped_status. destruct (_ || _); auto.
  - intros k v K. rewrite !shipped_status.
    unfold _check_encryption_in_transit, _check_service_account_permissions.
    rewrite !(section_other c k v "network"), !(section_other c k v "iam");
      [reflexivity| |];
      destruct K as [->|[->| ->]]; reflexivity.
Qed.

End Accounts.

(** ** Sample inputs *)

(** The configuration of [main.py] is compliant, with the two warnings on
    encryption keys; a configuration that says nothing is compliant too,
    with one violation of medium severity; and when the network section is
    not a dictionary the two checks that read it raise, are recorded as
    failed, and the report is compliant without violation. *)
Lemma security_examples :
  (let res := validate_security_config plain_repr main_security_config in
   overall_status res = "compliant" /\ violations res = []
   /\ all_warnings res
      = ["Pub/Sub not using customer-managed encryption keys";
         "Cloud Storage not using customer-managed encryption keys"])
  /\ (let res := validate_security_config plain_repr [] in
      overall_status res = "compliant"
      /\ violations res
         = [{| v_check := "data_access_logging";
               v_message := "Audit logging is not enabled";
               v_severity := "medium" |}])
  /\ (let res := validate_security_config plain_repr broken_network in
      overall_status res = "compliant" /\ violations res = []
      /\ crashed (security_checks plain_repr) broken_network
         = ["encryption_in_transit"; "network_security"]
      /\ dict_get (checks res) "encryption_in_transit"
         = Some (Crashed
                   "Check failed: 'str' object has no attribute 'get'")).
Proof. repeat split; vm_compute; reflexivity. Qed.

End SecurityFacts.

(* ================================================================== *)
(** * Results across modules                                           *)
(* ================================================================== *)

Module CompositionFacts.
Import Py Models DataQuality Monitor Transforms.
Import CheckerNotions MonitorNotions TransformNotions StageNotions.
Local Open Scope string_scope.
Local Open Scope list_scope.
Local Infix "+++" := String.append (right associativity, at level 60).

Section Shipped.
Context `{Rendering}.

(** ** [parse_timestamp] and the timestamp rule *)

(** X23. A timestamp written in UTC with the "Z" marker never passes the
    timestamp rule: whenever [fromisoformat] reads a string as a naive
    value, the same string followed by "Z" is parsed by [parse_timestamp]
    into an aware value, and on every event that carries it the rule
    returns the error of the comparison between naive and aware values,
    whatever the clock reads; the rule loop of [validate_event] then
    judges the event invalid, also when the schema step passes. *)
Theorem z_timestamp_fails_timestamp_rule s d e now :
  find "Z" (list_ascii_of_string s) = None ->
  (10 < String.length s)%nat ->
  fromisoformat s = Some d ->
  tzinfo d = None ->
  parse_timestamp (s +++ "Z") = Ok (timestamp e) ->
  rule_errors (_validate_timestamp now e)
  = ["Timestamp validation error: " +++ naive_aware_msg]
  /\ is_valid (validate_event_with SchemaPass (validation_rules now) e)
     = false.
Proof.
  intros NZ L F Z P. unfold fromisoformat in F.
  assert (T : tzinfo (timestamp e) = Some 0%Z).
  { unfold parse_timestamp in P.
    rewrite ModelFacts.list_ascii_of_string_app, ModelFacts.replace_char_app,
      (ModelFacts.replace_char_absent _ _ _ NZ) in P.
    change (replace_char "Z" (list_ascii_of_string "+00:00")
                         (list_ascii_of_string "Z")) with utc_suffix in P.
    rewrite (ModelFacts.fromisoformat_utc _ d) in P; auto.
    - injection P as <-. reflexivity.
    - now rewrite ModelFacts.length_list_ascii. }
  assert (R : _validate_timestamp now e
              = {| rule_errors :=
                     ["Timestamp validation error: " +++ naive_aware_msg];
                   rule_warnings := [];
                   severity := 0.8%float |}).
  { unfold _validate_timestamp, try_except, seq, when, dt_gt, dt_lt.
    cbn [tzinfo dt_add naive]. rewrite T. reflexivity. }
  split; [now rewrite R|].
  rewrite CheckerFacts.validate_event_with_spec by discriminate.
  cbn [is_valid after_schema st_errors app].
  rewrite CheckerFacts.loop_errors_shipped. unfold rule_results.
  cbn [map List.concat]. rewrite R. reflexivity.
Qed.

(** ** The checker and the monitor *)

Lemma valid_none rs :
  Forall (fun r => is_valid (r_result r) = false) rs ->
  filter (fun r => is_valid (r_result r)) rs = [].
Proof.
  induction 1 as [|r rs V F IH]; [reflexivity|].
  cbn [filter]. now rewrite V.
Qed.

Lemma errors_at_least rs :
  Forall (fun r => errors (r_result r) <> []) rs ->
  (List.length rs
   <= list_sum (map (fun r => List.length (errors (r_result r))) rs))%nat.
Proof.
  induction 1 as [|r rs V F IH]; [reflexivity|].
  cbn [map list_sum fold_right List.length]. unfold list_sum in IH.
  destruct (errors (r_result r)); [congruence|]. cbn [List.length]. lia.
Qed.

(** X24. A monitor that records what [validate_event] returns never counts
    a valid event: for any events, validated and recorded at any times, and
    any [int] window, [get_quality_metrics] raises [OverflowError] exactly
    when the cutoff cannot be computed (the window is too long); otherwise
    it either has no data or reports [valid_events = 0] and at least one
    error per event of the window. *)
Theorem monitor_of_checker_counts_no_valid_event
  (recorded : list (Z * VideoAnalyticsEvent * Z)) now window_minutes :
  let rs := map (fun r => {| r_now := snd r;
                             r_result := validate_event (fst (fst r))
                                                        (snd (fst r));
                             r_event_id := event_id (snd (fst r)) |})
                recorded in
  match get_quality_metrics now (record_all rs) window_minutes with
  | Raise ex => exn_cls ex = OverflowError
                /\ cutoff_in_range now window_minutes = false
  | Ok None => cutoff_in_range now window_minutes = true
  | Ok (Some q) => cutoff_in_range now window_minutes = true
                   /\ Monitor.valid_events q = 0%nat
                   /\ (Monitor.total_events q <= Monitor.total_errors q)%nat
                   /\ (1 <= Monitor.total_events q)%nat
  end.
Proof.
  cbv zeta. set (rs := map _ recorded).
  destruct (cutoff_in_range now window_minutes) eqn:R.
  2:{ destruct (MonitorFacts.recent_records_overflow now window_minutes
                  (record_all rs) R) as (message & _ & G).
      rewrite G. split; reflexivity. }
  assert (V : Forall (fun r => is_valid (r_result r) = false
                               /\ errors (r_result r) <> []) rs).
  { unfold rs. apply Forall_map, Forall_forall. intros r _.
    cbn [r_result].
    destruct (CheckerFacts.validate_event_never_valid (fst (fst r))
                                                      (snd (fst r)))
      as (I & _ & E).
    split; [exact I|]. intros N. rewrite N in E. discriminate. }
  unfold get_quality_metrics.
  rewrite (MonitorFacts.recent_records_spec _ _ _ R). cbn [bind].
  set (recent := filter (in_window now window_minutes) rs).
  assert (VR : Forall (fun r => is_valid (r_result r) = false
                                /\ errors (r_result r) <> []) recent).
  { apply Forall_forall. intros r I. apply filter_In in I.
    rewrite Forall_forall in V. now apply V. }
  assert (L : List.length (map history_of recent) = List.length recent)
    by apply length_map.
  destruct (map history_of recent) as [|h hs] eqn:M; [reflexivity|].
  assert (N : (1 <= List.length recent)%nat)
    by (rewrite <- L; cbn [List.length]; lia).
  clear L. rewrite <- M. clear M h hs.
  cbn [Monitor.valid_events Monitor.total_events Monitor.total_errors].
  rewrite MonitorFacts.valid_records, !length_map, map_map.
  rewrite valid_none
    by (eapply Forall_impl; [|exact VR]; now intros ? []).
  split; [reflexivity|]. split; [reflexivity|]. split.
  - cbn [history_of error_count].
    apply errors_at_least. eapply Forall_impl; [|exact VR]. now intros ? [].
  - exact N.
Qed.

End Shipped.

(** ** [EnrichEvent] and [FilterAnomalies] at the default threshold *)

Lemma compare_cont_below (a b m : positive) :
  (a < b)%positive ->
  Pos.compare_cont Eq b m = Lt -> Pos.compare_cont Eq a m = Lt.
Proof.
  intros AB. change (Pos.compare_cont Eq b m) with (Pos.compare b m).
  change (Pos.compare_cont Eq a m) with (Pos.compare a m).
  rewrite !Pos.compare_lt_iff. intros BM. now apply Pos.lt_trans with b.
Qed.

(** A float above 0.95 is above 0.9. *)
Lemma above_095_above_09 x :
  fgt x 0.95%float = true -> fgt x 0.9%float = true.
Proof.
  unfold fgt. rewrite !ltb_spec.
  replace (Prim2SF 0.95%float)
    with (S754_finite false 8556839292003942 (-53)) by reflexivity.
  replace (Prim2SF 0.9%float)
    with (S754_finite false 8106479329266893 (-53)) by reflexivity.
  destruct (Prim2SF x) as [s|s| |s m e]; try destruct s;
    cbn [SFltb SFcompare]; try congruence.
  destruct (-53 ?= e)%Z; try congruence.
  destruct (Pos.compare_cont Eq 8556839292003942 m) eqn:C; try discriminate.
  intros _.
  rewrite (compare_cont_below 8106479329266893 8556839292003942 m);
    [reflexivity|vm_compute; reflexivity|exact C].
Qed.

(** X25. At the default threshold of 0.95, every event that the classifier
    flags on its confidence (an anomaly whose type is not
    [anomaly_detected]) leaves enrichment with the "high_confidence"
    attribute set to [True]. *)
Theorem anomalous_detections_are_marked e :
  detect_anomaly default_confidence_threshold e = true ->
  event_type e <> ANOMALY_DETECTED ->
  dict_get (attributes_of (enrich e)) "high_confidence" = Some (PyBool true).
Proof.
  intros D N. rewrite StageFacts.enrich_lookup.
  enough (Hc : high_confidence_detection e = true).
  { rewrite Hc. cbn [String.eqb Ascii.eqb Bool.eqb andb orb]. reflexivity. }
  unfold detect_anomaly, default_confidence_threshold in D.
  unfold high_confidence_detection.
  destruct (event_type e); cbn in D; try discriminate; try congruence;
    (destruct (confidence (data e)) as [c|]; [|discriminate]);
    cbn [opt_float_truthy] in D;
    destruct (float_truthy c); cbn [andb] in *; try discriminate;
    destruct (PrimFloat.ltb 0.95%float c) eqn:G; cbn [andb] in D;
    try discriminate; now apply above_095_above_09.
Qed.

(** X25 at a person detection with confidence 0.96. *)
Lemma anomalous_detections_witness :
  detect_anomaly default_confidence_threshold
                 (event_of PERSON_DETECTED (Some 0.96%float)) = true
  /\ event_type (event_of PERSON_DETECTED (Some 0.96%float))
     <> ANOMALY_DETECTED
  /\ dict_get (attributes_of
                 (enrich (event_of PERSON_DETECTED (Some 0.96%float))))
              "high_confidence" = Some (PyBool true).
Proof.
  assert (D : detect_anomaly default_confidence_threshold
                (event_of PERSON_DETECTED (Some 0.96%float)) = true)
    by reflexivity.
  assert (N : event_type (event_of PERSON_DETECTED (Some 0.96%float))
              <> ANOMALY_DETECTED) by discriminate.
  split; [exact D|]. split; [exact N|].
  exact (anomalous_detections_are_marked _ D N).
Defined.

#[local] Existing Instance plain_rendering.

(** X23 at the timestamp of the repository's tests. *)
Lemma z_timestamp_witness :
  find "Z" (list_ascii_of_string "2023-12-01T10:30:00") = None
  /\ (10 < String.length "2023-12-01T10:30:00")%nat
  /\ fromisoformat "2023-12-01T10:30:00" = Some (Datetime now0 None)
  /\ parse_timestamp "2023-12-01T10:30:00Z" = Ok (timestamp aware_event)
  /\ rule_errors (_validate_timestamp now0 aware_event)
     = ["Timestamp validation error: " +++ naive_aware_msg].
Proof.
  assert (H1 : find "Z" (list_ascii_of_string "2023-12-01T10:30:00") = None)
    by reflexivity.
  assert (H2 : (10 < String.length "2023-12-01T10:30:00")%nat)
    by (vm_compute; lia).
  assert (H3 : fromisoformat "2023-12-01T10:30:00" = Some (Datetime now0 None))
    by (vm_compute; reflexivity).
  assert (H4 : parse_timestamp ("2023-12-01T10:30:00" +++ "Z")
               = Ok (timestamp aware_event))
    by (vm_compute; reflexivity).
  split; [exact H1|]. split; [exact H2|]. split; [exact H3|].
  split; [exact H4|].
  exact (proj1 (z_timestamp_fails_timestamp_rule
                  "2023-12-01T10:30:00" (Datetime now0 None) aware_event now0
                  H1 H2 H3 eq_refl H4)).
Defined.


End CompositionFacts.

(* ================================================================== *)
(** * Results on [pubsub/manager.py]                                   *)
(* ================================================================== *)

Module PubSubFacts.
Import Py Security PubSub.
Local Open Scope string_scope.
Local Open Scope list_scope.

Section Callback.
Variable json_loads : string -> result Any.
Variable message_handler : Any -> result Any.
Variable isoformat : Z -> string.

(** X26. The callback settles every message exactly once, by [ack] or by
    [nack], for every JSON parser and every handler. It acknowledges
    exactly when the message parses to a JSON object and the handler, given
    that object with the entry ['_pubsub_metadata'] set, returns a true
    value; in every other case (text that is not JSON, JSON that is not
    an object, a handler that returns a false value or raises) the message
    is refused, and a message that is not a JSON object never reaches the
    handler. *)
Theorem callback_settles_once m :
  let run := callback json_loads message_handler isoformat m in
  (run = [Ack] \/ run = [Nack])
  /\ (run = [Ack] <->
      exists kv success,
        json_loads (data m) = Ok (ADict kv)
        /\ message_handler
             (ADict (dict_set kv "_pubsub_metadata"
                              (pubsub_metadata isoformat m)))
           = Ok success
        /\ truthy success = true)
  /\ ((forall kv, json_loads (data m) <> Ok (ADict kv)) -> run = [Nack]).
Proof.
  cbv zeta. unfold callback, handle.
  destruct (json_loads (data m)) as [v|e]; cbn [bind].
  2:{ split; [now right|]. split; [|reflexivity].
      split; [discriminate|]. intros (? & ? & ? & _). discriminate. }
  destruct v as [ | | | | |items|kv]; cbn [set_item bind];
    try (split; [now right|]; split; [|reflexivity];
         split; [discriminate|]; intros (? & ? & ? & _); discriminate).
  destruct (message_handler _) as [success|e] eqn:Hd; cbn [bind].
  - destruct (truthy success) eqn:T.
    + split; [now left|]. split.
      * split; [intros _|reflexivity]. now exists kv, success.
      * intros N. now elim (N kv).
    + split; [now right|]. split.
      * split; [discriminate|].
        intros (kv' & s' & [= <-] & Hd' & T'). congruence.
      * reflexivity.
  - split; [now right|]. split; [|reflexivity].
    split; [discriminate|].
    intros (kv' & s' & [= <-] & Hd' & _). congruence.
Qed.

End Callback.

End PubSubFacts.
